(** * Converse activation, converse intents and response collection of a skill

    A shallow embedding of [ConversationalSkill]
    (ovos_workshop/skills/converse.py) and of the [get_response] machinery of
    [OVOSSkill] (ovos_workshop/skills/ovos.py), followed by the properties of
    the specification that are stated about them.

    Conventions.
    - Python values that cross the message bus are values of [pyval]; numbers
      (minutes, confidences) are exact rationals.
    - A message payload and a message context are Python dicts in insertion
      order: association lists with [dict_get] and [dict_set].
    - The two session-keyed mailboxes of the skill are finite maps.
    - A method of the skill is a computation in the monad [M]: it threads the
      skill object and may raise.  What a handler emits on the bus is appended
      to the [bus] log of the skill. *)

From Stdlib Require Import ZArith QArith Ascii Bool Lia.
From stdpp Require Import base strings list gmap fin_maps.

Set Warnings "-register-all".
Local Open Scope Z_scope.

(** ** Python values *)

Inductive pyval : Type :=
| PNone
| PBool (b : bool)
| PNum (q : Q)
| PStr (s : string)
| PList (items : list pyval)
| PDict (entries : list (string * pyval)).

Abbreviation pydict := (list (string * pyval)).

(** [bool(v)] *)
Definition truthy (v : pyval) : bool :=
  match v with
  | PNone => false
  | PBool b => b
  | PNum q => negb (Qeq_bool q 0)
  | PStr s => negb (String.eqb s "")
  | PList items => match items with [] => false | _ :: _ => true end
  | PDict entries => match entries with [] => false | _ :: _ => true end
  end.

(** [v is True] *)
Definition is_True (v : pyval) : bool :=
  match v with PBool true => true | _ => false end.

(** [v is None] *)
Definition is_None (v : pyval) : bool :=
  match v with PNone => true | _ => false end.

(** [isinstance(v, list)] *)
Definition is_list (v : pyval) : bool :=
  match v with PList _ => true | _ => false end.

Definition utterances_val (us : list string) : pyval := PList (map PStr us).

(** ** Dicts in insertion order *)

Fixpoint dict_get {V : Type} (d : list (string * V)) (k : string) : option V :=
  match d with
  | [] => None
  | (k', v) :: d' => if String.eqb k' k then Some v else dict_get d' k
  end.

(** [d[k] = v]: an existing key keeps its position, a new one goes last. *)
Fixpoint dict_set {V : Type} (d : list (string * V)) (k : string) (v : V)
  : list (string * V) :=
  match d with
  | [] => [(k, v)]
  | (k', v') :: d' =>
      if String.eqb k' k then (k', v) :: d' else (k', v') :: dict_set d' k v
  end.

Definition dict_has {V : Type} (d : list (string * V)) (k : string) : bool :=
  match dict_get d k with Some _ => true | None => false end.

Definition dict_keys {V : Type} (d : list (string * V)) : list string :=
  map fst d.

(** ** Sessions and messages (ovos_bus_client) *)

Inductive UtteranceState := INTENT | RESPONSE.

Record Session := {
  session_id : string;
  session_lang : string;
  utterance_states : list (string * UtteranceState)
}.

Definition enable_response_mode (skill : string) (s : Session) : Session :=
  {| session_id := session_id s; session_lang := session_lang s;
     utterance_states := dict_set (utterance_states s) skill RESPONSE |}.

Definition disable_response_mode (skill : string) (s : Session) : Session :=
  {| session_id := session_id s; session_lang := session_lang s;
     utterance_states := dict_set (utterance_states s) skill INTENT |}.

(** The ["session"] entry of a message context is kept apart from the other
    entries, in its deserialised form. *)
Record Message := {
  msg_type : string;
  data : pydict;
  context : pydict;
  session : option Session
}.

(** [Message(msg_type, data, context)] *)
Definition new_message (ty : string) (d ctx : pydict) : Message :=
  {| msg_type := ty; data := d; context := ctx; session := None |}.

(** [message.forward(msg_type, data)]: same context. *)
Definition forward (m : Message) (ty : string) (d : pydict) : Message :=
  {| msg_type := ty; data := d; context := context m; session := session m |}.

(** [message.context[k] = v] *)
Definition set_context (k : string) (v : pyval) (m : Message) : Message :=
  {| msg_type := msg_type m; data := data m;
     context := dict_set (context m) k v; session := session m |}.

(** [message.context["session"] = sess.serialize()] *)
Definition set_session (s : Session) (m : Message) : Message :=
  {| msg_type := msg_type m; data := data m;
     context := context m; session := Some s |}.

(** ** Converse intent containers (padacioso) *)

Record IntentContainer := {
  fuzz : bool;
  intent_samples : list (string * list string)
}.

(** [IntentContainer(fuzz=fuzzy)] *)
Definition new_container (fuzzy : bool) : IntentContainer :=
  {| fuzz := fuzzy; intent_samples := [] |}.

Definition add_intent (name : string) (samples : list string)
    (c : IntentContainer) : IntentContainer :=
  {| fuzz := fuzz c; intent_samples := intent_samples c ++ [(name, samples)] |}.

(** What [calc_intent] answers: a dict with [name], [conf] and [entities], or
    a dict without [conf] when nothing matched. *)
Inductive IntentMatch :=
| NoMatch
| Matched (name : string) (conf : Q) (entities : pydict).

(** [match.get("conf", 0)] *)
Definition match_conf (m : IntentMatch) : Q :=
  match m with NoMatch => 0%Q | Matched _ conf _ => conf end.

(** ** The skill object *)

Record Skill := {
  skill_id : string;
  (** [self.converse_matchers]: language tag to container *)
  converse_matchers : list (string * IntentContainer);
  (** handlers registered through [add_event]: event name, handler, info *)
  events : list (string * string * option string);
  (** [self.__responses]: [None] is Python's [None], [Some []] the empty list *)
  responses : gmap string (option (list string));
  (** [self.__validated_responses] *)
  validated_responses : gmap string pyval;
  (** everything emitted on the bus so far, oldest first *)
  bus : list Message
}.

Definition set_converse_matchers (f : list (string * IntentContainer) →
    list (string * IntentContainer)) (st : Skill) : Skill :=
  {| skill_id := skill_id st; converse_matchers := f (converse_matchers st);
     events := events st; responses := responses st;
     validated_responses := validated_responses st; bus := bus st |}.

Definition set_events (f : list (string * string * option string) →
    list (string * string * option string)) (st : Skill) : Skill :=
  {| skill_id := skill_id st; converse_matchers := converse_matchers st;
     events := f (events st); responses := responses st;
     validated_responses := validated_responses st; bus := bus st |}.

Definition set_responses (f : gmap string (option (list string)) →
    gmap string (option (list string))) (st : Skill) : Skill :=
  {| skill_id := skill_id st; converse_matchers := converse_matchers st;
     events := events st; responses := f (responses st);
     validated_responses := validated_responses st; bus := bus st |}.

Definition set_validated_responses (f : gmap string pyval → gmap string pyval)
    (st : Skill) : Skill :=
  {| skill_id := skill_id st; converse_matchers := converse_matchers st;
     events := events st; responses := responses st;
     validated_responses := f (validated_responses st); bus := bus st |}.

Definition set_bus (f : list Message → list Message) (st : Skill) : Skill :=
  {| skill_id := skill_id st; converse_matchers := converse_matchers st;
     events := events st; responses := responses st;
     validated_responses := validated_responses st; bus := f (bus st) |}.

(** ** Exceptions and the method monad *)

Inductive exn :=
| AbortQuestion
| AbortEvent
| KeyError (key : string)
| AttributeError (attr : string)
| OtherError (name : string).

(** [except (AbortQuestion, AbortEvent)] *)
Definition is_abort (e : exn) : bool :=
  match e with AbortQuestion | AbortEvent => true | _ => false end.

Inductive result (A : Type) :=
| Ok (a : A)
| Raise (e : exn).
Arguments Ok {A} a.
Arguments Raise {A} e.

Definition M (A : Type) : Type := Skill → result A * Skill.

#[export] Instance M_ret : MRet M := λ A a st, (Ok a, st).

#[export] Instance M_bind : MBind M := λ A B f m st,
  match m st with
  | (Ok a, st') => f a st'
  | (Raise e, st') => (Raise e, st')
  end.

Definition raise {A : Type} (e : exn) : M A := λ st, (Raise e, st).

(** read a field of [self] *)
Definition gets {A : Type} (f : Skill → A) : M A := λ st, (Ok (f st), st).

(** assign a field of [self] *)
Definition modify (f : Skill → Skill) : M unit := λ st, (Ok tt, f st).

(** [try: body except e: handler(e)]; what [body] did to the skill before it
    raised stays done. *)
Definition try_except {A : Type} (body : M A) (handler : exn → M A) : M A :=
  λ st, match body st with
        | (Ok a, st') => (Ok a, st')
        | (Raise e, st') => handler e st'
        end.

(** [self.bus.emit(m)] *)
Definition emit (m : Message) : M unit := modify (set_bus (λ b, b ++ [m])).

(** [d[k]] on a payload: [KeyError] when the key is missing. *)
Definition subscript (d : pydict) (k : string) : M pyval :=
  match dict_get d k with
  | Some v => mret v
  | None => raise (KeyError k)
  end.

(** [for x in xs: body(x)] *)
Fixpoint for_each {A : Type} (xs : list A) (body : A → M unit) : M unit :=
  match xs with
  | [] => mret tt
  | x :: xs' => body x;; for_each xs' body
  end.

(** ** Text of a resource file *)

(** White space as [str.strip] knows it, on the UTF-8 bytes of the text
    (the files are read as UTF-8): the code points U+0009 to U+000D, U+001C
    to U+001F and U+0020 of one byte, U+0085 and U+00A0 of two bytes, and
    U+1680, U+2000 to U+200A, U+2028, U+2029, U+202F, U+205F and U+3000 of
    three bytes. *)
Definition is_space (c : ascii) : bool :=
  let n := nat_of_ascii c in
  ((9 <=? n)%nat && (n <=? 13)%nat) || ((28 <=? n)%nat && (n <=? 32)%nat).

Definition is_space2 (a b : ascii) : bool :=
  let a := nat_of_ascii a in
  let b := nat_of_ascii b in
  (a =? 194)%nat && ((b =? 133)%nat || (b =? 160)%nat).

Definition is_space3 (a b c : ascii) : bool :=
  let a := nat_of_ascii a in
  let b := nat_of_ascii b in
  let c := nat_of_ascii c in
  ((a =? 225)%nat && (b =? 154)%nat && (c =? 128)%nat)
  || ((a =? 226)%nat && (b =? 128)%nat
      && (((128 <=? c)%nat && (c <=? 138)%nat)
          || (c =? 168)%nat || (c =? 169)%nat || (c =? 175)%nat))
  || ((a =? 226)%nat && (b =? 129)%nat && (c =? 159)%nat)
  || ((a =? 227)%nat && (b =? 128)%nat && (c =? 128)%nat).

(** [s.lstrip()] *)
Fixpoint lstrip (s : string) : string :=
  match s with
  | String c1 s1 =>
      if is_space c1 then lstrip s1
      else
        match s1 with
        | String c2 s2 =>
            if is_space2 c1 c2 then lstrip s2
            else
              match s2 with
              | String c3 s3 => if is_space3 c1 c2 c3 then lstrip s3 else s
              | EmptyString => s
              end
        | EmptyString => s
        end
  | EmptyString => EmptyString
  end.

(** the bytes [l] of a text, last byte first, without the white space the
    text ends with *)
Fixpoint rstrip_bytes (l : list ascii) : list ascii :=
  match l with
  | c1 :: l1 =>
      if is_space c1 then rstrip_bytes l1
      else
        match l1 with
        | c2 :: l2 =>
            if is_space2 c2 c1 then rstrip_bytes l2
            else
              match l2 with
              | c3 :: l3 => if is_space3 c3 c2 c1 then rstrip_bytes l3 else l
              | [] => l
              end
        | [] => l
        end
  | [] => []
  end.

(** [s.rstrip()] *)
Definition rstrip (s : string) : string :=
  String.string_of_list_ascii
    (rev (rstrip_bytes (rev (String.list_ascii_of_string s)))).

(** [l.strip()] *)
Definition strip (s : string) : string := rstrip (lstrip s).

(** [text.split("\n")]; [cur] is the line read so far, last character first. *)
Fixpoint split_lines_from (cur : list ascii) (s : string) : list string :=
  match s with
  | EmptyString => [String.string_of_list_ascii (rev cur)]
  | String c s' =>
      if Ascii.eqb c "010"%char
      then String.string_of_list_ascii (rev cur) :: split_lines_from [] s'
      else split_lines_from (c :: cur) s'
  end.

Definition split_lines (s : string) : list string := split_lines_from [] s.

(** [l.startswith("#")] *)
Definition is_comment (l : string) : bool :=
  match l with
  | String c _ => Ascii.eqb c "#"%char
  | EmptyString => false
  end.

(** [[l.strip() for l in f.read().split("\n") if l and not l.startswith("#")]] *)
Definition read_samples (text : string) : list string :=
  map strip
    (filter (λ l, negb (String.eqb l "") && negb (is_comment l))
            (split_lines text)).

(** ** Collaborators

    What the two classes call but do not define: the language library
    (langcodes, ovos_utils.lang), the intent engine (padacioso), the session
    and message helpers (ovos_bus_client), configuration and settings, the
    resource files, and the methods a concrete skill supplies. *)

(** The keyword arguments [_handle_converse_request] may pass to [converse]. *)
Record ConverseKwargs := {
  kw_message : option Message;
  kw_utterances : option pyval;
  kw_lang : option string
}.

(** The [converse] method of the skill ([self.converse], which the skill
    author writes): the names of its parameters
    ([signature(self.converse).parameters]) and what a call does. *)
Record ConverseHandler := {
  parameters : list string;
  call : ConverseKwargs → M pyval
}.

Class Collaborators := {
  (** [ovos_utils.lang.standardize_lang_tag] *)
  standardize_lang_tag : string → string;
  (** [langcodes.standardize_tag] *)
  standardize_tag : string → string;
  (** [langcodes.tag_distance] *)
  tag_distance : string → string → nat;
  (** [ovos_bus_client.util.get_message_lang] *)
  get_message_lang : Message → string;
  (** [SessionManager.default_session] *)
  default_session : Session;
  (** the context of [message.reply(msg_type, data, context)], from the
      context of [message], [data] and [context] *)
  reply_context : pydict → pydict → pydict → pydict;
  (** [padacioso.IntentContainer.calc_intent] *)
  calc_intent : IntentContainer → string → IntentMatch;
  (** [repr(e)] *)
  repr : exn → string;
  (** [self.config_core.get("lang")] *)
  config_lang : option string;
  (** [self.config_core.get("secondary_langs")] *)
  config_secondary_langs : option (list string);
  (** [Configuration().get("converse", {}).get("timeout")], in seconds *)
  config_converse_timeout : option Q;
  (** [self.settings.get("strict_intents")] as a truth value *)
  settings_strict_intents : option bool;
  (** [self.settings.get("min_intent_conf")] *)
  settings_min_intent_conf : option Q;
  (** text of the intent resource file of a language, when there is one *)
  intent_file_text : string → string → option string;
  (** [self.voc_match(utt, voc_filename, lang=lang)] *)
  voc_match : string → string → string → bool;
  (** [self.dialog_renderer.render], when there is a renderer *)
  dialog_renderer : option (string → pydict → string)
}.

Section ConversationalSkill.
Context `{Collaborators}.

(** [SessionManager.get(message)] *)
Definition SessionManager_get (m : Message) : Session :=
  default default_session (session m).

(** [message.reply(msg_type, data, context)] *)
Definition reply (m : Message) (ty : string) (d ctx : pydict) : Message :=
  {| msg_type := ty; data := d;
     context := reply_context (context m) d ctx; session := session m |}.

(** [self.core_lang] *)
Definition core_lang : string :=
  standardize_lang_tag (default "en-US" config_lang).

(** [self.lang]; [dug] is what [dig_for_message()] finds on the call stack. *)
Definition lang (dug : option Message) : string :=
  standardize_lang_tag
    (match dug with Some m => get_message_lang m | None => core_lang end).

(** [self.secondary_langs] *)
Definition secondary_langs : list string :=
  map standardize_lang_tag
    (filter (λ l, negb (String.eqb l core_lang))
            (default [] config_secondary_langs)).

(** [self.native_langs]; the order in which Python lists a set is not
    fixed, here it is the order of first occurrence. *)
Definition native_langs : list string :=
  remove_dups
    (map standardize_lang_tag
         (filter (λ l, negb (String.eqb l core_lang)) secondary_langs)
     ++ [core_lang]).

(** *** activate / deactivate *)

Definition activate (duration_minutes : pyval) (dug : option Message)
  : M unit :=
  let duration_minutes :=
    if is_None duration_minutes
    then PNum (default 300%Q config_converse_timeout / 60)
    else duration_minutes in
  let msg := default (new_message "" [] []) dug in
  sid ← gets skill_id;
  let msg := if dict_has (context msg) "skill_id" then msg
             else set_context "skill_id" (PStr sid) msg in
  let m1 := forward msg "intent.service.skills.activate"
              [("skill_id", PStr sid); ("timeout", duration_minutes)] in
  emit m1.

Definition deactivate (dug : option Message) : M unit :=
  let msg := default (new_message "" [] []) dug in
  sid ← gets skill_id;
  let msg := if dict_has (context msg) "skill_id" then msg
             else set_context "skill_id" (PStr sid) msg in
  emit (forward msg "intent.service.skills.deactivate"
          [("skill_id", PStr sid)]).

(** *** Registration of converse intents *)

(** [self.add_event(name, handler, handler_info)] *)
Definition add_event (name handler : string) (handler_info : option string)
  : M unit :=
  modify (set_events (λ evs, evs ++ [(name, handler, handler_info)])).

(** [d[k].add_intent(name, samples)]; where it is used the key has just been
    set, to an empty container. *)
Fixpoint dict_add_intent (d : list (string * IntentContainer))
    (k name : string) (samples : list string)
  : list (string * IntentContainer) :=
  match d with
  | [] => []
  | (k', c) :: d' =>
      if String.eqb k' k then (k', add_intent name samples c) :: d'
      else (k', c) :: dict_add_intent d' k name samples
  end.

Definition register_converse_intent (intent_file handler : string) : M unit :=
  sid ← gets skill_id;
  let name := sid +:+ ".converse:" +:+ intent_file in
  let fuzzy := negb (default false settings_strict_intents) in
  for_each native_langs (λ lang,
    modify (set_converse_matchers
              (λ d, dict_set d lang (new_container fuzzy)));;
    match intent_file_text (standardize_lang_tag lang) intent_file with
    | None => mret tt
    | Some text =>
        let samples := read_samples text in
        modify (set_converse_matchers
                  (λ d, dict_add_intent d lang name samples))
    end);;
  add_event name handler (Some "mycroft.skill.handler").

(** *** Language resolution *)

(** [match_distances.sort(key=itemgetter(1))] is a stable sort: insertion
    from the right, an element going before the first one that is not
    closer than it. *)
Fixpoint insert_by_distance (x : string * nat) (l : list (string * nat))
  : list (string * nat) :=
  match l with
  | [] => [x]
  | y :: l' =>
      if (x.2 <=? y.2)%nat then x :: l else y :: insert_by_distance x l'
  end.

Definition sort_by_distance (l : list (string * nat)) : list (string * nat) :=
  foldr insert_by_distance [] l.

(** [langcodes.closest_match(desired, supported)], [max_distance] 25 *)
Definition closest_match (desired_language : string)
    (supported_languages : list string) : string * nat :=
  if bool_decide (desired_language ∈ supported_languages)
  then (desired_language, 0%nat)
  else
    let desired_language := standardize_tag desired_language in
    if bool_decide (desired_language ∈ supported_languages)
    then (desired_language, 0%nat)
    else
      let match_distances :=
        map (λ supported, (supported, tag_distance desired_language supported))
            supported_languages in
      let match_distances :=
        filter (λ p, (p.2 <=? 25)%nat) match_distances
        ++ [("und", 1000%nat)] in
      hd ("und", 1000%nat) (sort_by_distance match_distances).

Definition _get_closest_lang (st : Skill) (lang : string) : option string :=
  match converse_matchers st with
  | [] => None
  | _ :: _ =>
      let lang := standardize_lang_tag lang in
      let '(closest, score) :=
        closest_match lang (dict_keys (converse_matchers st)) in
      if (score <? 10)%nat then Some closest else None
  end.

(** *** Converse requests *)

Definition _handle_converse_ack (message : Message) : M unit :=
  sid ← gets skill_id;
  emit (reply message "skill.converse.pong"
          [("skill_id", PStr sid); ("can_handle", PBool true)]
          [("skill_id", PStr sid)]).

(** [message.forward] on what [dig_for_message()] found: an
    [AttributeError] when it found nothing. *)
Definition dug_forward (dug : option Message) (ty : string) (d : pydict)
  : M Message :=
  match dug with
  | Some m => mret (forward m ty d)
  | None => raise (AttributeError "forward")
  end.

Definition _on_timeout (dug : option Message) : M unit :=
  sid ← gets skill_id;
  m ← dug_forward dug (sid +:+ ".converse.killed")
        [("error", PStr "timed out")];
  emit m.

(** a payload entry that has to be a list of strings *)
Fixpoint strings_of (items : list pyval) : option (list string) :=
  match items with
  | [] => Some []
  | PStr s :: items' => (s ::.) <$> strings_of items'
  | _ :: _ => None
  end.

(** [message.data['utterances']], iterated as utterances *)
Definition data_utterances (message : Message) : M (list string) :=
  v ← subscript (data message) "utterances";
  match v with
  | PList items =>
      match strings_of items with
      | Some us => mret us
      | None => raise (OtherError "TypeError")
      end
  | _ => raise (OtherError "TypeError")
  end.

Definition Qltb (a b : Q) : bool := negb (Qle_bool b a).

(** The loop of [_handle_converse_intents] over the utterances, from the
    current [best_score] and [response]. *)
Fixpoint score_utterances (message : Message) (utterances : list string)
    (best_score : Q) (response : option Message)
  : M (Q * option Message) :=
  match utterances with
  | [] => mret (best_score, response)
  | utt :: utterances' =>
      matchers ← gets converse_matchers;
      let self_lang := lang (Some message) in
      match dict_get matchers self_lang with
      | None => raise (KeyError self_lang)
      | Some container =>
          let m := calc_intent container utt in
          if Qltb best_score (match_conf m) then
            match m with
            | Matched name conf entities =>
                score_utterances message utterances' conf
                  (Some (forward message name entities))
            | NoMatch => raise (KeyError "conf")
            end
          else score_utterances message utterances' best_score response
      end
  end.

(** [None], [False] or [True] *)
Definition _handle_converse_intents (message : Message) : M (option bool) :=
  closest ← gets (λ st, _get_closest_lang st (lang (Some message)));
  match closest with
  | None => mret None
  | Some _ =>
      utterances ← data_utterances message;
      '(best_score, response) ← score_utterances message utterances 0%Q None;
      match response with
      | None => mret (Some false)
      | Some response =>
          if Qltb best_score (default (1 # 2)%Q settings_min_intent_conf)
          then mret (Some false)
          else emit response;; mret (Some true)
      end
  end.

(** [{k: v for k, v in kwargs.items() if k in params}] *)
Definition filter_kwargs (params : list string) (message : Message)
    (utterances : pyval) (lang : string) : ConverseKwargs :=
  {| kw_message :=
       if bool_decide ("message" ∈ params) then Some message else None;
     kw_utterances :=
       if bool_decide ("utterances" ∈ params) then Some utterances else None;
     kw_lang :=
       if bool_decide ("lang" ∈ params) then Some lang else None |}.

Definition converse_response (sid : string) (result : pyval) : pydict :=
  [("skill_id", PStr sid); ("result", result)].

Definition converse_failure (sid error : string) : pydict :=
  [("skill_id", PStr sid); ("error", PStr error); ("result", PBool false)].

Definition _handle_converse_request (converse : ConverseHandler)
    (message : Message) : M unit :=
  sid ← gets skill_id;
  handled ← _handle_converse_intents message;
  if default false handled then
    emit (reply message "skill.converse.response"
            (converse_response sid (PBool true)) [])
  else
    try_except
      (let params := parameters converse in
       utterances ← subscript (data message) "utterances";
       lang_val ← subscript (data message) "lang";
       lang ← match lang_val with
              | PStr l => mret (standardize_lang_tag l)
              | _ => raise (OtherError "TypeError")
              end;
       result ← call converse (filter_kwargs params message utterances lang);
       emit (reply message "skill.converse.response"
               (converse_response sid result) []))
      (λ e,
         if is_abort e then
           emit (reply message "skill.converse.response"
                   (converse_failure sid "killed") [])
         else
           emit (reply message "skill.converse.response"
                   (converse_failure sid (repr e)) [])).

(** *** Speaking *)

(** [self.speak(utterance, expect_response, meta=meta)]; the callers below
    pass no translation metadata, and waiting for the speech to end leaves
    the skill as it is. *)
Definition speak (utterance : pyval) (expect_response : bool) (meta : pydict)
    (dug : option Message) : M unit :=
  sid ← gets skill_id;
  let meta := dict_set meta "skill" (PStr sid) in
  let data := [("utterance", utterance);
               ("expect_response", PBool expect_response);
               ("meta", PDict meta);
               ("lang", PStr (lang dug))] in
  let m := match dug with
           | Some message => forward message "speak" data
           | None => new_message "speak" data []
           end in
  let m := set_context "skill_id" (PStr sid) m in
  emit m.

Definition speak_dialog (key : string) (data : pydict)
    (expect_response : bool) (dug : option Message) : M unit :=
  match dialog_renderer with
  | Some render =>
      let utterance := render key data in
      speak (PStr utterance) expect_response
        [("dialog", PStr key); ("data", PDict data)] dug
  | None => speak (PStr key) expect_response [] dug
  end.

(** *** Response collection

    [get_response] starts a worker ([_real_wait_response]) and polls the
    validated mailbox of the session.  The worker goes through wait cycles;
    what happens on the bus during one cycle is a [wait_event]. *)

Inductive wait_event :=
(** the timeout passes and nothing was delivered *)
| Silence
(** a get_response message of session [sid] delivers [utterances] *)
| Heard (sid : string) (utterances : list string)
(** the abort (or stop) message [m] kills the worker *)
| Aborted (m : Message).

(** Where the worker is after a cycle. *)
Inductive worker :=
(** blocked in [__get_response], with its counter of empty cycles *)
| Waiting (num_fails : Z)
| Returned.

(** What the caller of [get_response] has after the cycles given. *)
Inductive collected :=
(** [get_response] returned [ans] *)
| Answer (ans : pyval)
(** the worker waits for the next cycle, the poll loop goes on *)
| Listening
(** the worker is gone and the poll loop cannot end: the validated
    mailbox holds a value that is neither true nor [None] *)
| Unanswered.

Definition __handle_get_response (sid2 : string) (utterances : list string)
  : M unit :=
  rs ← gets responses;
  match rs !! sid2 with
  | None => mret tt
  | Some _ => modify (set_responses <[sid2 := Some utterances]>)
  end.

(** One wait of [__get_response]: what is in the mailbox of the session
    when the wait ends. *)
Definition __get_response (sess : Session) (ev : wait_event)
  : M (option (list string)) :=
  match ev with
  | Heard sid2 utterances => __handle_get_response sid2 utterances
  | _ => mret tt
  end;;
  rs ← gets responses;
  match rs !! session_id sess with
  | None => raise (KeyError (session_id sess))
  | Some ans => mret ans
  end.

Definition _validate_response (response : list string) (sess : Session)
    (is_cancel : string → bool) (validator : string → pyval)
    (on_fail : list string → pyval) : M pyval :=
  match response with
  | [] => raise (OtherError "IndexError")
  | ans :: _ =>
      if is_cancel ans then
        modify (set_responses <[session_id sess := None]>);;
        modify (set_validated_responses <[session_id sess := PNone]>);;
        mret PNone
      else
        let validated := validator ans in
        if negb (truthy validated) then
          let reprompt_speak := on_fail response in
          modify (set_responses <[session_id sess := Some []]>);;
          mret reprompt_speak
        else
          modify (set_validated_responses
                    <[session_id sess :=
                        if is_True validated then PStr ans else validated]>);;
          modify (set_responses <[session_id sess := None]>);;
          mret PNone
  end.

Definition _handle_killed_wait_response (dug : option Message) : M unit :=
  modify (set_responses (fmap (λ _, None)));;
  modify (set_validated_responses (fmap (λ _, PNone)));;
  sid ← gets skill_id;
  m ← dug_forward dug (sid +:+ ".get_response.killed") [];
  emit m.

(** Modelled from the spec: the [killable_event] decorator
    (ovos_workshop/decorators/killable.py), through which an abort reaches
    the worker.  An abort or stop request makes the worker unwind at once
    from where it waits; the callback of the decorator, which is
    [_handle_killed_wait_response], then runs inside the handler of the
    abort message [m], the message [dig_for_message] finds there. *)
Definition abort_worker (m : Message) : M worker :=
  _handle_killed_wait_response (Some m);; mret Returned.

(** The end of one turn of the [while True] loop: return when the mailbox
    of the session holds [None] (or is gone), else prompt again. *)
Definition reprompt_or_return (sess : Session) (message : Message)
    (reprompt : pyval) (num_fails : Z) : M worker :=
  rs ← gets responses;
  match rs !! session_id sess with
  | None | Some None => mret Returned
  | Some (Some _) =>
      (if truthy reprompt
       then speak reprompt true [] (Some message)
       else emit (reply message "mycroft.mic.listen" [] []));;
      mret (Waiting num_fails)
  end.

(** One turn of the [while True] loop of [_real_wait_response]. *)
Definition wait_cycle (is_cancel : string → bool) (validator : string → pyval)
    (on_fail : list string → pyval) (num_retries : Z) (message : Message)
    (sess : Session) (num_fails : Z) (ev : wait_event) : M worker :=
  match ev with
  | Aborted m => abort_worker m
  | _ =>
      response ← __get_response sess ev;
      match response with
      | None => mret Returned
      | Some [] =>
          let num_fails := num_fails + 1 in
          (if (num_retries <=? num_fails) && (0 <=? num_retries) then
             modify (set_responses <[session_id sess := None]>);;
             modify (set_validated_responses <[session_id sess := PNone]>)
           else mret tt);;
          reprompt_or_return sess message PNone num_fails
      | Some ((_ :: _) as response) =>
          reprompt ← _validate_response response sess
                       is_cancel validator on_fail;
          let num_fails := if truthy reprompt then 0 else num_fails in
          reprompt_or_return sess message reprompt num_fails
      end
  end.

Fixpoint wait_loop (is_cancel : string → bool) (validator : string → pyval)
    (on_fail : list string → pyval) (num_retries : Z) (message : Message)
    (sess : Session) (num_fails : Z) (events : list wait_event) : M worker :=
  match events with
  | [] => mret (Waiting num_fails)
  | ev :: events' =>
      w ← wait_cycle is_cancel validator on_fail num_retries message sess
            num_fails ev;
      match w with
      | Waiting num_fails' =>
          wait_loop is_cancel validator on_fail num_retries message sess
            num_fails' events'
      | Returned => mret Returned
      end
  end.

Definition _real_wait_response (is_cancel : string → bool)
    (validator : string → pyval) (on_fail : list string → pyval)
    (num_retries : Z) (message : Message) (events : list wait_event)
  : M worker :=
  sid ← gets skill_id;
  emit (forward message (sid +:+ ".get_response.waiting") []);;
  let sess := SessionManager_get message in
  let num_fails := 0 in
  modify (set_validated_responses <[session_id sess := PList []]>);;
  wait_loop is_cancel validator on_fail num_retries message sess
    num_fails events.

(** The poll loop of [_wait_response] and what follows it.  Once the worker
    has returned nothing writes the mailbox any more: every poll reads the
    same value, and the loop ends at its first poll or never. *)
Definition await_validated (sess : Session) (w : worker) : M collected :=
  match w with
  | Waiting _ => mret Listening
  | Returned =>
      vs ← gets validated_responses;
      let ans := default PNone (vs !! session_id sess) in
      if truthy ans || is_None ans then
        modify (set_validated_responses (delete (session_id sess)));;
        match ans with
        | PList (first :: _) => mret (Answer first)
        | PList [] => raise (OtherError "IndexError")
        | _ => mret (Answer ans)
        end
      else mret Unanswered
  end.

(** How the worker ended, as its caller has it: an exception that leaves
    [_real_wait_response] ends the thread of the worker and goes no
    further. *)
Definition joined (r : result worker) : worker :=
  match r with
  | Ok w => w
  | Raise _ => Returned
  end.

Definition _wait_response (is_cancel : string → bool)
    (validator : string → pyval) (on_fail : list string → pyval)
    (num_retries : Z) (message : Message) (events : list wait_event)
  : M collected :=
  let session := SessionManager_get message in
  λ st,
    let '(r, st') :=
      _real_wait_response is_cancel validator on_fail num_retries message
        events st in
    await_validated session (joined r) st'.

(** The [on_fail] argument of [get_response]: nothing, a dialog, or a
    function of the failing response. *)
Inductive on_fail_arg :=
| OnFailNone
| OnFailDialog (dialog : string)
| OnFailCall (f : list string → pyval).

Definition on_fail_default (dialog : string) (data : pydict)
    (on_fail : on_fail_arg) (utterance : list string) : pyval :=
  let fail_data := dict_set data "utterance" (utterances_val utterance) in
  match on_fail with
  | OnFailDialog d =>
      if negb (String.eqb d "") then
        match dialog_renderer with
        | Some render => PStr (render d fail_data)
        | None => PStr d
        end
      else
        match dialog_renderer with
        | Some render => PStr (render dialog data)
        | None => PStr dialog
        end
  | _ =>
      match dialog_renderer with
      | Some render => PStr (render dialog data)
      | None => PStr dialog
      end
  end.

(** [message or dig_for_message() or Message('mycroft.mic.listen', ...)] *)
Definition request_message (sid : string) (message dug : option Message)
  : Message :=
  match message, dug with
  | Some m, _ => m
  | None, Some m => m
  | None, None =>
      new_message "mycroft.mic.listen" [] [("skill_id", PStr sid)]
  end.

(** the nested [is_cancel] of [get_response] *)
Definition is_cancel (session : Session) (utterance : string) : bool :=
  voc_match utterance "cancel" (session_lang session).

(** the nested [validator_default] of [get_response] *)
Definition validator_default (session : Session) (utterance : string)
  : pyval :=
  PBool (negb (is_cancel session utterance)).

(** [on_fail if callable(on_fail) else on_fail_default] *)
Definition on_fail_fn (dialog : string) (data : pydict)
    (on_fail : on_fail_arg) : list string → pyval :=
  match on_fail with
  | OnFailCall f => f
  | _ => on_fail_default dialog data on_fail
  end.

(** The end of [get_response], reached when [_wait_response] returns. *)
Definition leave_response_mode (sid : string) (session : Session)
    (message : Message) (ans : collected) : M collected :=
  match ans with
  | Answer v =>
      let session := disable_response_mode sid session in
      let message := set_session session message in
      emit (forward message "skill.converse.get_response.disable"
              [("skill_id", PStr sid)]);;
      mret (Answer v)
  | _ => mret ans
  end.

Definition get_response (dialog : string) (data : option pydict)
    (validator : option (string → pyval)) (on_fail : on_fail_arg)
    (num_retries : Z) (message dug : option Message)
    (events : list wait_event) : M collected :=
  sid ← gets skill_id;
  let message := request_message sid message dug in
  let data := default [] data in
  let session := SessionManager_get message in
  let session := enable_response_mode sid session in
  let message := set_session session message in
  modify (set_responses <[session_id session := Some []]>);;
  emit (forward message "skill.converse.get_response.enable"
          [("skill_id", PStr sid)]);;
  let on_fail_fn := on_fail_fn dialog data on_fail in
  let validator := default (validator_default session) validator in
  (if negb (String.eqb dialog "")
   then speak_dialog dialog data true (Some message)
   else emit (forward message "mycroft.mic.listen" []));;
  ans ← _wait_response (is_cancel session) validator on_fail_fn num_retries
          message events;
  leave_response_mode sid session message ans.

End ConversationalSkill.

(** ** More of the two files

    Functions of ovos.py that the classes above use or that use them: the
    stop handler of a session, the questions built on [get_response], the
    notifications around a handler, and the helpers at the end of the file.
    Strings are byte strings in UTF-8; where the source looks at a character
    or at whitespace this is said at the definition. *)

(** What [extract_number] answers when it finds a number. *)
Inductive number :=
| Int (z : Z)
| Float (q : Q).

(** The methods of a skill that [_handle_session_stop] calls. *)
Record StopMethods := {
  stop_session : Session → M pyval;
  stop : M pyval
}.

(** What the closures [on_start], [on_end] and [on_error] of one
    [add_event] call share: its arguments and the dict [skill_data], which
    [_on_event_error] writes. *)
Record EventHandler := {
  handler_info : option string;
  skill_data : pydict;
  speak_errors : bool;
  is_intent : bool
}.

Definition set_skill_data (f : pydict → pydict) (h : EventHandler)
  : EventHandler :=
  {| handler_info := handler_info h; skill_data := f (skill_data h);
     speak_errors := speak_errors h; is_intent := is_intent h |}.

Class Environment := {
  (** [str(e)] *)
  str_error : exn → string;
  (** [repr(s)] of a string *)
  repr_str : string → string;
  (** [s.lower()] *)
  py_lower : string → string;
  (** the content of locale/<lang>/word_connectors.json of the package,
      when the file is there *)
  word_connectors : string → option (list (string * string));
  (** what the dialog file locale/<lang>/<phrase>.dialog of the package
      renders to, when the file is there *)
  bundled_dialog : string → string → option (pydict → string);
  (** [camel_case_split(self.name)] *)
  handler_name : string;
  (** [YesNoSolver().match_yes_or_no(resp, lang=lang)] *)
  match_yes_or_no : pyval → string → pyval;
  (** [ovos_utils.parse.match_one(resp, options)] *)
  match_one : string → list string → string * Q;
  (** [extract_number(resp, ordinals=True, lang=lang)], [None] for [False] *)
  extract_number : string → string → option number;
  (** [pronounce_number(n, lang)] *)
  pronounce_number : Z → string → string
}.

#[export] Instance result_ret : MRet result := λ A a, Ok a.

#[export] Instance result_bind : MBind result := λ A B f r,
  match r with
  | Ok a => f a
  | Raise e => Raise e
  end.

#[export] Instance result_fmap : FMap result := λ A B f r,
  match r with
  | Ok a => Ok (f a)
  | Raise e => Raise e
  end.

(** [v is False] *)
Definition is_False (v : pyval) : bool :=
  match v with PBool false => true | _ => false end.

(** [l[-1]] *)
Definition last_item {A : Type} (l : list A) : result A :=
  match last l with
  | Some x => Ok x
  | None => Raise (OtherError "IndexError")
  end.

(** *** simple_trace *)

(** [stack_trace[:-1]] is [removelast]; [line.strip()] is empty for the
    lines made of white space only. *)
Definition simple_trace (stack_trace : list string) : string :=
  let stack_trace := removelast stack_trace in
  fold_left
    (λ tb line, if negb (String.eqb (strip line) "") then tb +:+ line else tb)
    stack_trace
    "Traceback:
".

Section MoreOfTheSkill.
Context `{Collaborators} `{Environment}.

(** *** join_word_list *)

(** [s.split('-')[0]] *)
Fixpoint before_dash (s : string) : string :=
  match s with
  | EmptyString => EmptyString
  | String c s' =>
      if Ascii.eqb c "-"%char then EmptyString else String c (before_dash s')
  end.

Definition _get_word (lang connector : string) : result string :=
  let lang := before_dash (standardize_lang_tag lang) in
  match word_connectors lang with
  | None => Ok ", "
  | Some w =>
      match dict_get w connector with
      | Some word => Ok word
      | None => Raise (KeyError connector)
      end
  end.

(** the dict [cons] of the three functions, and [cons[connector]] *)
Definition connectors (lang : string) : result (list (string * string)) :=
  and_word ← _get_word lang "and";
  or_word ← _get_word lang "or";
  mret [("and", and_word); ("or", or_word)].

Definition connector_word (cons : list (string * string)) (connector : string)
  : result string :=
  match dict_get cons connector with
  | Some word => Ok word
  | None => Raise (KeyError connector)
  end.

(** [sep = ", "] when [sep] is empty, else [sep += " "] *)
Definition spaced (sep : string) : string :=
  if String.eqb sep "" then ", " else sep +:+ " ".

(** [s[0] == c], the first character being the first byte when it is a
    letter of ASCII *)
Definition first_is (c : ascii) (s : string) : result bool :=
  match s with
  | EmptyString => Raise (OtherError "IndexError")
  | String b _ => Ok (Ascii.eqb b c)
  end.

(** [s[0].lower() == c] for a small letter [c] of ASCII with capital [C]:
    these two are the only characters that [lower] takes to [c]. *)
Definition first_lower_is (C c : ascii) (s : string) : result bool :=
  match s with
  | EmptyString => Raise (OtherError "IndexError")
  | String b _ => Ok (Ascii.eqb b c || Ascii.eqb b C)
  end.

Definition _join_word_list_it (items : list string) (connector sep : string)
  : result string :=
  cons ← connectors "it";
  match items with
  | [] => Ok ""
  | [item] => Ok item
  | first :: _ :: rest =>
      let sep := spaced sep in
      final_connector ← connector_word cons connector;
      let joined_string :=
        if (2 <? Z.of_nat (length items))
        then String.concat sep (removelast items) else first in
      last ← last_item items;
      word ← connector_word cons connector;
      euphonic_e ← (if String.eqb word "e" then first_lower_is "E" "e" last
                    else Ok false : result bool);
      final_connector ←
        (if euphonic_e : bool then Ok "ed"
         else
           euphonic_o ← (if String.eqb word "o" then first_lower_is "O" "o" last
                         else Ok false : result bool);
           Ok (if euphonic_o : bool then "od" else final_connector));
      Ok (joined_string +:+ " " +:+ final_connector +:+ " " +:+ last)
  end.

(** [s.lstrip("h")] *)
Fixpoint lstrip_h (s : string) : string :=
  match s with
  | String c s' => if Ascii.eqb c "h"%char then lstrip_h s' else s
  | EmptyString => EmptyString
  end.

(** [s.replace(old, new)] for a character [old] of two bytes [a], [b] *)
Fixpoint replace2 (a b : ascii) (new : string) (s : string) : string :=
  match s with
  | String c1 s' =>
      match s' with
      | String c2 s'' =>
          if Ascii.eqb c1 a && Ascii.eqb c2 b
          then new +:+ replace2 a b new s''
          else String c1 (replace2 a b new s')
      | EmptyString => s
      end
  | EmptyString => EmptyString
  end.

(** [items[-1].lower().lstrip("h").replace("ó", "o").replace("í", "i")
    .replace("á", "a")] *)
Definition spanish_start (last : string) : string :=
  replace2 "195" "161" "a"
    (replace2 "195" "173" "i"
       (replace2 "195" "179" "o" (lstrip_h (py_lower last)))).

Definition _join_word_list_es (items : list string) (connector sep : string)
  : result string :=
  cons ← connectors "es";
  match items with
  | [] => Ok ""
  | [item] => Ok item
  | first :: _ :: rest =>
      let sep := spaced sep in
      final_connector ← connector_word cons connector;
      let joined_string :=
        if (2 <? Z.of_nat (length items))
        then String.concat sep (removelast items) else first in
      last ← last_item items;
      let w := spanish_start last in
      final_connector ←
        (if negb (String.prefix "io" w || String.prefix "ia" w
                  || String.prefix "ie" w)
         then
           word ← connector_word cons connector;
           y_to_e ← (if String.eqb word "y" then first_is "i" w
                     else Ok false : result bool);
           let final_connector := if y_to_e : bool then "e" else final_connector in
           o_to_u ← (if String.eqb word "o" then first_is "o" w
                     else Ok false : result bool);
           Ok (if o_to_u : bool then "u" else final_connector)
         else Ok final_connector);
      Ok (joined_string +:+ " " +:+ final_connector +:+ " " +:+ last)
  end.

Definition join_word_list (items : list string) (connector sep lang : string)
  : result string :=
  if String.prefix "it" lang then _join_word_list_it items connector sep
  else if String.prefix "es" lang then _join_word_list_es items connector sep
  else
    cons ← connectors lang;
    match items with
    | [] => Ok ""
    | [item] => Ok item
    | _ :: _ :: _ =>
        let sep := spaced sep in
        word ← connector_word cons connector;
        last ← last_item items;
        Ok (String.concat sep (removelast items)
            +:+ " " +:+ word +:+ " " +:+ last)
    end.

(** *** Stopping a session *)

(** [a or b or False], [b] being evaluated when [a] is not true *)
Definition or_else_False (a : pyval) (b : M pyval) : M pyval :=
  if truthy a then mret a
  else
    b ← b;
    mret (if truthy b then b else PBool false).

(** [except Exception] catches the two abort exceptions as well. *)
Definition _handle_session_stop (methods : StopMethods) (message : Message)
  : M unit :=
  sid ← gets skill_id;
  let message := set_context "skill_id" (PStr sid) message in
  let sess := SessionManager_get message in
  let data := [("skill_id", PStr sid); ("result", PBool false)] in
  data ← try_except
    (stopped ← stop_session methods sess;
     result ← or_else_False stopped (stop methods);
     mret (dict_set data "result" result))
    (λ e, mret (dict_set data "error" (PStr (str_error e))));
  (if truthy (default PNone (dict_get data "result"))
   then modify (set_responses <[session_id sess := None]>)
   else mret tt);;
  emit (reply message (sid +:+ ".stop.response") data []).

(** *** Notifications around a handler *)

Definition _get_dialog (phrase lang : string) (context : option pydict)
  : string :=
  let lang := before_dash (standardize_lang_tag lang) in
  match bundled_dialog lang phrase with
  | None => phrase
  | Some render => render (default [] context)
  end.

(** [if handler_info:] *)
Definition given (handler_info : option string) : option string :=
  match handler_info with
  | Some info => if String.eqb info "" then None else Some info
  | None => None
  end.

Definition _on_event_start (message : Message) (handler_info : option string)
    (skill_data : pydict) : M unit :=
  match given handler_info with
  | Some info =>
      let msg_type := info +:+ ".start" in
      sid ← gets skill_id;
      let message := set_context "skill_id" (PStr sid) message in
      emit (forward message msg_type skill_data)
  | None => mret tt
  end.

(** The settings, which are stored at the end when they have changed (a
    failure to do so is logged), are not part of the state here. *)
Definition _on_event_end (message : Message) (handler_info : option string)
    (skill_data : pydict) (is_intent : bool) : M unit :=
  sid ← gets skill_id;
  let message :=
    if given handler_info is Some _
    then set_context "skill_id" (PStr sid) message else message in
  match given handler_info with
  | Some info => emit (forward message (info +:+ ".complete") skill_data)
  | None => mret tt
  end;;
  if is_intent
  then emit (forward message "ovos.utterance.handled" skill_data)
  else mret tt.

(** The dict [skill_data] is written in place: what is returned is the
    dict as the caller has it afterwards.  [dug] is what [dig_for_message]
    finds above this call when [message] is [None]. *)
Definition _on_event_error (error : string) (message : option Message)
    (handler_info : option string) (skill_data : pydict) (speak_errors : bool)
    (dug : option Message) : M pydict :=
  let dug := match message with Some m => Some m | None => dug end in
  let msg_data := [("skill", PStr handler_name)] in
  let speech := _get_dialog "skill.error" (lang dug) (Some msg_data) in
  (if speak_errors then speak (PStr speech) false [] dug else mret tt);;
  let skill_data := dict_set skill_data "exception" (PStr (repr_str error)) in
  match given handler_info with
  | Some info =>
      let msg_type := info +:+ ".error" in
      let message := default (new_message "" [] []) message in
      sid ← gets skill_id;
      let message := set_context "skill_id" (PStr sid) message in
      emit (forward message msg_type skill_data)
  | None => mret tt
  end;;
  mret skill_data.

(** Modelled from the spec: [isinstance(error, AbortEvent)].  The
    exceptions are declared in ovos_workshop/decorators/killable.py; both
    are the abort signal of the cancellation machinery, which ends a handler
    cleanly. *)
Definition is_AbortEvent (error : exn) : bool := is_abort error.

(** The three closures of [add_event]; [on_error] gives the closure back
    with the [skill_data] it has afterwards. *)
Definition on_start (h : EventHandler) (message : Message) : M unit :=
  _on_event_start message (handler_info h) (skill_data h).

Definition on_end (h : EventHandler) (message : Message) : M unit :=
  _on_event_end message (handler_info h) (skill_data h) (is_intent h).

Definition on_error (h : EventHandler) (error : exn) (message : Message)
    (dug : option Message) : M EventHandler :=
  if is_AbortEvent error then
    _on_event_end message (handler_info h) (skill_data h) (is_intent h);;
    mret h
  else
    skill_data ← _on_event_error (str_error error) (Some message)
                    (handler_info h) (skill_data h) (speak_errors h) dug;
    mret (set_skill_data (λ _, skill_data) h).

(** *** Questions built on get_response *)

Definition ask_yesno (prompt : string) (data : option pydict)
    (dug : option Message) (events : list wait_event) : M collected :=
  got ← get_response prompt data None OnFailNone (-1) None dug events;
  match got with
  | Answer resp =>
      let answer :=
        if truthy resp then match_yes_or_no resp (lang dug) else resp in
      mret (Answer (if is_True answer then PStr "yes"
                    else if is_False answer then PStr "no"
                    else resp))
  | _ => mret got
  end.

(** [l[i]] for an integer [i], counted from the end when negative *)
Definition list_index {A : Type} (l : list A) (i : Z) : result A :=
  let i := if i <? 0 then i + Z.of_nat (length l) else i in
  if i <? 0 then Raise (OtherError "IndexError")
  else
    match l !! Z.to_nat i with
    | Some x => Ok x
    | None => Raise (OtherError "IndexError")
    end.

(** [num and num <= len(options)], then [options[num - 1]] *)
Definition option_by_number (options : list string) (num : option number)
  : result pyval :=
  match num with
  | None => Ok PNone
  | Some (Int z) =>
      if negb (z =? 0) && (z <=? Z.of_nat (length options))
      then PStr <$> list_index options (z - 1)
      else Ok PNone
  | Some (Float q) =>
      if negb (Qeq_bool q 0) && Qle_bool q (inject_Z (Z.of_nat (length options)))
      then Raise (OtherError "TypeError")
      else Ok PNone
  end.

(** What [ask_selection] makes of a response that is true. *)
Definition selected (options : list string) (min_conf : Q) (resp : string)
    (dug : option Message) : result pyval :=
  let '(match_, score) := match_one resp options in
  if Qltb score min_conf then
    if voc_match resp "last" (lang dug) then PStr <$> last_item options
    else option_by_number options (extract_number resp (lang dug))
  else Ok (PStr match_).

(** an exception of a function that has no state *)
Definition lift {A : Type} (r : result A) : M A := λ st, (r, st).

(** [enumerate(l)] from [idx] *)
Fixpoint enumerate_from {A : Type} (idx : Z) (l : list A) : list (Z * A) :=
  match l with
  | [] => []
  | x :: l' => (idx, x) :: enumerate_from (idx + 1) l'
  end.

(** [get_response] is called with its default validator: what it answers is
    a string or [None]. *)
Definition ask_selection (options : list string) (dialog : string)
    (data : option pydict) (min_conf : Q) (numeric : bool) (num_retries : Z)
    (dug : option Message) (events : list wait_event) : M collected :=
  match options with
  | [] => mret (Answer PNone)
  | [only] => mret (Answer (PStr only))
  | _ :: _ :: _ =>
      (if numeric then
         for_each (enumerate_from 0 options) (λ '(idx, opt),
           let number := pronounce_number (idx + 1) (lang dug) in
           speak (PStr (number +:+ ", " +:+ opt)) false [] dug)
       else
         opt_str ← lift (join_word_list options "or" "," (lang dug));
         speak (PStr (opt_str +:+ "?")) false [] dug);;
      got ← get_response dialog data None OnFailNone num_retries None dug
              events;
      match got with
      | Answer (PStr resp) =>
          if truthy (PStr resp) then
            resp ← lift (selected options min_conf resp dug);
            mret (Answer resp)
          else mret got
      | Answer resp =>
          if truthy resp then raise (OtherError "TypeError") else mret got
      | _ => mret got
      end
  end.

End MoreOfTheSkill.

(** ** A small world for the examples

    Two English tags and a French one, one intent file, the word cancel as
    the cancel vocabulary. *)

Module Sample.

(** the language subtag of a tag: [en] of [en-US] *)
Definition primary (tag : string) : string := String.substring 0 2 tag.

Definition distance (a b : string) : nat :=
  if String.eqb a b then 0%nat
  else if String.eqb (primary a) (primary b) then 5%nat else 134%nat.

(** an utterance matches the first intent that lists it as a sample *)
Fixpoint find_intent (intents : list (string * list string)) (utt : string)
  : IntentMatch :=
  match intents with
  | [] => NoMatch
  | (name, samples) :: intents' =>
      if bool_decide (utt ∈ samples) then Matched name 1%Q []
      else find_intent intents' utt
  end.

Definition show (e : exn) : string :=
  match e with
  | AbortQuestion => "AbortQuestion()"
  | AbortEvent => "AbortEvent()"
  | KeyError k => "KeyError('" +:+ k +:+ "')"
  | AttributeError a => "AttributeError('" +:+ a +:+ "')"
  | OtherError n => n +:+ "()"
  end.

Definition world : Collaborators := {|
  standardize_lang_tag := λ l, l;
  standardize_tag := λ l, l;
  tag_distance := distance;
  get_message_lang := λ m,
    match session m with Some s => session_lang s | None => "en-US" end;
  default_session :=
    {| session_id := "default"; session_lang := "en-US";
       utterance_states := [] |};
  reply_context := λ ctx _ extra, ctx ++ extra;
  calc_intent := λ c utt, find_intent (intent_samples c) utt;
  repr := show;
  config_lang := Some "en-US";
  config_secondary_langs := None;
  config_converse_timeout := None;
  settings_strict_intents := None;
  settings_min_intent_conf := None;
  intent_file_text := λ l f,
    if String.eqb l "en-US" && String.eqb f "book_flight.intent"
    then Some "book me a flight
# a comment

  I want to fly  "
    else None;
  voc_match := λ utt voc _, String.eqb utt "cancel" && String.eqb voc "cancel";
  dialog_renderer := None
|}.

Definition skill : Skill := {|
  skill_id := "flights";
  converse_matchers := [];
  events := [];
  responses := ∅;
  validated_responses := ∅;
  bus := []
|}.

(** the skill while a response of the default session is awaited *)
Definition listening_skill : Skill :=
  set_responses <["default" := Some []]> skill.

(** the skill with one container, registered for British English *)
Definition british_skill : Skill :=
  set_converse_matchers
    (λ _, [("en-GB", add_intent "flights.converse:book_flight.intent"
                       ["book me a flight"] (new_container true))])
    skill.

(** the same container, registered for American English *)
Definition american_skill : Skill :=
  set_converse_matchers
    (λ _, [("en-US", add_intent "flights.converse:book_flight.intent"
                       ["book me a flight"] (new_container true))])
    skill.

Definition request (utterances : list string) : Message :=
  new_message "flights.converse.request"
    [("utterances", utterances_val utterances); ("lang", PStr "en-US")] [].

Definition abort_message : Message :=
  new_message "mycroft.skills.abort_question" [("skill_id", PStr "flights")] [].

(** converse handlers: one that declines, one that is aborted, one that
    fails *)
Definition declines : ConverseHandler :=
  {| parameters := ["message"]; call := λ _, mret (PBool false) |}.

Definition aborted : ConverseHandler :=
  {| parameters := ["utterances"; "lang"]; call := λ _, raise AbortEvent |}.

Definition fails : ConverseHandler :=
  {| parameters := []; call := λ _, raise (OtherError "ValueError") |}.

(** a validator that maps what it accepts to a canonical answer *)
Definition yes_no (utterance : string) : pyval :=
  if String.eqb utterance "yeah sure" then PStr "yes"
  else if String.eqb utterance "no way" then PStr "no"
  else PBool false.

(** a validator that answers with the alternatives it understood *)
Definition alternatives (utterance : string) : pyval :=
  if String.eqb utterance "yeah sure" then PList [PStr "yes"; PStr "sure"]
  else PBool false.

End Sample.

(** ** A small environment for the examples

    The connecting words of English, Italian and Spanish, a yes/no solver
    and a number parser that know a handful of phrases. *)

Module Phrases.

Definition lower_ascii (c : ascii) : ascii :=
  let n := nat_of_ascii c in
  if ((65 <=? n)%nat && (n <=? 90)%nat) then ascii_of_nat (n + 32) else c.

Fixpoint lower (s : string) : string :=
  match s with
  | EmptyString => EmptyString
  | String c s' => String (lower_ascii c) (lower s')
  end.

Definition connecting_words (lang : string)
  : option (list (string * string)) :=
  if String.eqb lang "en" then Some [("and", "and"); ("or", "or")]
  else if String.eqb lang "it" then Some [("and", "e"); ("or", "o")]
  else if String.eqb lang "es" then Some [("and", "y"); ("or", "o")]
  else None.

Definition yes_or_no (resp : pyval) (lang : string) : pyval :=
  match resp with
  | PStr s =>
      if String.eqb s "yeah sure" then PBool true
      else if String.eqb s "no way" then PBool false
      else PNone
  | _ => PNone
  end.

(** an option said word for word scores 1, anything else 0 *)
Definition best_option (resp : string) (options : list string)
  : string * Q :=
  if bool_decide (resp ∈ options) then (resp, 1%Q)
  else (hd "" options, 0%Q).

Definition spoken_number (resp lang : string) : option number :=
  if String.eqb resp "the second one" then Some (Int 2)
  else if String.eqb resp "number five" then Some (Int 5)
  else if String.eqb resp "minus one" then Some (Int (-1))
  else if String.eqb resp "two point zero" then Some (Float 2%Q)
  else None.

Definition env : Environment := {|
  str_error := λ e,
    match e with
    | KeyError k => "'" +:+ k +:+ "'"
    | AttributeError a => a
    | OtherError n => n
    | _ => ""
    end;
  repr_str := λ s, "'" +:+ s +:+ "'";
  py_lower := lower;
  word_connectors := connecting_words;
  bundled_dialog := λ _ _, None;
  handler_name := "Flights";
  match_yes_or_no := yes_or_no;
  match_one := best_option;
  extract_number := spoken_number;
  pronounce_number := λ n _,
    if n =? 1 then "one" else if n =? 2 then "two" else "many"
|}.

(** a world like [Sample.world], with French as a second language and the
    word last as the vocabulary of the last option *)
Definition world : Collaborators := {|
  standardize_lang_tag := λ l, l;
  standardize_tag := λ l, l;
  tag_distance := Sample.distance;
  get_message_lang := λ m,
    match session m with Some s => session_lang s | None => "en-US" end;
  default_session :=
    {| session_id := "default"; session_lang := "en-US";
       utterance_states := [] |};
  reply_context := λ ctx _ extra, ctx ++ extra;
  calc_intent := λ c utt, Sample.find_intent (intent_samples c) utt;
  repr := Sample.show;
  config_lang := Some "en-US";
  config_secondary_langs := Some ["fr-FR"];
  config_converse_timeout := None;
  settings_strict_intents := None;
  settings_min_intent_conf := None;
  intent_file_text := λ _ _, None;
  voc_match := λ utt voc _,
    (String.eqb utt "cancel" && String.eqb voc "cancel")
    || (String.eqb utt "the last one" && String.eqb voc "last");
  dialog_renderer := None
|}.

(** stop methods: a skill that stops nothing, one that stops the session,
    one whose [stop] fails *)
Definition idle : StopMethods :=
  {| stop_session := λ _, mret (PBool false); stop := mret PNone |}.

Definition stops_session : StopMethods :=
  {| stop_session := λ _, mret (PBool true);
     stop := raise (OtherError "never called") |}.

Definition stop_fails : StopMethods :=
  {| stop_session := λ _, mret (PBool false);
     stop := raise (OtherError "player gone") |}.

Definition stop_message : Message :=
  new_message "mycroft.stop" [] [].

(** white space beyond ASCII, as UTF-8: NO-BREAK SPACE (U+00A0) and
    EM SPACE (U+2003) *)
Definition no_break_space : string :=
  String (ascii_of_nat 194) (String (ascii_of_nat 160) EmptyString).

Definition em_space : string :=
  String (ascii_of_nat 226)
    (String (ascii_of_nat 128) (String (ascii_of_nat 131) EmptyString)).

Definition intent_handler : EventHandler :=
  {| handler_info := Some "mycroft.skill.handler";
     skill_data := [("name", PStr "FlightSkill.handle_book")];
     speak_errors := true; is_intent := true |}.

End Phrases.

(** * Properties *)

Section Properties.
Context `{Collaborators}.

(** ** Running a method *)

Lemma bind_run {A B : Type} (m : M A) (f : A → M B) (st : Skill) :
  (m ≫= f) st =
  match m st with
  | (Ok a, st') => f a st'
  | (Raise e, st') => (Raise e, st')
  end.
Proof. reflexivity. Qed.

Lemma ret_run {A : Type} (a : A) (st : Skill) :
  (mret a : M A) st = (Ok a, st).
Proof. reflexivity. Qed.

Lemma gets_run {A : Type} (f : Skill → A) (st : Skill) :
  gets f st = (Ok (f st), st).
Proof. reflexivity. Qed.

Lemma modify_run (f : Skill → Skill) (st : Skill) :
  modify f st = (Ok tt, f st).
Proof. reflexivity. Qed.

Lemma emit_run (m : Message) (st : Skill) :
  emit m st = (Ok tt, set_bus (λ b, b ++ [m]) st).
Proof. reflexivity. Qed.

(** Run the statements at the head of a method as far as they go. *)
Ltac mstep :=
  repeat first
    [ rewrite bind_run | rewrite ret_run | rewrite gets_run
    | rewrite modify_run | rewrite emit_run | progress cbv beta iota ].

(** ** Dicts *)

Lemma dict_get_set_eq {V : Type} (d : list (string * V)) k v :
  dict_get (dict_set d k v) k = Some v.
Proof.
  induction d as [|[k' v'] d IH]; simpl.
  - by rewrite String.eqb_refl.
  - destruct (String.eqb k' k) eqn:E; simpl; rewrite E; done.
Qed.

Lemma dict_get_set_ne {V : Type} (d : list (string * V)) k k' v :
  k ≠ k' → dict_get (dict_set d k v) k' = dict_get d k'.
Proof.
  intros Hne. induction d as [|[k0 v0] d IH]; simpl.
  - destruct (String.eqb_spec k k'); done.
  - destruct (String.eqb_spec k0 k) as [->|]; simpl.
    + destruct (String.eqb_spec k k'); done.
    + by rewrite IH.
Qed.

Lemma dict_get_add_intent_eq d k name samples :
  dict_get (dict_add_intent d k name samples) k
  = add_intent name samples <$> dict_get d k.
Proof.
  induction d as [|[k0 c0] d IH]; simpl; [done|].
  destruct (String.eqb k0 k) eqn:E; simpl; rewrite E; done.
Qed.

Lemma dict_get_add_intent_ne d k k' name samples :
  k ≠ k' →
  dict_get (dict_add_intent d k name samples) k' = dict_get d k'.
Proof.
  intros Hne. induction d as [|[k0 c0] d IH]; simpl; [done|].
  destruct (String.eqb_spec k0 k) as [->|]; simpl.
  - destruct (String.eqb_spec k k'); done.
  - by rewrite IH.
Qed.

Lemma dict_get_keys {V : Type} (d : list (string * V)) k :
  dict_get d k = None ↔ k ∉ dict_keys d.
Proof.
  unfold dict_keys. induction d as [|[k0 v0] d IH]; simpl.
  - split; [intros _; apply not_elem_of_nil | done].
  - rewrite not_elem_of_cons.
    destruct (String.eqb_spec k0 k) as [->|Hne]; split.
    + done.
    + intros [? _]; done.
    + intros Hd. split; [congruence | by apply IH].
    + intros [_ Hd]. by apply IH.
Qed.

(** ** C3: the activation request *)

(** C3 (as the code has it): every call to [activate] emits exactly one
    message, of type intent.service.skills.activate, whose payload is the
    skill id and, under the key [timeout], the duration in minutes: the
    one passed (so that -1 goes out as -1), or the configured converse
    timeout (300 seconds when none is configured) divided by 60. *)
Theorem activate_emits_one_request (duration_minutes : pyval)
    (dug : option Message) (st : Skill) :
  ∃ m1 : Message,
    activate duration_minutes dug st = (Ok tt, set_bus (λ b, b ++ [m1]) st)
    ∧ msg_type m1 = "intent.service.skills.activate"
    ∧ data m1 =
        [("skill_id", PStr (skill_id st));
         ("timeout",
          if is_None duration_minutes
          then PNum (default 300%Q config_converse_timeout / 60)
          else duration_minutes)].
Proof.
  unfold activate. eexists. split; [reflexivity|]. split; reflexivity.
Qed.


(** ** C7: language resolution *)

Lemma insert_by_distance_elem x y l :
  y ∈ insert_by_distance x l ↔ y = x ∨ y ∈ l.
Proof.
  induction l as [|z l IH]; simpl.
  - rewrite list_elem_of_singleton, elem_of_nil. tauto.
  - destruct (x.2 <=? z.2)%nat.
    + rewrite !elem_of_cons. tauto.
    + rewrite !elem_of_cons, IH. tauto.
Qed.

Lemma sort_by_distance_elem y l :
  y ∈ sort_by_distance l ↔ y ∈ l.
Proof.
  induction l as [|x l IH]; simpl; [done|].
  rewrite insert_by_distance_elem, IH, elem_of_cons. done.
Qed.

(** The head of an insertion is the inserted element or the old head,
    whichever is closer. *)
Lemma insert_by_distance_head x l d h :
  (∀ y, y ∈ l → (hd d l).2 ≤ y.2)%nat →
  hd d (insert_by_distance x l) = h →
  ∀ y, y ∈ insert_by_distance x l → (h.2 ≤ y.2)%nat.
Proof.
  intros Hmin <- y. rewrite insert_by_distance_elem.
  destruct l as [|z l]; simpl.
  - intros [->|Hy]; [done | by apply elem_of_nil in Hy].
  - destruct (Nat.leb_spec x.2 z.2) as [Hle|Hlt]; simpl.
    + intros [->|Hy]; [done|]. specialize (Hmin y Hy). simpl in Hmin. lia.
    + intros [->|Hy]; [lia|]. apply (Hmin y Hy).
Qed.

Lemma sort_by_distance_head l d :
  ∀ y, y ∈ l → ((hd d (sort_by_distance l)).2 ≤ y.2)%nat.
Proof.
  induction l as [|x l IH]; intros y Hy.
  - by apply elem_of_nil in Hy.
  - simpl. eapply insert_by_distance_head; [|reflexivity|].
    + intros z Hz. apply IH. by apply sort_by_distance_elem.
    + apply insert_by_distance_elem. apply elem_of_cons in Hy as [->|Hy].
      * by left.
      * right. by apply sort_by_distance_elem.
Qed.

Lemma sort_by_distance_head_elem l d :
  l ≠ [] → hd d (sort_by_distance l) ∈ l.
Proof.
  intros Hl. apply sort_by_distance_elem.
  destruct (sort_by_distance l) as [|h t] eqn:E.
  - destruct l as [|x l]; [done|]. exfalso.
    assert (x ∈ sort_by_distance (x :: l)) as Hx
      by (apply sort_by_distance_elem; left).
    rewrite E in Hx. by apply elem_of_nil in Hx.
  - simpl. left.
Qed.

(** What [closest_match] returns when tags that are the same, possibly
    after normalizing, are at distance 0. *)
Lemma closest_match_spec desired supported closest score :
  (∀ t, tag_distance t t = 0%nat) →
  (∀ t, tag_distance (standardize_tag t) t = 0%nat) →
  closest_match desired supported = (closest, score) →
  let d := tag_distance (standardize_tag desired) in
  ((score < 10)%nat →
     closest ∈ supported ∧ d closest = score
     ∧ ∀ k, k ∈ supported → (score ≤ d k)%nat)
  ∧ ((10 ≤ score)%nat → ∀ k, k ∈ supported → (10 ≤ d k)%nat).
Proof.
  intros Hrefl Hstd Hcm d. revert Hcm. unfold closest_match.
  case_bool_decide as Hin.
  { intros [= <- <-]. split; [|lia]. intros _. unfold d.
    rewrite Hstd. repeat split; [done|]. intros; lia. }
  case_bool_decide as Hin'.
  { intros [= <- <-]. split; [|lia]. intros _. unfold d.
    rewrite Hrefl. repeat split; [done|]. intros; lia. }
  fold d. set (L := filter _ _ ++ _). intros Hhd.
  assert (HL : L ≠ []) by (unfold L; by destruct (filter _ _)).
  pose proof (sort_by_distance_head_elem L ("und", 1000%nat) HL) as Helem.
  pose proof (sort_by_distance_head L ("und", 1000%nat)) as Hmin.
  rewrite Hhd in Helem, Hmin. simpl in Hmin.
  assert (Hall : ∀ k, k ∈ supported →
            (score ≤ d k)%nat ∨ (25 < d k)%nat).
  { intros k Hk.
    destruct (Nat.leb_spec (d k) 25) as [Hle|Hgt]; [left|by right].
    apply (Hmin (k, d k)).
    unfold L. apply elem_of_app. left. apply list_elem_of_filter.
    split; [simpl; by apply Is_true_true, Nat.leb_le|].
    apply list_elem_of_fmap. by exists k. }
  split.
  - intros Hlt. unfold L in Helem.
    apply elem_of_app in Helem as [Helem|Helem].
    + apply list_elem_of_filter in Helem as [_ Helem].
      apply list_elem_of_fmap in Helem as (k & [= -> ->] & Hk).
      repeat split; [done|]. intros k' Hk'.
      destruct (Hall k' Hk'); lia.
    + apply list_elem_of_singleton in Helem as [= -> ->]. lia.
  - intros Hge k Hk. destruct (Hall k Hk); lia.
Qed.

Lemma get_closest_lang_spec (st : Skill) (requested : string) :
  (∀ t, tag_distance t t = 0%nat) →
  (∀ t, tag_distance (standardize_tag t) t = 0%nat) →
  let d := tag_distance (standardize_tag (standardize_lang_tag requested)) in
  let registered := dict_keys (converse_matchers st) in
  (∀ closest, _get_closest_lang st requested = Some closest →
     closest ∈ registered ∧ (d closest < 10)%nat
     ∧ ∀ k, k ∈ registered → (d closest ≤ d k)%nat)
  ∧ ((∃ k, k ∈ registered ∧ (d k < 10)%nat) →
     ∃ closest, _get_closest_lang st requested = Some closest)
  ∧ (_get_closest_lang st requested = None ↔
     ∀ k, k ∈ registered → (10 ≤ d k)%nat).
Proof.
  intros Hrefl Hstd d registered.
  assert (Hspec : ∀ closest score,
    closest_match (standardize_lang_tag requested) registered
      = (closest, score) →
    ((score < 10)%nat →
       closest ∈ registered ∧ d closest = score
       ∧ ∀ k, k ∈ registered → (score ≤ d k)%nat)
    ∧ ((10 ≤ score)%nat → ∀ k, k ∈ registered → (10 ≤ d k)%nat)).
  { intros closest score Hcm. by apply closest_match_spec. }
  assert (Hsome : ∀ closest, _get_closest_lang st requested = Some closest →
     closest ∈ registered ∧ (d closest < 10)%nat
     ∧ ∀ k, k ∈ registered → (d closest ≤ d k)%nat).
  { intros closest. unfold _get_closest_lang.
    destruct (converse_matchers st) as [|kv rest] eqn:Hm; [done|].
    fold registered.
    destruct (closest_match _ registered) as [c s] eqn:Hcm.
    destruct (Hspec c s eq_refl) as [Hlt _].
    destruct (Nat.ltb_spec s 10) as [Hs|Hs]; [|done].
    intros [= <-]. destruct (Hlt Hs) as (? & <- & ?). done. }
  assert (Hnone : _get_closest_lang st requested = None ↔
     ∀ k, k ∈ registered → (10 ≤ d k)%nat).
  { split.
    - unfold _get_closest_lang.
      destruct (converse_matchers st) as [|kv rest] eqn:Hm.
      + intros _ k Hk. unfold registered in Hk.
        by apply elem_of_nil in Hk.
      + fold registered.
        destruct (closest_match _ registered) as [c s] eqn:Hcm.
        destruct (Hspec c s eq_refl) as [_ Hge].
        destruct (Nat.ltb_spec s 10) as [Hs|Hs]; [done|].
        intros _. by apply Hge.
    - intros Hall.
      destruct (_get_closest_lang st requested) as [c|] eqn:Hc; [|done].
      destruct (Hsome c eq_refl) as (Hin & Hlt & _).
      specialize (Hall c Hin). lia. }
  split; [exact Hsome|]. split; [|exact Hnone].
  intros (k & Hk & Hlt).
  destruct (_get_closest_lang st requested) as [c|] eqn:Hc; [by exists c|].
  destruct Hnone as [Hn _]. specialize (Hn eq_refl k Hk). lia.
Qed.

(** C7: with [d k] the distance of a registered language [k] from the
    requested tag, [_get_closest_lang] returns a registered language
    exactly when the least distance is below 10, and then one at that
    least distance; it returns [None] exactly when every registered
    language is at distance 10 or more, which covers the case of no
    registered language; and en-US against fr-FR alone is [None] as soon
    as their distance is 10 or more.  The distance library is taken to
    give 0 for tags that are the same, possibly after normalizing. *)
Theorem get_closest_lang_threshold :
  (∀ t, tag_distance t t = 0%nat) →
  (∀ t, tag_distance (standardize_tag t) t = 0%nat) →
  let d := λ requested,
    tag_distance (standardize_tag (standardize_lang_tag requested)) in
  (∀ (st : Skill) (requested : string),
     let registered := dict_keys (converse_matchers st) in
     (∀ closest, _get_closest_lang st requested = Some closest →
        closest ∈ registered ∧ (d requested closest < 10)%nat
        ∧ ∀ k, k ∈ registered → (d requested closest ≤ d requested k)%nat)
     ∧ ((∃ k, k ∈ registered ∧ (d requested k < 10)%nat) →
        ∃ closest, _get_closest_lang st requested = Some closest)
     ∧ (_get_closest_lang st requested = None ↔
        ∀ k, k ∈ registered → (10 ≤ d requested k)%nat))
  ∧ (∀ (st : Skill) (container : IntentContainer),
       converse_matchers st = [("fr-FR", container)] →
       (10 ≤ d "en-US" "fr-FR")%nat →
       _get_closest_lang st "en-US" = None).
Proof.
  intros Hrefl Hstd d. split.
  - intros st requested. by apply get_closest_lang_spec.
  - intros st container Hm Hfr.
    apply (get_closest_lang_spec st "en-US" Hrefl Hstd).
    intros k Hk. rewrite Hm in Hk. simpl in Hk.
    apply list_elem_of_singleton in Hk as ->. exact Hfr.
Qed.

(** ** C10: registering a converse intent *)

(** The container [register_converse_intent] leaves for a language. *)
Lemma register_loop_spec (name intent_file : string) (fuzzy : bool)
    (langs : list string) (st : Skill) :
  let body := λ lang : string,
    modify (set_converse_matchers
              (λ d, dict_set d lang (new_container fuzzy)));;
    match intent_file_text (standardize_lang_tag lang) intent_file with
    | None => mret tt
    | Some text =>
        let samples := read_samples text in
        modify (set_converse_matchers
                  (λ d, dict_add_intent d lang name samples))
    end in
  ∃ matchers,
    for_each langs body st = (Ok tt, set_converse_matchers (λ _, matchers) st)
    ∧ (∀ lang, lang ∈ langs →
         dict_get matchers lang =
         Some (match intent_file_text (standardize_lang_tag lang) intent_file with
               | Some text =>
                   add_intent name (read_samples text) (new_container fuzzy)
               | None => new_container fuzzy
               end))
    ∧ (∀ lang, lang ∉ langs →
         dict_get matchers lang = dict_get (converse_matchers st) lang).
Proof.
  intros body. revert st. induction langs as [|l langs IH]; intros st.
  - exists (converse_matchers st). split; [by destruct st|].
    split; [|done]. intros lang Hl. by apply elem_of_nil in Hl.
  - set (mid :=
      match intent_file_text (standardize_lang_tag l) intent_file with
      | Some text =>
          dict_add_intent
            (dict_set (converse_matchers st) l (new_container fuzzy))
            l name (read_samples text)
      | None => dict_set (converse_matchers st) l (new_container fuzzy)
      end).
    assert (Hbody : body l st = (Ok tt, set_converse_matchers (λ _, mid) st)).
    { unfold body, mid.
      destruct (intent_file_text (standardize_lang_tag l) intent_file);
        reflexivity. }
    destruct (IH (set_converse_matchers (λ _, mid) st))
      as (matchers & Hrun & Hin & Hout).
    exists matchers. split; [|split].
    + change (for_each (l :: langs) body st)
        with ((body l ≫= λ _, for_each langs body) st).
      rewrite bind_run, Hbody, Hrun. reflexivity.
    + intros lang Hl.
      destruct (decide (lang ∈ langs)) as [Hlang|Hlang]; [by apply Hin|].
      apply elem_of_cons in Hl as [->|Hl]; [|done].
      rewrite (Hout l Hlang). simpl. unfold mid.
      destruct (intent_file_text (standardize_lang_tag l) intent_file).
      * by rewrite dict_get_add_intent_eq, dict_get_set_eq.
      * by rewrite dict_get_set_eq.
    + intros lang Hl. apply not_elem_of_cons in Hl as [Hne Hl].
      rewrite (Hout lang Hl). simpl. unfold mid.
      destruct (intent_file_text (standardize_lang_tag l) intent_file).
      * rewrite dict_get_add_intent_ne, dict_get_set_ne by done. done.
      * by rewrite dict_get_set_ne.
Qed.

Lemma register_converse_intent_spec (intent_file handler : string)
    (st : Skill) :
  let name := skill_id st +:+ ".converse:" +:+ intent_file in
  let fresh := new_container (negb (default false settings_strict_intents)) in
  ∃ st',
    register_converse_intent intent_file handler st = (Ok tt, st')
    ∧ skill_id st' = skill_id st
    ∧ events st' = events st ++ [(name, handler, Some "mycroft.skill.handler")]
    ∧ ∀ lang, lang ∈ native_langs →
        dict_get (converse_matchers st') lang =
        Some (match intent_file_text (standardize_lang_tag lang) intent_file with
              | Some text => add_intent name (read_samples text) fresh
              | None => fresh
              end).
Proof.
  intros name fresh. unfold register_converse_intent.
  destruct (register_loop_spec name intent_file
              (negb (default false settings_strict_intents)) native_langs st)
    as (matchers & Hrun & Hin & _).
  eexists. split.
  - rewrite bind_run. unfold gets at 1. rewrite bind_run.
    fold name. simpl in Hrun. rewrite Hrun. reflexivity.
  - split; [done|]. split; [done|]. exact Hin.
Qed.

(** C10: [register_converse_intent] leaves, for every native language, a
    container made afresh that holds the samples of the intent just
    registered and nothing else (or nothing at all when that language has
    no resource file for it), whatever was registered before; hence after
    a second registration every intent a container of a native language
    can match is the second one. *)
Theorem register_converse_intent_replaces
    (first_file first_handler intent_file handler lang : string)
    (st : Skill) :
  lang ∈ native_langs →
  let name := skill_id st +:+ ".converse:" +:+ intent_file in
  let fresh := new_container (negb (default false settings_strict_intents)) in
  let replaced :=
    match intent_file_text (standardize_lang_tag lang) intent_file with
    | Some text => add_intent name (read_samples text) fresh
    | None => fresh
    end in
  let st1 := (register_converse_intent first_file first_handler st).2 in
  dict_get
    (converse_matchers (register_converse_intent intent_file handler st).2)
    lang = Some replaced
  ∧ dict_get
      (converse_matchers (register_converse_intent intent_file handler st1).2)
      lang = Some replaced
  ∧ ∀ n samples, (n, samples) ∈ intent_samples replaced → n = name.
Proof.
  intros Hlang name fresh replaced st1.
  destruct (register_converse_intent_spec intent_file handler st)
    as (st' & Hrun & _ & _ & Hget).
  destruct (register_converse_intent_spec first_file first_handler st)
    as (st1' & Hrun1 & Hid1 & _ & _).
  destruct (register_converse_intent_spec intent_file handler st1)
    as (st2 & Hrun2 & _ & _ & Hget2).
  split; [|split].
  - rewrite Hrun. simpl. by apply Hget.
  - rewrite Hrun2. simpl. rewrite (Hget2 lang Hlang).
    unfold st1. rewrite Hrun1. simpl. rewrite Hid1. done.
  - intros n samples. unfold replaced.
    destruct (intent_file_text (standardize_lang_tag lang) intent_file);
      simpl.
    + intros Hn. apply list_elem_of_singleton in Hn. by inversion Hn.
    + intros Hn. by apply elem_of_nil in Hn.
Qed.


(** ** C2: the matcher the utterances are scored against *)

Lemma closest_match_supported desired supported closest score :
  closest_match desired supported = (closest, score) →
  (score < 10)%nat → closest ∈ supported.
Proof.
  unfold closest_match.
  case_bool_decide as Hin; [by intros [= <- <-]|].
  case_bool_decide as Hin'; [by intros [= <- <-]|].
  set (L := filter _ _ ++ _). intros Hhd Hlt.
  assert (HL : L ≠ []) by (unfold L; by destruct (filter _ _)).
  pose proof (sort_by_distance_head_elem L ("und", 1000%nat) HL) as Helem.
  rewrite Hhd in Helem. unfold L in Helem.
  apply elem_of_app in Helem as [Helem|Helem].
  - apply list_elem_of_filter in Helem as [_ Helem].
    by apply list_elem_of_fmap in Helem as (k & [= -> ->] & Hk).
  - apply list_elem_of_singleton in Helem as [= -> ->]. lia.
Qed.

Lemma get_closest_lang_registered (st : Skill) (requested closest : string) :
  _get_closest_lang st requested = Some closest →
  closest ∈ dict_keys (converse_matchers st).
Proof.
  unfold _get_closest_lang.
  destruct (converse_matchers st) as [|kv rest]; [done|].
  destruct (closest_match _ _) as [c s] eqn:Hcm.
  destruct (Nat.ltb_spec s 10) as [Hs|Hs]; [|done].
  intros [= <-]. by eapply closest_match_supported.
Qed.

Lemma strings_of_utterances (us : list string) :
  strings_of (map PStr us) = Some us.
Proof. induction us as [|u us IH]; simpl; [done|]. by rewrite IH. Qed.

Lemma data_utterances_run (message : Message) (us : list string) (st : Skill) :
  dict_get (data message) "utterances" = Some (utterances_val us) →
  data_utterances message st = (Ok us, st).
Proof.
  intros Hd. unfold data_utterances, subscript. rewrite bind_run, Hd.
  simpl. by rewrite strings_of_utterances.
Qed.

(** C2 (what the code does instead): once the session language resolves
    to a registered language, the utterances are looked up under the
    language tag of the skill, not under the resolved one.  When the two
    differ and the tag of the skill has no matcher of its own, the first
    utterance raises [KeyError]: nothing is scored against the matcher of
    the resolved language, and the converse request ends without any
    response on the bus. *)
Theorem converse_intents_lookup_ignores_resolved_lang
    (converse : ConverseHandler) (message : Message) (st : Skill)
    (closest u : string) (us : list string) :
  _get_closest_lang st (lang (Some message)) = Some closest →
  dict_get (converse_matchers st) (lang (Some message)) = None →
  dict_get (data message) "utterances" = Some (utterances_val (u :: us)) →
  dict_get (converse_matchers st) closest ≠ None
  ∧ closest ≠ lang (Some message)
  ∧ _handle_converse_intents message st
    = (Raise (KeyError (lang (Some message))), st)
  ∧ _handle_converse_request converse message st
    = (Raise (KeyError (lang (Some message))), st).
Proof.
  intros Hclosest Hself Hdata.
  assert (Hreg : dict_get (converse_matchers st) closest ≠ None).
  { rewrite dict_get_keys. intros Hn. apply Hn.
    by eapply get_closest_lang_registered. }
  assert (Hintents : _handle_converse_intents message st
                     = (Raise (KeyError (lang (Some message))), st)).
  { unfold _handle_converse_intents. rewrite bind_run. unfold gets at 1.
    rewrite Hclosest, bind_run, (data_utterances_run _ _ _ Hdata), bind_run.
    simpl score_utterances. rewrite bind_run. unfold gets at 1.
    by rewrite Hself. }
  split; [exact Hreg|]. split; [congruence|]. split; [exact Hintents|].
  unfold _handle_converse_request. rewrite bind_run. unfold gets at 1.
  by rewrite bind_run, Hintents.
Qed.

(** ** C9: answering a converse request *)

Lemma score_utterances_bus (message : Message) (utterances : list string)
    (best : Q) (response : option Message) (st : Skill) :
  ∃ r, score_utterances message utterances best response st = (r, st)
       ∧ ∀ best' response',
           r = Ok (best', Some response') →
           response = Some response'
           ∨ ∃ name entities, response' = forward message name entities.
Proof.
  revert best response. induction utterances as [|u us IH]; intros.
  - eexists. split; [reflexivity|]. intros ?? [= _ ->]. by left.
  - simpl. rewrite bind_run. unfold gets at 1.
    destruct (dict_get _ _); [|by eexists].
    destruct (Qltb _ _); [|apply IH].
    destruct (calc_intent _ _) as [|name conf entities]; [by eexists|].
    destruct (IH conf (Some (forward message name entities)))
      as (r & Hr & Hresp).
    exists r. split; [done|]. intros best' response' Hok. right.
    destruct (Hresp _ _ Hok) as [[= <-]|?]; eauto.
Qed.

Lemma Qltb_lt (a b : Q) : Qltb a b = true ↔ (a < b)%Q.
Proof.
  unfold Qltb. rewrite negb_true_iff. split.
  - intros Hf. apply Qnot_le_lt. intros Hle.
    apply Qle_bool_iff in Hle. congruence.
  - intros Hlt. apply not_true_is_false. intros Hle.
    apply Qle_bool_iff in Hle. by apply (Qlt_not_le _ _ Hlt).
Qed.

Lemma Qltb_ge (a b : Q) : Qltb a b = false ↔ (b <= a)%Q.
Proof.
  unfold Qltb. rewrite negb_false_iff. apply Qle_bool_iff.
Qed.

Local Abbreviation conf_of c u := (match_conf (calc_intent c u)).

(** Utterances that score below [top] leave the best score below it. *)
Lemma score_utterances_below (message : Message) (c : IntentContainer)
    (pre rest : list string) (top : Q) (st : Skill) :
  dict_get (converse_matchers st) (lang (Some message)) = Some c →
  (∀ v, v ∈ pre → (conf_of c v < top)%Q) →
  ∀ best resp,
    (0 <= best)%Q → (best < top)%Q →
    ∃ best' resp',
      (0 <= best')%Q ∧ (best' < top)%Q
      ∧ score_utterances message (pre ++ rest) best resp st
        = score_utterances message rest best' resp' st.
Proof.
  intros Hc. induction pre as [|v pre IH]; intros Hpre best resp Hnn Htop.
  - by exists best, resp.
  - simpl. rewrite bind_run, gets_run. cbv beta iota. rewrite Hc.
    assert (Hv : (conf_of c v < top)%Q) by (apply Hpre; left).
    assert (Hrest : ∀ w, w ∈ pre → (conf_of c w < top)%Q)
      by (intros w Hw; apply Hpre; by right).
    destruct (Qltb best (conf_of c v)) eqn:E.
    + apply Qltb_lt in E.
      destruct (calc_intent c v) as [|name conf entities]; simpl in *.
      * exfalso. by apply (Qlt_not_le _ _ E).
      * apply (IH Hrest); [|done].
        apply Qlt_le_weak. by apply (Qle_lt_trans _ best).
    + by apply (IH Hrest).
Qed.

(** Utterances that score no more than the best score change nothing. *)
Lemma score_utterances_settled (message : Message) (c : IntentContainer)
    (post : list string) (best : Q) (resp : option Message) (st : Skill) :
  dict_get (converse_matchers st) (lang (Some message)) = Some c →
  (∀ v, v ∈ post → (conf_of c v <= best)%Q) →
  score_utterances message post best resp st = (Ok (best, resp), st).
Proof.
  intros Hc. induction post as [|v post IH]; intros Hpost; [done|].
  simpl. rewrite bind_run, gets_run. cbv beta iota. rewrite Hc.
  assert (Qltb best (conf_of c v) = false) as ->
    by (apply Qltb_ge, Hpost; left).
  apply IH. intros w Hw. apply Hpost. by right.
Qed.

(** C9 (what the code does instead): a converse request whose best
    utterance matches a registered converse intent is answered with the
    intent event followed by one skill.converse.response with result
    [True], whatever the converse handler would have done (it is not
    called), when the matcher is registered under the language tag of the
    skill itself.  When the session language only resolves to a registered
    language and the tag of the skill has no matcher of its own, the intent
    that matches in the resolved language is not sent: the request ends
    with [KeyError], no intent event and no response.  Whenever the
    converse intents answer [True], an intent event was emitted, the
    response has result [True] and the handler is not called.  When the
    handler is called and is aborted, the response has error killed and
    result [False]; when it raises anything else, the response has the
    [repr] of the exception as error and result [False]. *)
Theorem converse_request_responses (converse : ConverseHandler)
    (message : Message) (st : Skill) :
  (∀ closest c pre u post name conf entities,
     _get_closest_lang st (lang (Some message)) = Some closest →
     dict_get (converse_matchers st) (lang (Some message)) = Some c →
     dict_get (data message) "utterances"
     = Some (utterances_val (pre ++ u :: post)) →
     calc_intent c u = Matched name conf entities →
     (0 < conf)%Q →
     (default (1 # 2)%Q settings_min_intent_conf <= conf)%Q →
     (∀ v, v ∈ pre → (match_conf (calc_intent c v) < conf)%Q) →
     (∀ v, v ∈ post → (match_conf (calc_intent c v) <= conf)%Q) →
     _handle_converse_request converse message st
     = (Ok tt,
        set_bus (λ b, b ++ [reply message "skill.converse.response"
                              [("skill_id", PStr (skill_id st));
                               ("result", PBool true)] []])
          (set_bus (λ b, b ++ [forward message name entities]) st)))
  ∧ (∀ closest c u us name conf entities,
       _get_closest_lang st (lang (Some message)) = Some closest →
       dict_get (converse_matchers st) closest = Some c →
       dict_get (converse_matchers st) (lang (Some message)) = None →
       dict_get (data message) "utterances"
       = Some (utterances_val (u :: us)) →
       calc_intent c u = Matched name conf entities →
       (0 < conf)%Q →
       (default (1 # 2)%Q settings_min_intent_conf <= conf)%Q →
       _handle_converse_request converse message st
       = (Raise (KeyError (lang (Some message))), st))
  ∧ (∀ st1,
       _handle_converse_intents message st = (Ok (Some true), st1) →
       (∃ name entities,
          st1 = set_bus (λ b, b ++ [forward message name entities]) st)
       ∧ _handle_converse_request converse message st
         = (Ok tt,
            set_bus (λ b, b ++ [reply message "skill.converse.response"
                                  [("skill_id", PStr (skill_id st));
                                   ("result", PBool true)] []]) st1))
  ∧ (∀ handled st1 utterances l e st2,
       _handle_converse_intents message st = (Ok handled, st1) →
       handled ≠ Some true →
       dict_get (data message) "utterances" = Some utterances →
       dict_get (data message) "lang" = Some (PStr l) →
       call converse
         (filter_kwargs (parameters converse) message utterances
            (standardize_lang_tag l)) st1 = (Raise e, st2) →
       _handle_converse_request converse message st
       = (Ok tt,
          set_bus (λ b, b ++ [reply message "skill.converse.response"
                                [("skill_id", PStr (skill_id st));
                                 ("error",
                                  PStr (if is_abort e then "killed"
                                        else repr e));
                                 ("result", PBool false)] []]) st2)).
Proof.
  split; [|split; [|split]].
  - intros closest c pre u post name conf entities
      Hclosest Hc Hdata Hu Hpos Hthr Hpre Hpost.
    assert (Hintents : _handle_converse_intents message st
              = (Ok (Some true),
                 set_bus (λ b, b ++ [forward message name entities]) st)).
    { unfold _handle_converse_intents. rewrite bind_run, gets_run.
      cbv beta iota. rewrite Hclosest, bind_run.
      rewrite (data_utterances_run _ _ _ Hdata), bind_run.
      destruct (score_utterances_below message c pre (u :: post) conf st
                  Hc Hpre 0%Q None) as (best & resp & Hnn & Hlt & ->);
        [apply Qle_refl|done|].
      simpl score_utterances. rewrite bind_run, gets_run. cbv beta iota.
      rewrite Hc, Hu. cbn [match_conf].
      assert (Qltb best conf = true) as -> by (by apply Qltb_lt).
      rewrite (score_utterances_settled message c post conf _ st Hc Hpost).
      assert (Qltb conf (default (1 # 2)%Q settings_min_intent_conf) = false)
        as -> by (by apply Qltb_ge).
      reflexivity. }
    unfold _handle_converse_request. rewrite bind_run. unfold gets at 1.
    rewrite bind_run, Hintents. reflexivity.
  - intros closest c u us name conf entities
      Hclosest _ Hself Hdata _ _ _.
    unfold _handle_converse_request. rewrite bind_run. unfold gets at 1.
    rewrite bind_run. unfold _handle_converse_intents.
    rewrite bind_run. unfold gets at 1.
    rewrite Hclosest, bind_run, (data_utterances_run _ _ _ Hdata), bind_run.
    simpl score_utterances. rewrite bind_run. unfold gets at 1.
    by rewrite Hself.
  - intros st1 Hintents. split.
    + revert Hintents. unfold _handle_converse_intents.
      rewrite bind_run. unfold gets at 1.
      destruct (_get_closest_lang _ _); [|done].
      rewrite bind_run.
      destruct (data_utterances message st) as [[us|e] st'] eqn:Hd; [|done].
      assert (st' = st) as ->.
      { revert Hd. unfold data_utterances, subscript. rewrite bind_run.
        destruct (dict_get _ _) as [v|]; [|done]. simpl.
        destruct v; try done. destruct (strings_of _); by intros [= _ <-]. }
      rewrite bind_run.
      destruct (score_utterances_bus message us 0%Q None st)
        as (r & -> & Hresp).
      destruct r as [[best [response|]]|e]; [| done | done].
      destruct (Qltb _ _); [done|].
      rewrite bind_run. unfold emit, modify at 1. intros [= <-].
      destruct (Hresp _ _ eq_refl) as [?|(name & entities & ->)]; [done|].
      by exists name, entities.
    + unfold _handle_converse_request. rewrite bind_run. unfold gets at 1.
      rewrite bind_run, Hintents. reflexivity.
  - intros handled st1 utterances l e st2 Hintents Hnot Hu Hl Hcall.
    unfold _handle_converse_request. rewrite bind_run. unfold gets at 1.
    rewrite bind_run, Hintents.
    assert (default false handled = false) as ->
      by (destruct handled as [[]|]; done).
    unfold try_except, subscript. rewrite bind_run, Hu.
    simpl. rewrite bind_run, Hl. simpl. rewrite bind_run. simpl.
    rewrite bind_run, Hcall.
    destruct (is_abort e); reflexivity.
Qed.


(** ** The worker of [get_response] *)

Section Worker.
Variables (ic : string → bool) (vd : string → pyval)
  (onf : list string → pyval) (nr : Z) (msg : Message) (sess : Session).

Local Abbreviation sid := (session_id sess).
Local Abbreviation listen := (reply msg "mycroft.mic.listen" [] []).

Lemma speak_run (utterance : pyval) (expect : bool) (meta : pydict)
    (dug : option Message) (st : Skill) :
  ∃ m, speak utterance expect meta dug st
       = (Ok tt, set_bus (λ b, b ++ [m]) st).
Proof. unfold speak. eexists. reflexivity. Qed.

Lemma reprompt_or_return_waiting (reprompt : pyval) (nf : Z) (st : Skill)
    (l : list string) :
  responses st !! sid = Some (Some l) →
  ∃ m, reprompt_or_return sess msg reprompt nf st
       = (Ok (Waiting nf), set_bus (λ b, b ++ [m]) st)
       ∧ (truthy reprompt = false → m = listen).
Proof.
  intros Hslot. unfold reprompt_or_return.
  mstep. rewrite Hslot. mstep.
  destruct (truthy reprompt).
  - destruct (speak_run reprompt true [] (Some msg) st) as [m ->].
    by exists m.
  - by exists listen.
Qed.

Lemma reprompt_or_return_returned (reprompt : pyval) (nf : Z) (st : Skill) :
  responses st !! sid = Some None ∨ responses st !! sid = None →
  reprompt_or_return sess msg reprompt nf st = (Ok Returned, st).
Proof.
  intros Hslot. unfold reprompt_or_return. mstep.
  by destruct Hslot as [-> | ->].
Qed.

(** What [__get_response] returns is what the mailbox of the session
    holds when the wait ends. *)
Lemma get_response_read (ev : wait_event) (st : Skill) :
  ∃ st1,
    skill_id st1 = skill_id st
    ∧ validated_responses st1 = validated_responses st
    ∧ bus st1 = bus st
    ∧ (__get_response sess ev st = (Raise (KeyError sid), st1)
       ∨ ∃ r, __get_response sess ev st = (Ok r, st1)
              ∧ responses st1 !! sid = Some r).
Proof.
  assert (Hread : ∀ st1,
    (gets responses ≫= λ rs,
       match rs !! sid with
       | Some ans => mret ans
       | None => raise (KeyError sid)
       end) st1 = (Raise (KeyError sid), st1)
    ∨ ∃ r, (gets responses ≫= λ rs,
              match rs !! sid with
              | Some ans => mret ans
              | None => raise (KeyError sid)
              end) st1 = (Ok r, st1)
           ∧ responses st1 !! sid = Some r).
  { intros st1. mstep. destruct (responses st1 !! sid) as [r|] eqn:Hr.
    - right. by exists r.
    - by left. }
  unfold __get_response. destruct ev as [|sid2 us|m]; mstep.
  - exists st. repeat split. apply Hread.
  - unfold __handle_get_response. mstep.
    destruct (responses st !! sid2); mstep.
    + eexists. split; [|split; [|split; [|apply Hread]]]; done.
    + exists st. repeat split. apply Hread.
  - exists st. repeat split. apply Hread.
Qed.

(** The turn of the loop after utterances were read: cancel and an
    accepted answer end the worker, a rejected one prompts again. *)
Lemma validate_tail (nf : Z) (st : Skill) (u : string)
    (rest : list string) :
  ∃ st',
    (_validate_response (u :: rest) sess ic vd onf ≫= λ reprompt,
       reprompt_or_return sess msg reprompt
         (if truthy reprompt then 0 else nf)) st
    = (Ok (if ic u then Returned
           else if truthy (vd u) then Returned
           else Waiting (if truthy (onf (u :: rest)) then 0 else nf)),
       st')
    ∧ skill_id st' = skill_id st
    ∧ (ic u = true → validated_responses st' !! sid = Some PNone)
    ∧ (ic u = false → truthy (vd u) = true →
       validated_responses st' !! sid
       = Some (if is_True (vd u) then PStr u else vd u))
    ∧ (ic u = false → truthy (vd u) = false →
       responses st' !! sid = Some (Some [])
       ∧ validated_responses st' = validated_responses st).
Proof.
  unfold _validate_response. mstep. destruct (ic u).
  - mstep.
    rewrite reprompt_or_return_returned
      by (left; simpl; apply lookup_insert_eq).
    eexists. split; [reflexivity|]. split; [done|].
    split; [intros _; simpl; apply lookup_insert_eq|]. split; done.
  - destruct (truthy (vd u)) eqn:Hv; cbn [negb]; cbv iota.
    + mstep. simpl (truthy PNone). cbv iota.
      rewrite reprompt_or_return_returned
        by (left; simpl; apply lookup_insert_eq).
      eexists. split; [reflexivity|]. split; [done|].
      split; [done|]. split; [|done].
      intros _ _. simpl. apply lookup_insert_eq.
    + mstep.
      set (st2 := set_responses <[sid:=Some []]> st).
      assert (Hslot : responses st2 !! sid = Some (Some []))
        by (simpl; apply lookup_insert_eq).
      destruct (reprompt_or_return_waiting (onf (u :: rest))
                  (if truthy (onf (u :: rest)) then 0 else nf) st2 []
                  Hslot) as (m & -> & _).
      eexists. split; [reflexivity|]. split; [done|].
      split; [done|]. split; [done|]. intros _ _. split; done.
Qed.

(** The turn of the loop after an empty read. *)
Lemma empty_tail (nf : Z) (st : Skill) :
  responses st !! sid = Some (Some []) →
  ((if (nr <=? nf + 1) && (0 <=? nr) then
      modify (set_responses <[sid := None]>);;
      modify (set_validated_responses <[sid := PNone]>)
    else mret tt);;
   reprompt_or_return sess msg PNone (nf + 1)) st =
  if (nr <=? nf + 1) && (0 <=? nr)
  then (Ok Returned,
        set_validated_responses <[sid := PNone]>
          (set_responses <[sid := None]> st))
  else (Ok (Waiting (nf + 1)), set_bus (λ b, b ++ [listen]) st).
Proof.
  intros Hslot. mstep. destruct ((nr <=? nf + 1) && (0 <=? nr)).
  - mstep.
    apply reprompt_or_return_returned. left. simpl.
    apply lookup_insert_eq.
  - mstep.
    destruct (reprompt_or_return_waiting PNone (nf + 1) st [] Hslot)
      as (m & -> & Hm). by rewrite Hm.
Qed.

Lemma wait_cycle_unfold (nf : Z) (ev : wait_event) (st : Skill) :
  (∀ m, ev ≠ Aborted m) →
  wait_cycle ic vd onf nr msg sess nf ev st =
  match __get_response sess ev st with
  | (Ok None, st1) => (Ok Returned, st1)
  | (Ok (Some []), st1) =>
      ((if (nr <=? nf + 1) && (0 <=? nr) then
          modify (set_responses <[sid := None]>);;
          modify (set_validated_responses <[sid := PNone]>)
        else mret tt);;
       reprompt_or_return sess msg PNone (nf + 1)) st1
  | (Ok (Some (u :: rest)), st1) =>
      (_validate_response (u :: rest) sess ic vd onf ≫= λ reprompt,
         reprompt_or_return sess msg reprompt
           (if truthy reprompt then 0 else nf)) st1
  | (Raise e, st1) => (Raise e, st1)
  end.
Proof.
  intros Hev. unfold wait_cycle.
  destruct ev as [|sid2 us|m]; [| |by destruct (Hev m)];
    rewrite bind_run;
    destruct (__get_response sess _ st) as [[[[|u rest]|]|e] st1];
    reflexivity.
Qed.

Lemma wait_cycle_silence (nf : Z) (st : Skill) :
  responses st !! sid = Some (Some []) →
  wait_cycle ic vd onf nr msg sess nf Silence st =
  if (nr <=? nf + 1) && (0 <=? nr)
  then (Ok Returned,
        set_validated_responses <[sid := PNone]>
          (set_responses <[sid := None]> st))
  else (Ok (Waiting (nf + 1)), set_bus (λ b, b ++ [listen]) st).
Proof.
  intros Hslot. rewrite wait_cycle_unfold by done.
  assert (__get_response sess Silence st = (Ok (Some []), st)) as ->.
  { unfold __get_response. mstep. by rewrite Hslot. }
  by apply empty_tail.
Qed.

(** A cycle in which utterances of the session arrive. *)
Lemma wait_cycle_heard (nf : Z) (st : Skill) (u : string)
    (rest : list string) :
  is_Some (responses st !! sid) →
  ∃ st',
    wait_cycle ic vd onf nr msg sess nf (Heard sid (u :: rest)) st
    = (Ok (if ic u then Returned
           else if truthy (vd u) then Returned
           else Waiting (if truthy (onf (u :: rest)) then 0 else nf)),
       st')
    ∧ skill_id st' = skill_id st
    ∧ (ic u = true → validated_responses st' !! sid = Some PNone)
    ∧ (ic u = false → truthy (vd u) = true →
       validated_responses st' !! sid
       = Some (if is_True (vd u) then PStr u else vd u))
    ∧ (ic u = false → truthy (vd u) = false →
       responses st' !! sid = Some (Some [])).
Proof.
  intros [x Hx]. rewrite wait_cycle_unfold by done.
  assert (__get_response sess (Heard sid (u :: rest)) st
          = (Ok (Some (u :: rest)),
             set_responses <[sid:=Some (u :: rest)]> st)) as ->.
  { unfold __get_response, __handle_get_response.
    mstep. rewrite Hx. mstep.
    simpl (responses _). by rewrite lookup_insert_eq. }
  destruct (validate_tail nf (set_responses <[sid:=Some (u :: rest)]> st)
              u rest) as (st' & -> & Hid & Hc & Ha & Hr).
  exists st'. split; [done|]. split; [done|]. split; [done|].
  split; [done|]. intros Hic Hv. by destruct (Hr Hic Hv).
Qed.

(** The abort handler runs and the worker is gone. *)
Lemma wait_cycle_aborted (nf : Z) (m : Message) (st : Skill) :
  wait_cycle ic vd onf nr msg sess nf (Aborted m) st =
  (Ok Returned,
   set_bus (λ b, b ++ [forward m (skill_id st +:+ ".get_response.killed") []])
     (set_validated_responses (fmap (λ _, PNone))
        (set_responses (fmap (λ _, None)) st))).
Proof. reflexivity. Qed.

(** When the loop goes on, either the cycle was empty and the counter
    went up by one, or an utterance failed validation and the counter
    is 0 if a reprompt is spoken and unchanged if not; and the mailbox
    of the session holds a list again. *)
Lemma wait_cycle_waiting (nf nf' : Z) (ev : wait_event) (st st' : Skill) :
  wait_cycle ic vd onf nr msg sess nf ev st = (Ok (Waiting nf'), st') →
  ((∃ st1, __get_response sess ev st = (Ok (Some []), st1)
           ∧ nf' = nf + 1)
   ∨ (∃ st1 u rest,
        __get_response sess ev st = (Ok (Some (u :: rest)), st1)
        ∧ ic u = false ∧ truthy (vd u) = false
        ∧ nf' = if truthy (onf (u :: rest)) then 0 else nf))
  ∧ (∃ l, responses st' !! sid = Some (Some l))
  ∧ skill_id st' = skill_id st
  ∧ validated_responses st' = validated_responses st.
Proof.
  intros Hrun.
  assert (Hev : ∀ m, ev ≠ Aborted m).
  { intros m ->. by rewrite wait_cycle_aborted in Hrun. }
  revert Hrun. rewrite (wait_cycle_unfold nf ev st Hev).
  destruct (get_response_read ev st)
    as (st1 & Hid & Hval & _ & [Hraise | (r & Hread & Hslot)]).
  { by rewrite Hraise. }
  rewrite Hread. destruct r as [[|u rest]|]; [| |done].
  - rewrite (empty_tail nf st1 Hslot).
    destruct ((nr <=? nf + 1) && (0 <=? nr)); [done|].
    intros [= <- <-]. split; [left; exists st1; split; reflexivity|].
    split; [by exists []|]. by split.
  - destruct (validate_tail nf st1 u rest)
      as (st2 & -> & Hid2 & _ & _ & Hr).
    destruct (ic u) eqn:Hic; [done|].
    destruct (truthy (vd u)) eqn:Hvd; [done|].
    intros [= <- <-]. destruct (Hr eq_refl eq_refl) as [Hs Hv].
    split; [right; exists st1, u, rest; repeat split; done|].
    split; [by exists []|]. split; congruence.
Qed.

Lemma wait_loop_cons (nf : Z) (ev : wait_event) (evs : list wait_event)
    (st : Skill) :
  wait_loop ic vd onf nr msg sess nf (ev :: evs) st =
  match wait_cycle ic vd onf nr msg sess nf ev st with
  | (Ok (Waiting nf'), st') => wait_loop ic vd onf nr msg sess nf' evs st'
  | (Ok Returned, st') => (Ok Returned, st')
  | (Raise e, st') => (Raise e, st')
  end.
Proof.
  simpl. rewrite bind_run.
  by destruct (wait_cycle ic vd onf nr msg sess nf ev st)
    as [[[nf'|]|e] st'].
Qed.

(** The loop run on more cycles goes on from where the first ones
    left it. *)
Lemma wait_loop_app (nf : Z) (pre post : list wait_event) (st : Skill) :
  wait_loop ic vd onf nr msg sess nf (pre ++ post) st =
  match wait_loop ic vd onf nr msg sess nf pre st with
  | (Ok (Waiting nf'), st') =>
      wait_loop ic vd onf nr msg sess nf' post st'
  | other => other
  end.
Proof.
  revert nf st. induction pre as [|ev pre IH]; intros nf st; [done|].
  simpl. rewrite !bind_run.
  destruct (wait_cycle ic vd onf nr msg sess nf ev st)
    as [[[nf'|]|e] st']; [apply IH|done|done].
Qed.

Lemma wait_loop_waiting (nf nf' : Z) (pre : list wait_event)
    (st st' : Skill) (l0 : list string) :
  responses st !! sid = Some (Some l0) →
  wait_loop ic vd onf nr msg sess nf pre st = (Ok (Waiting nf'), st') →
  (∃ l, responses st' !! sid = Some (Some l))
  ∧ skill_id st' = skill_id st
  ∧ validated_responses st' = validated_responses st.
Proof.
  revert nf st l0. induction pre as [|ev pre IH]; intros nf st l0 Hslot.
  - intros [= <- <-]. split; [by exists l0|done].
  - simpl. rewrite bind_run.
    destruct (wait_cycle ic vd onf nr msg sess nf ev st)
      as [[[nf1|]|e] st1] eqn:Hcycle; [|done|done].
    intros Hrest.
    destruct (wait_cycle_waiting _ _ _ _ _ Hcycle)
      as (_ & (l1 & Hslot1) & Hid1 & Hval1).
    destruct (IH nf1 st1 l1 Hslot1 Hrest) as (Hs & Hid & Hval).
    split; [done|]. split; congruence.
Qed.

(** Cycles without input, while the budget is negative or not yet
    reached: the worker keeps waiting, one microphone prompt a cycle. *)
Lemma wait_loop_silence (n : nat) (nf : Z) (st : Skill) :
  nr < 0 ∨ nf + Z.of_nat n < nr →
  responses st !! sid = Some (Some []) →
  wait_loop ic vd onf nr msg sess nf (replicate n Silence) st =
  (Ok (Waiting (nf + Z.of_nat n)),
   set_bus (λ b, b ++ replicate n listen) st).
Proof.
  revert nf st. induction n as [|n IH]; intros nf st Hnr Hslot.
  - simpl. rewrite ret_run. f_equal; [do 2 f_equal; lia|].
    destruct st; unfold set_bus; simpl. f_equal.
    symmetry. apply app_nil_r.
  - change (replicate (S n) Silence) with (Silence :: replicate n Silence).
    rewrite wait_loop_cons, (wait_cycle_silence nf st Hslot).
    assert ((nr <=? nf + 1) && (0 <=? nr) = false) as ->.
    { apply andb_false_iff. destruct Hnr; [right|left]; lia. }
    rewrite IH; [|lia|done].
    f_equal; [do 2 f_equal; lia|].
    destruct st; unfold set_bus; simpl. by rewrite <- app_assoc.
Qed.

End Worker.

(** ** [get_response] as a whole *)

(** [get_response] is its opening statements, the loop of the worker on
    the cycles given, the poll of the validated mailbox and the closing
    statements. *)
Lemma get_response_unfold (dialog : string) (data : option pydict)
    (validator : option (string → pyval)) (on_fail : on_fail_arg)
    (num_retries : Z) (message dug : option Message)
    (events : list wait_event) (st : Skill) :
  let sid := skill_id st in
  let session :=
    enable_response_mode sid
      (SessionManager_get (request_message sid message dug)) in
  let msg := set_session session (request_message sid message dug) in
  get_response dialog data validator on_fail num_retries message dug
    events st =
  match wait_loop (is_cancel session)
          (default (validator_default session) validator)
          (on_fail_fn dialog (default [] data) on_fail) num_retries
          msg session 0 events
          (get_response dialog data validator on_fail num_retries
             message dug [] st).2 with
  | (r, st1) =>
      (await_validated session (joined r)
       ≫= leave_response_mode sid session msg) st1
  end.
Proof.
  intros sid session msg. unfold get_response, _wait_response,
    _real_wait_response, speak_dialog, speak.
  destruct (negb (String.eqb dialog "")); [destruct dialog_renderer|].
  all: mstep; cbn [wait_loop]; mstep; cbn [await_validated]; mstep.
  all: cbn [leave_response_mode]; mstep; cbn [snd].
  all: match goal with
       | |- context [wait_loop ?a ?b ?c ?d ?e ?f ?g ?h ?i] =>
           set (W := wait_loop a b c d e f g h i)
       end.
  all: match goal with
       | |- context [wait_loop ?a ?b ?c ?d ?e ?f ?g ?h ?i] =>
           change (wait_loop a b c d e f g h i) with W
       end.
  all: by destruct W as [[w|e] st1].
Qed.

(** Before the first cycle: the worker waits, the mailbox of the session
    holds the empty list and the validated mailbox the empty list too. *)
Lemma get_response_start (dialog : string) (data : option pydict)
    (validator : option (string → pyval)) (on_fail : on_fail_arg)
    (num_retries : Z) (message dug : option Message) (st : Skill) :
  let sid := skill_id st in
  let session :=
    enable_response_mode sid
      (SessionManager_get (request_message sid message dug)) in
  ∃ st0,
    get_response dialog data validator on_fail num_retries message dug
      [] st = (Ok Listening, st0)
    ∧ skill_id st0 = sid
    ∧ responses st0 !! session_id session = Some (Some [])
    ∧ validated_responses st0 !! session_id session = Some (PList []).
Proof.
  intros sid session. unfold get_response, _wait_response,
    _real_wait_response, speak_dialog.
  destruct (negb (String.eqb dialog "")); [destruct dialog_renderer|].
  all: eexists; split; [reflexivity|]; split; [reflexivity|].
  all: split; simpl; apply lookup_insert_eq.
Qed.

Lemma get_response_run (dialog : string) (data : option pydict)
    (validator : option (string → pyval)) (on_fail : on_fail_arg)
    (num_retries : Z) (message dug : option Message) (st : Skill) :
  let sid := skill_id st in
  let session :=
    enable_response_mode sid
      (SessionManager_get (request_message sid message dug)) in
  let msg := set_session session (request_message sid message dug) in
  ∃ st0,
    get_response dialog data validator on_fail num_retries message dug
      [] st = (Ok Listening, st0)
    ∧ skill_id st0 = sid
    ∧ responses st0 !! session_id session = Some (Some [])
    ∧ validated_responses st0 !! session_id session = Some (PList [])
    ∧ ∀ events,
        get_response dialog data validator on_fail num_retries message dug
          events st =
        match wait_loop (is_cancel session)
                (default (validator_default session) validator)
                (on_fail_fn dialog (default [] data) on_fail) num_retries
                msg session 0 events st0 with
        | (r, s) =>
            (await_validated session (joined r)
             ≫= leave_response_mode sid session msg) s
        end.
Proof.
  intros sid session msg.
  destruct (get_response_start dialog data validator on_fail num_retries
              message dug st) as (st0 & Hstart & Hid0 & Hslot0 & Hval0).
  exists st0. repeat (split; [done|]). intros events.
  rewrite get_response_unfold. fold sid session msg.
  by rewrite Hstart.
Qed.

(** While [get_response] is still listening, the worker waits, and more
    cycles take the loop on from there. *)
Lemma get_response_app (dialog : string) (data : option pydict)
    (validator : option (string → pyval)) (on_fail : on_fail_arg)
    (num_retries : Z) (message dug : option Message)
    (pre : list wait_event) (st st1 : Skill) :
  let sid := skill_id st in
  let session :=
    enable_response_mode sid
      (SessionManager_get (request_message sid message dug)) in
  let msg := set_session session (request_message sid message dug) in
  get_response dialog data validator on_fail num_retries message dug
    pre st = (Ok Listening, st1) →
  ∃ nf l,
    responses st1 !! session_id session = Some (Some l)
    ∧ skill_id st1 = sid
    ∧ validated_responses st1 !! session_id session = Some (PList [])
    ∧ ∀ post,
        get_response dialog data validator on_fail num_retries message dug
          (pre ++ post) st =
        match wait_loop (is_cancel session)
                (default (validator_default session) validator)
                (on_fail_fn dialog (default [] data) on_fail) num_retries
                msg session nf post st1 with
        | (r, s) =>
            (await_validated session (joined r)
             ≫= leave_response_mode sid session msg) s
        end.
Proof.
  intros sid session msg Hpre.
  destruct (get_response_run dialog data validator on_fail num_retries
              message dug st)
    as (st0 & Hstart & Hid0 & Hslot0 & Hval0 & Hunfold).
  fold sid session msg in Hid0, Hslot0, Hval0, Hunfold.
  rewrite Hunfold in Hpre.
  assert (Hgone : ∀ s,
    (await_validated session Returned
     ≫= leave_response_mode sid session msg) s ≠ (Ok Listening, st1)).
  { intros s. unfold await_validated. mstep.
    destruct (_ || _); mstep; [|done].
    destruct (default PNone _) as [| | | |[|first items]|];
      cbn [leave_response_mode]; mstep; done. }
  destruct (wait_loop _ _ _ _ _ _ _ pre st0) as [[[nf|]|e] s1] eqn:Hloop;
    cbn [joined] in Hpre; [|by destruct (Hgone s1)..].
  revert Hpre. cbn [await_validated]. mstep. cbn [leave_response_mode].
  mstep. intros [= ->].
  destruct (wait_loop_waiting _ _ _ _ _ _ _ _ _ _ _ _ Hslot0 Hloop)
    as ((l & Hslot) & Hid & Hval).
  exists nf, l. split; [done|]. split; [congruence|].
  split; [by rewrite Hval|].
  intros post. by rewrite Hunfold, wait_loop_app, Hloop.
Qed.

(** When the worker has returned and the validated mailbox holds [None]
    or a true value, the poll ends and [get_response] returns it, or its
    first element when it is a list. *)
Lemma finish_answer (sid : string) (session : Session) (msg : Message)
    (v : pyval) (s : Skill) :
  validated_responses s !! session_id session = Some v →
  truthy v || is_None v = true →
  ∃ s',
    (await_validated session Returned
     ≫= leave_response_mode sid session msg) s
    = (Ok (Answer (match v with PList (first :: _) => first | _ => v end)),
       s').
Proof.
  intros Hv Hend. unfold await_validated. mstep. rewrite Hv.
  cbn [from_option id]. rewrite Hend. mstep.
  destruct v as [| | | |[|first items]|]; try done;
    cbn [leave_response_mode]; mstep; by eexists.
Qed.

(** ** C1: unlimited retries and silence *)

(** C1 (what the code does instead): with [num_retries = -1] and nothing
    but silence, [get_response] never returns.  After [n] silent cycles,
    for every [n], it is still listening, the validated mailbox of the
    session still holds the empty list, and the worker has asked the
    microphone again [n] times: it does not stop after one reprompt. *)
Theorem get_response_unlimited_retries_never_gives_up (dialog : string)
    (data : option pydict) (validator : option (string → pyval))
    (on_fail : on_fail_arg) (message dug : option Message) (st : Skill)
    (n : nat) :
  let sid := skill_id st in
  let session :=
    enable_response_mode sid
      (SessionManager_get (request_message sid message dug)) in
  let msg := set_session session (request_message sid message dug) in
  let st0 :=
    (get_response dialog data validator on_fail (-1) message dug [] st).2 in
  get_response dialog data validator on_fail (-1) message dug
    (replicate n Silence) st
  = (Ok Listening,
     set_bus (λ b, b ++ replicate n (reply msg "mycroft.mic.listen" [] []))
       st0)
  ∧ validated_responses st0 !! session_id session = Some (PList []).
Proof.
  intros sid session msg st0.
  destruct (get_response_run dialog data validator on_fail (-1)
              message dug st)
    as (st0' & Hstart & Hid0 & Hslot0 & Hval0 & Hunfold).
  fold sid session msg in Hid0, Hslot0, Hval0, Hunfold.
  assert (st0 = st0') as -> by (unfold st0; by rewrite Hstart).
  split; [|done].
  rewrite Hunfold, wait_loop_silence; [done|lia|done].
Qed.

(** ** C4: the counter of empty cycles *)

(** C4 (as the code has it): the counter of empty cycles goes up by one
    in a cycle that ends without an utterance, and in no other: such a
    cycle ends the worker with [None] when the counter reaches a budget
    that is not negative, and asks the microphone again otherwise.  A cycle
    whose utterance fails validation never adds to the counter; what it
    does to it depends on what [on_fail] returns: when that is a text to
    speak, the text is spoken and the counter is back at 0; when it is
    empty (as it is by default, no dialog being given), the microphone is
    asked again with mycroft.mic.listen and the counter is left as it
    was.  With [num_retries = 2] and silence only, [get_response] is still
    listening after one empty cycle and returns [None] at the second.  So
    after an empty cycle, a rejected utterance and another empty cycle,
    all with [num_retries = 2], [get_response] is still listening when
    [on_fail] gave a text to speak, and has returned [None] when it gave
    none. *)
Theorem empty_cycles_counter_and_budget :
  (∀ (ic : string → bool) (vd : string → pyval) (onf : list string → pyval)
     (nr : Z) (msg : Message) (sess : Session) (nf : Z) (st : Skill),
     responses st !! session_id sess = Some (Some []) →
     wait_cycle ic vd onf nr msg sess nf Silence st
     = if (nr <=? nf + 1) && (0 <=? nr)
       then (Ok Returned,
             set_validated_responses <[session_id sess := PNone]>
               (set_responses <[session_id sess := None]> st))
       else (Ok (Waiting (nf + 1)),
             set_bus (λ b, b ++ [reply msg "mycroft.mic.listen" [] []]) st))
  ∧ (∀ (ic : string → bool) (vd : string → pyval)
       (onf : list string → pyval) (nr : Z) (msg : Message) (sess : Session)
       (nf : Z) (u : string) (rest : list string) (st : Skill),
       is_Some (responses st !! session_id sess) →
       ic u = false →
       truthy (vd u) = false →
       let reprompt := onf (u :: rest) in
       let heard :=
         set_responses <[session_id sess := Some []]>
           (set_responses <[session_id sess := Some (u :: rest)]> st) in
       wait_cycle ic vd onf nr msg sess nf
         (Heard (session_id sess) (u :: rest)) st
       = if truthy reprompt
         then (Ok (Waiting 0), (speak reprompt true [] (Some msg) heard).2)
         else (Ok (Waiting nf),
               set_bus (λ b, b ++ [reply msg "mycroft.mic.listen" [] []])
                 heard))
  ∧ (∀ (dialog : string) (data : option pydict)
       (validator : option (string → pyval)) (on_fail : on_fail_arg)
       (message dug : option Message) (more : list wait_event) (st : Skill),
       (get_response dialog data validator on_fail 2 message dug
          [Silence] st).1 = Ok Listening
       ∧ (get_response dialog data validator on_fail 2 message dug
            (Silence :: Silence :: more) st).1 = Ok (Answer PNone))
  ∧ (∀ (dialog : string) (data : option pydict) (vd : string → pyval)
       (f : list string → pyval) (message dug : option Message)
       (u : string) (rest : list string) (st : Skill),
       let sid := skill_id st in
       let session :=
         enable_response_mode sid
           (SessionManager_get (request_message sid message dug)) in
       is_cancel session u = false →
       truthy (vd u) = false →
       (get_response dialog data (Some vd) (OnFailCall f) 2 message dug
          [Silence; Heard (session_id session) (u :: rest); Silence] st).1
       = Ok (if truthy (f (u :: rest)) then Listening else Answer PNone)).
Proof.
  assert (Hrejected :
    ∀ (ic : string → bool) (vd : string → pyval)
      (onf : list string → pyval) (nr : Z) (msg : Message) (sess : Session)
      (nf : Z) (u : string) (rest : list string) (st : Skill),
      is_Some (responses st !! session_id sess) →
      ic u = false →
      truthy (vd u) = false →
      wait_cycle ic vd onf nr msg sess nf
        (Heard (session_id sess) (u :: rest)) st
      = if truthy (onf (u :: rest))
        then (Ok (Waiting 0),
              (speak (onf (u :: rest)) true [] (Some msg)
                 (set_responses <[session_id sess := Some []]>
                    (set_responses <[session_id sess := Some (u :: rest)]>
                       st))).2)
        else (Ok (Waiting nf),
              set_bus (λ b, b ++ [reply msg "mycroft.mic.listen" [] []])
                (set_responses <[session_id sess := Some []]>
                   (set_responses <[session_id sess := Some (u :: rest)]>
                      st)))).
  { intros ic vd onf nr msg sess nf u rest st [x Hx] Hic Hv.
    rewrite wait_cycle_unfold by done.
    assert (__get_response sess (Heard (session_id sess) (u :: rest)) st
            = (Ok (Some (u :: rest)),
               set_responses <[session_id sess := Some (u :: rest)]> st))
      as ->.
    { unfold __get_response, __handle_get_response.
      mstep. rewrite Hx. mstep.
      simpl (responses _). by rewrite lookup_insert_eq. }
    unfold _validate_response. mstep. rewrite Hic, Hv.
    cbn [negb]. mstep. unfold reprompt_or_return. mstep.
    simpl (responses _). rewrite lookup_insert_eq.
    destruct (truthy (onf (u :: rest))); mstep; [|reflexivity].
    match goal with
    | |- context [speak ?r ?e ?m ?d ?s] =>
        destruct (speak_run r e m d s) as [sp ->]
    end.
    reflexivity. }
  split; [|split; [exact Hrejected|split]].
  - intros ic vd onf nr msg sess nf st Hslot.
    by apply wait_cycle_silence.
  - intros dialog data validator on_fail message dug more st.
    destruct (get_response_run dialog data validator on_fail 2
                message dug st)
      as (st0 & Hstart & Hid0 & Hslot0 & Hval0 & Hunfold).
    rewrite !Hunfold, !wait_loop_cons.
    rewrite (wait_cycle_silence _ _ _ _ _ _ _ _ Hslot0).
    change ((2 <=? 0 + 1) && (0 <=? 2)) with false. cbv iota.
    split; [done|].
    rewrite wait_loop_cons, wait_cycle_silence by exact Hslot0.
    change ((2 <=? 0 + 1 + 1) && (0 <=? 2)) with true. cbv iota.
    cbn [joined].
    match goal with
    | |- ((await_validated ?se Returned
           ≫= leave_response_mode ?i ?se ?m) ?s).1 = _ =>
        destruct (finish_answer i se m PNone s) as (s' & ->);
          [simpl; apply lookup_insert_eq | done | done]
    end.
  - intros dialog data vd f message dug u rest st sid session Hic Hv.
    destruct (get_response_run dialog data (Some vd) (OnFailCall f) 2
                message dug st)
      as (st0 & Hstart & Hid0 & Hslot0 & Hval0 & Hunfold).
    fold sid session in Hid0, Hslot0, Hval0, Hunfold.
    rewrite Hunfold, wait_loop_cons.
    rewrite (wait_cycle_silence _ _ _ _ _ _ _ _ Hslot0).
    change ((2 <=? 0 + 1) && (0 <=? 2)) with false. cbv iota.
    rewrite wait_loop_cons.
    cbn [default from_option id on_fail_fn].
    rewrite Hrejected; [|by (eexists; exact Hslot0)|done|done].
    destruct (truthy (f (u :: rest))).
    + match goal with
      | |- context [speak ?r ?e ?m ?d ?s] =>
          destruct (speak_run r e m d s) as [sp ->]
      end.
      cbn [snd]. rewrite wait_loop_cons, wait_cycle_silence
        by (simpl; apply lookup_insert_eq).
      change ((2 <=? 0 + 1) && (0 <=? 2)) with false. cbv iota.
      reflexivity.
    + rewrite wait_loop_cons, wait_cycle_silence
        by (simpl; apply lookup_insert_eq).
      change ((2 <=? 0 + 1 + 1) && (0 <=? 2)) with true. cbv iota.
      cbn [wait_loop joined].
      match goal with
      | |- ((await_validated ?se Returned
             ≫= leave_response_mode ?i ?se ?m) ?s).1 = _ =>
          destruct (finish_answer i se m PNone s) as (s' & ->);
            [simpl; apply lookup_insert_eq | done | done]
      end.
Qed.

(** ** C5: what [get_response] returns for an accepted utterance *)

(** C5 (as the code has it): when the validator accepts an utterance that
    is not a cancel phrase, [get_response] returns the text of the
    utterance if the validator answered exactly [True] (the text not being
    empty), the value of the validator if that is any other true value
    that is not a list, and the first element of that value if it is a
    list. *)
Theorem get_response_returns_validated_value (dialog : string)
    (data : option pydict) (validator : option (string → pyval))
    (on_fail : on_fail_arg) (num_retries : Z) (message dug : option Message)
    (pre more : list wait_event) (u : string) (rest : list string)
    (st st1 : Skill) :
  let sid := skill_id st in
  let session :=
    enable_response_mode sid
      (SessionManager_get (request_message sid message dug)) in
  let v := default (validator_default session) validator u in
  get_response dialog data validator on_fail num_retries message dug
    pre st = (Ok Listening, st1) →
  is_cancel session u = false →
  truthy v = true →
  (is_True v = true → u ≠ "") →
  (get_response dialog data validator on_fail num_retries message dug
     (pre ++ Heard (session_id session) (u :: rest) :: more) st).1
  = Ok (Answer (if is_True v then PStr u
                else match v with
                     | PList (first :: _) => first
                     | _ => v
                     end)).
Proof.
  intros sid session v Hpre Hcancel Hv Hne.
  destruct (get_response_app _ _ _ _ _ _ _ _ _ _ Hpre)
    as (nf & l & Hslot & Hid & Hval & Happ).
  fold sid session in Hslot, Hid, Hval, Happ.
  rewrite Happ, wait_loop_cons.
  destruct (wait_cycle_heard (is_cancel session)
              (default (validator_default session) validator)
              (on_fail_fn dialog (default [] data) on_fail) num_retries
              (set_session session (request_message sid message dug))
              session nf st1 u rest)
    as (st2 & -> & _ & _ & Hacc & _); [by rewrite Hslot|].
  fold v. rewrite Hcancel, Hv.
  specialize (Hacc Hcancel Hv). fold v in Hacc.
  cbn [joined].
  match goal with
  | |- ((await_validated ?se Returned
         ≫= leave_response_mode ?i ?se ?m) ?s).1 = _ =>
      destruct (finish_answer i se m _ s Hacc) as (s' & ->)
  end.
  - destruct (is_True v) eqn:Ht; [|by rewrite Hv].
    simpl. destruct (String.eqb_spec u ""); [by destruct Hne|done].
  - simpl. by destruct (is_True v).
Qed.

(** ** C6: cancelling *)

(** C6: when the utterance is a cancel phrase, [get_response] returns
    [None] with no exception, whatever the validator: the validator is
    not consulted, so one that accepts every text changes nothing. *)
Theorem get_response_cancel_returns_none (dialog : string)
    (data : option pydict) (validator : option (string → pyval))
    (on_fail : on_fail_arg) (num_retries : Z) (message dug : option Message)
    (pre more : list wait_event) (u : string) (rest : list string)
    (st st1 : Skill) :
  let sid := skill_id st in
  let session :=
    enable_response_mode sid
      (SessionManager_get (request_message sid message dug)) in
  get_response dialog data validator on_fail num_retries message dug
    pre st = (Ok Listening, st1) →
  is_cancel session u = true →
  (get_response dialog data validator on_fail num_retries message dug
     (pre ++ Heard (session_id session) (u :: rest) :: more) st).1
  = Ok (Answer PNone).
Proof.
  intros sid session Hpre Hcancel.
  destruct (get_response_app _ _ _ _ _ _ _ _ _ _ Hpre)
    as (nf & l & Hslot & Hid & Hval & Happ).
  fold sid session in Hslot, Hid, Hval, Happ.
  rewrite Happ, wait_loop_cons.
  destruct (wait_cycle_heard (is_cancel session)
              (default (validator_default session) validator)
              (on_fail_fn dialog (default [] data) on_fail) num_retries
              (set_session session (request_message sid message dug))
              session nf st1 u rest)
    as (st2 & -> & _ & Hnone & _); [by rewrite Hslot|].
  rewrite Hcancel. specialize (Hnone Hcancel).
  cbn [joined].
  match goal with
  | |- ((await_validated ?se Returned
         ≫= leave_response_mode ?i ?se ?m) ?s).1 = _ =>
      by destruct (finish_answer i se m _ s Hnone) as (s' & ->)
  end.
Qed.

(** ** C8: the abort handler *)

(** C8: the abort handler leaves [None] in the mailbox and in the
    validated mailbox of every session that has one, keeps the sessions
    as they are, and emits one get_response.killed message of the skill;
    after it the poll of any session ends with [None]; and a
    [get_response] that was listening returns [None] when the abort
    arrives. *)
Theorem killed_wait_response_clears_all (m : Message) (st : Skill) :
  let killed := forward m (skill_id st +:+ ".get_response.killed") [] in
  (∃ st',
     _handle_killed_wait_response (Some m) st = (Ok tt, st')
     ∧ bus st' = bus st ++ [killed]
     ∧ (∀ k, responses st' !! k = (λ _, None) <$> responses st !! k)
     ∧ (∀ k, validated_responses st' !! k
             = (λ _, PNone) <$> validated_responses st !! k)
     ∧ ∀ sess, (await_validated sess Returned st').1 = Ok (Answer PNone))
  ∧ (∀ (dialog : string) (data : option pydict)
       (validator : option (string → pyval)) (on_fail : on_fail_arg)
       (num_retries : Z) (message dug : option Message)
       (pre more : list wait_event) (st0 st1 : Skill),
       get_response dialog data validator on_fail num_retries message dug
         pre st0 = (Ok Listening, st1) →
       (get_response dialog data validator on_fail num_retries message dug
          (pre ++ Aborted m :: more) st0).1 = Ok (Answer PNone)).
Proof.
  intros killed. split.
  - eexists. split; [reflexivity|]. split; [reflexivity|].
    split; [intros k; simpl; apply lookup_fmap|].
    split; [intros k; simpl; apply lookup_fmap|].
    intros sess. unfold await_validated. mstep.
    simpl (validated_responses _). rewrite lookup_fmap.
    by destruct (validated_responses st !! session_id sess).
  - intros dialog data validator on_fail num_retries message dug pre more
      st0 st1 Hpre.
    destruct (get_response_app _ _ _ _ _ _ _ _ _ _ Hpre)
      as (nf & l & Hslot & Hid & Hval & Happ).
    rewrite Happ, wait_loop_cons, wait_cycle_aborted.
    cbn [joined].
    match goal with
    | |- ((await_validated ?se Returned
           ≫= leave_response_mode ?i ?se ?m) ?s).1 = _ =>
        destruct (finish_answer i se m PNone s) as (s' & ->);
          [|done|done]
    end.
    simpl (validated_responses _). by rewrite lookup_fmap, Hval.
Qed.

End Properties.

(** * Examples in the small world *)

Section Examples.
Local Existing Instance Sample.world.

(** The intent file of the small world: the comment and the blank line are
    dropped, the samples are stripped. *)
Lemma read_samples_intent_file :
  read_samples <$> intent_file_text "en-US" "book_flight.intent"
  = Some ["book me a flight"; "I want to fly"].
Proof. reflexivity. Qed.

Lemma sample_distance_refl (t : string) : Sample.distance t t = 0%nat.
Proof. unfold Sample.distance. by rewrite String.eqb_refl. Qed.

(** [activate] with five minutes: the payload has a [timeout] and no
    [timeout_minutes]. *)
Lemma activate_payload_has_no_timeout_minutes :
  map (λ m, (msg_type m,
             dict_get (data m) "timeout", dict_get (data m) "timeout_minutes"))
      (bus (activate (PNum 5) None Sample.skill).2)
  = [("intent.service.skills.activate", Some (PNum 5), None)].
Proof. reflexivity. Qed.

(** Only French is registered and American English is asked for: no
    language is close enough. *)
Lemma get_closest_lang_threshold_witness :
  (10 ≤ Sample.distance "en-US" "fr-FR")%nat
  ∧ _get_closest_lang
      (set_converse_matchers (λ _, [("fr-FR", new_container true)])
         Sample.skill) "en-US" = None.
Proof.
  split; [vm_compute; lia|].
  destruct (get_closest_lang_threshold (H := Sample.world)
              sample_distance_refl sample_distance_refl)
    as [_ Hfr].
  apply (Hfr _ (new_container true)); [reflexivity | vm_compute; lia].
Defined.

(** Registering cancel_booking after book_flight: the container of en-US
    is the fresh one, there being no cancel_booking file. *)
Lemma register_converse_intent_replaces_witness :
  "en-US" ∈ native_langs
  ∧ dict_get
      (converse_matchers
         (register_converse_intent "cancel_booking.intent" "handle_cancel"
            (register_converse_intent "book_flight.intent" "handle_book"
               Sample.skill).2).2) "en-US"
    = Some (new_container true).
Proof.
  assert (Hin : "en-US" ∈ native_langs) by (vm_compute; left).
  split; [exact Hin|].
  exact (proj1 (proj2 (register_converse_intent_replaces (H := Sample.world)
           "book_flight.intent" "handle_book"
           "cancel_booking.intent" "handle_cancel" "en-US"
           Sample.skill Hin))).
Defined.

(** British English is registered, the session speaks American English:
    the language resolves to en-GB and the lookup of en-US fails. *)
Lemma converse_intents_lookup_ignores_resolved_lang_witness :
  _get_closest_lang Sample.british_skill
    (lang (Some (Sample.request ["book me a flight"]))) = Some "en-GB"
  ∧ _handle_converse_intents (Sample.request ["book me a flight"])
      Sample.british_skill
    = (Raise (KeyError "en-US"), Sample.british_skill)
  ∧ _handle_converse_request Sample.declines
      (Sample.request ["book me a flight"]) Sample.british_skill
    = (Raise (KeyError "en-US"), Sample.british_skill).
Proof.
  assert (Hc : _get_closest_lang Sample.british_skill
                 (lang (Some (Sample.request ["book me a flight"])))
               = Some "en-GB") by reflexivity.
  split; [exact Hc|].
  exact (proj2 (proj2 (converse_intents_lookup_ignores_resolved_lang
           (H := Sample.world)
           Sample.declines (Sample.request ["book me a flight"])
           Sample.british_skill "en-GB" "book me a flight" []
           Hc eq_refl eq_refl))).
Defined.

(** A request whose second utterance is a sample of the intent: with the
    container under en-US the intent is sent and the request answered;
    with the same container under en-GB only, the request ends with
    [KeyError].  Then an aborted handler and a failing one. *)
Lemma converse_request_responses_witness :
  map msg_type
    (bus (_handle_converse_request Sample.declines
            (Sample.request ["hello"; "book me a flight"])
            Sample.american_skill).2)
  = ["flights.converse:book_flight.intent"; "skill.converse.response"]
  ∧ _handle_converse_request Sample.declines
      (Sample.request ["book me a flight"]) Sample.british_skill
    = (Raise (KeyError "en-US"), Sample.british_skill)
  ∧ map data
      (bus (_handle_converse_request Sample.aborted
              (Sample.request ["hello"]) Sample.skill).2)
    = [[("skill_id", PStr "flights"); ("error", PStr "killed");
        ("result", PBool false)]]
  ∧ map data
      (bus (_handle_converse_request Sample.fails
              (Sample.request ["hello"]) Sample.skill).2)
    = [[("skill_id", PStr "flights"); ("error", PStr "ValueError()");
        ("result", PBool false)]].
Proof.
  split; [|split; [|split]].
  - destruct (converse_request_responses (H := Sample.world) Sample.declines
                (Sample.request ["hello"; "book me a flight"])
                Sample.american_skill) as [Hmatch _].
    rewrite (Hmatch "en-US"
               (add_intent "flights.converse:book_flight.intent"
                  ["book me a flight"] (new_container true))
               ["hello"] "book me a flight" []
               "flights.converse:book_flight.intent" 1%Q []
               eq_refl eq_refl eq_refl eq_refl eq_refl
               ltac:(vm_compute; discriminate)
               ltac:(intros v Hv; apply list_elem_of_singleton in Hv as ->;
                     reflexivity)
               ltac:(intros v Hv; by apply elem_of_nil in Hv)).
    reflexivity.
  - destruct (converse_request_responses (H := Sample.world) Sample.declines
                (Sample.request ["book me a flight"])
                Sample.british_skill) as (_ & Hlost & _).
    exact (Hlost "en-GB"
             (add_intent "flights.converse:book_flight.intent"
                ["book me a flight"] (new_container true))
             "book me a flight" []
             "flights.converse:book_flight.intent" 1%Q []
             eq_refl eq_refl eq_refl eq_refl eq_refl eq_refl
             ltac:(vm_compute; discriminate)).
  - destruct (converse_request_responses (H := Sample.world) Sample.aborted
                (Sample.request ["hello"]) Sample.skill)
      as (_ & _ & _ & Hfail).
    rewrite (Hfail None Sample.skill (utterances_val ["hello"]) "en-US"
               AbortEvent Sample.skill eq_refl ltac:(discriminate)
               eq_refl eq_refl eq_refl).
    reflexivity.
  - destruct (converse_request_responses (H := Sample.world) Sample.fails
                (Sample.request ["hello"]) Sample.skill)
      as (_ & _ & _ & Hfail).
    rewrite (Hfail None Sample.skill (utterances_val ["hello"]) "en-US"
               (OtherError "ValueError") Sample.skill eq_refl
               ltac:(discriminate) eq_refl eq_refl eq_refl).
    reflexivity.
Defined.

(** The counter at 1, a budget of 2, and an utterance that the validator
    rejects while [on_fail] gives nothing to speak: the microphone is asked
    again and the counter is still 1. *)
Lemma empty_cycles_counter_and_budget_witness :
  wait_cycle (λ _, false) Sample.yes_no (λ _, PStr "") 2
    (Sample.request []) default_session 1 (Heard "default" ["maybe"])
    Sample.listening_skill
  = (Ok (Waiting 1),
     set_bus (λ b, b ++ [reply (Sample.request []) "mycroft.mic.listen" [] []])
       (set_responses <["default" := Some []]>
          (set_responses <["default" := Some ["maybe"]]>
             Sample.listening_skill))).
Proof.
  exact (proj1 (proj2 (empty_cycles_counter_and_budget (H := Sample.world)))
           (λ _, false) Sample.yes_no (λ _, PStr "") 2
           (Sample.request []) default_session 1 "maybe" []
           Sample.listening_skill
           ltac:(exists (Some []); reflexivity) eq_refl eq_refl).
Defined.

(** [get_response] as it is called by default (no dialog, no [on_fail]),
    with a budget of 2: the rejected utterance maybe is followed by
    mycroft.mic.listen and leaves the counter at 1, so the empty cycle
    after it is the second one and ends the collection with [None]; had
    the counter been reset, [get_response] would still be listening. *)
Lemma rejected_utterance_keeps_counter :
  (wait_cycle (is_cancel default_session) Sample.yes_no
     (on_fail_fn "" [] OnFailNone) 2 (Sample.request []) default_session 1
     (Heard "default" ["maybe"]) Sample.listening_skill).1
  = Ok (Waiting 1)
  ∧ map msg_type
      (bus (wait_cycle (is_cancel default_session) Sample.yes_no
              (on_fail_fn "" [] OnFailNone) 2 (Sample.request [])
              default_session 1 (Heard "default" ["maybe"])
              Sample.listening_skill).2)
    = ["mycroft.mic.listen"]
  ∧ (get_response "" None (Some Sample.yes_no) OnFailNone 2 None None
       [Silence; Heard "default" ["maybe"]] Sample.skill).1
    = Ok Listening
  ∧ (get_response "" None (Some Sample.yes_no) OnFailNone 2 None None
       [Silence; Heard "default" ["maybe"]; Silence] Sample.skill).1
    = Ok (Answer PNone).
Proof. repeat split; vm_compute; reflexivity. Qed.

(** The validator maps yeah sure to yes: [get_response] returns yes. *)
Lemma get_response_returns_validated_value_witness :
  (get_response "" None (Some Sample.yes_no) OnFailNone (-1) None None
     [Heard "default" ["yeah sure"]] Sample.skill).1
  = Ok (Answer (PStr "yes")).
Proof.
  apply (get_response_returns_validated_value (H := Sample.world)
           "" None (Some Sample.yes_no)
           OnFailNone (-1) None None [] [] "yeah sure" [] Sample.skill
           (get_response "" None (Some Sample.yes_no) OnFailNone (-1) None
              None [] Sample.skill).2
           eq_refl eq_refl eq_refl).
  discriminate.
Defined.

(** The validator answers with a list: [get_response] returns its first
    element, not the list. *)
Lemma get_response_list_value_not_verbatim :
  truthy (Sample.alternatives "yeah sure") = true
  ∧ is_True (Sample.alternatives "yeah sure") = false
  ∧ (get_response "" None (Some Sample.alternatives) OnFailNone (-1) None
       None [Heard "default" ["yeah sure"]] Sample.skill).1
    = Ok (Answer (PStr "yes"))
  ∧ PStr "yes" ≠ Sample.alternatives "yeah sure".
Proof. repeat split; [reflexivity..|discriminate]. Qed.

(** An empty utterance that the default validator accepts: the worker
    returns and the poll of [get_response] never ends. *)
Lemma get_response_empty_utterance_unanswered :
  (get_response "" None None OnFailNone (-1) None None
     [Heard "default" [""]] Sample.skill).1
  = Ok Unanswered.
Proof. reflexivity. Qed.

(** The user says cancel and the validator accepts every text. *)
Lemma get_response_cancel_returns_none_witness :
  (get_response "" None (Some (λ _, PBool true)) OnFailNone (-1) None None
     [Heard "default" ["cancel"]] Sample.skill).1
  = Ok (Answer PNone).
Proof.
  exact (get_response_cancel_returns_none (H := Sample.world)
           "" None (Some (λ _, PBool true))
           OnFailNone (-1) None None [] [] "cancel" [] Sample.skill
           (get_response "" None (Some (λ _, PBool true)) OnFailNone (-1)
              None None [] Sample.skill).2
           eq_refl eq_refl).
Defined.

(** An abort after one silent cycle. *)
Lemma killed_wait_response_clears_all_witness :
  (get_response "" None None OnFailNone (-1) None None
     [Silence; Aborted Sample.abort_message] Sample.skill).1
  = Ok (Answer PNone).
Proof.
  destruct (killed_wait_response_clears_all (H := Sample.world)
              Sample.abort_message
              Sample.skill) as [_ Hget].
  exact (Hget "" None None OnFailNone (-1) None None [Silence] []
           Sample.skill
           (get_response "" None None OnFailNone (-1) None None [Silence]
              Sample.skill).2
           eq_refl).
Defined.

End Examples.

(** * The code at its edges

    Properties of the functions above that the code itself shows: what they
    do on empty or missing input, what they leave alone, and how they
    compose. *)

Section Edges.
Context `{Collaborators} `{Environment}.

Ltac run :=
  repeat first
    [ rewrite bind_run | rewrite ret_run | rewrite gets_run
    | rewrite modify_run | rewrite emit_run | progress cbv beta iota ].

(** ** Text *)

Lemma string_app_assoc (a b c : string) : (a +:+ b) +:+ c = a +:+ (b +:+ c).
Proof.
  induction a as [|x a IH]; [done|].
  change (String x ((a +:+ b) +:+ c) = String x (a +:+ (b +:+ c))).
  by rewrite IH.
Qed.

Lemma string_app_nil_r (a : string) : a +:+ "" = a.
Proof.
  induction a as [|x a IH]; [done|].
  change (String x (a +:+ "") = String x a). by rewrite IH.
Qed.

Lemma simple_trace_fold (lines : list string) (tb : string) :
  fold_left
    (λ tb line, if negb (String.eqb (strip line) "") then tb +:+ line else tb)
    lines tb
  = tb +:+ foldr String.append ""
             (filter (λ line, negb (String.eqb (strip line) "")) lines).
Proof.
  revert tb. induction lines as [|l lines IH]; intros tb; simpl.
  - by rewrite string_app_nil_r.
  - rewrite IH. rewrite filter_cons.
    destruct (negb (String.eqb (strip l) "")) eqn:E.
    + rewrite decide_True by (by apply Is_true_true).
      simpl. by rewrite string_app_assoc.
    + rewrite decide_False by (by apply Is_true_false). done.
Qed.

(** X1: [simple_trace] never shows the last entry of the stack trace it is
    given: of an empty trace it gives the heading alone, and of any other
    the heading followed by the entries before the last that are not made
    of white space only, in order. *)
Theorem simple_trace_drops_last :
  simple_trace [] = "Traceback:
"
  ∧ ∀ (entries : list string) (final : string),
      simple_trace (entries ++ [final])
      = "Traceback:
" +:+ foldr String.append ""
        (filter (λ line, negb (String.eqb (strip line) "")) entries).
Proof.
  split; [reflexivity|]. intros entries final.
  unfold simple_trace. rewrite removelast_last. apply simple_trace_fold.
Qed.

Local Abbreviation newline := (String "010"%char EmptyString).
Local Abbreviation one_line l :=
  ("010"%char ∉ String.list_ascii_of_string l).

Lemma split_lines_from_end (cur : list ascii) (l : string) :
  one_line l →
  split_lines_from cur l
  = [String.string_of_list_ascii (rev cur ++ String.list_ascii_of_string l)].
Proof.
  revert cur. induction l as [|c l IH]; intros cur Hl; simpl.
  - by rewrite app_nil_r.
  - simpl in Hl. apply not_elem_of_cons in Hl as [Hc Hl].
    destruct (Ascii.eqb_spec c "010"%char) as [->|_]; [done|].
    rewrite IH by done. simpl. by rewrite <- app_assoc.
Qed.

Lemma split_lines_from_line (cur : list ascii) (l rest : string) :
  one_line l →
  split_lines_from cur (l +:+ newline +:+ rest)
  = String.string_of_list_ascii (rev cur ++ String.list_ascii_of_string l)
    :: split_lines_from [] rest.
Proof.
  revert cur. induction l as [|c l IH]; intros cur Hl; simpl.
  - by rewrite app_nil_r.
  - simpl in Hl. apply not_elem_of_cons in Hl as [Hc Hl].
    destruct (Ascii.eqb_spec c "010"%char) as [->|_]; [done|].
    rewrite IH by done. simpl. by rewrite <- app_assoc.
Qed.

Lemma split_lines_join (l : string) (ls : list string) :
  Forall (λ l, one_line l) (l :: ls) →
  split_lines (String.concat newline (l :: ls)) = l :: ls.
Proof.
  revert l. induction ls as [|l' ls IH]; intros l Hall.
  - apply Forall_cons in Hall as [Hl _]. unfold split_lines. simpl.
    rewrite split_lines_from_end by done. simpl.
    by rewrite String.string_of_list_ascii_of_string.
  - apply Forall_cons in Hall as [Hl Hall]. unfold split_lines.
    change (String.concat newline (l :: l' :: ls))
      with (l +:+ newline +:+ String.concat newline (l' :: ls)).
    rewrite split_lines_from_line by done. simpl rev. simpl app.
    rewrite String.string_of_list_ascii_of_string.
    f_equal. by apply IH.
Qed.

(** X2: the samples read from an intent file are its lines, in order,
    without the empty lines and the lines that start with [#], each one
    stripped: for lines (without a line break inside) joined by line
    breaks, [read_samples] gives exactly these. *)
Theorem read_samples_of_lines (l : string) (ls : list string) :
  Forall (λ l, "010"%char ∉ String.list_ascii_of_string l) (l :: ls) →
  read_samples (String.concat (String "010"%char EmptyString) (l :: ls))
  = map strip
      (filter (λ l, negb (String.eqb l "") && negb (is_comment l)) (l :: ls)).
Proof.
  intros Hall. unfold read_samples. by rewrite split_lines_join.
Qed.

(** ** Language resolution *)

(** X3: what [_get_closest_lang] answers is a language that has a matcher
    registered, whatever the distance between tags is; and a language
    whose standard tag has a matcher registered resolves to that tag. *)
Theorem get_closest_lang_exact (st : Skill) (requested : string) :
  (∀ closest, _get_closest_lang st requested = Some closest →
     is_Some (dict_get (converse_matchers st) closest))
  ∧ (is_Some (dict_get (converse_matchers st) (standardize_lang_tag requested))
     → _get_closest_lang st requested
       = Some (standardize_lang_tag requested)).
Proof.
  split.
  - intros closest Hc. apply get_closest_lang_registered in Hc.
    apply not_eq_None_Some. rewrite dict_get_keys. tauto.
  - intros Hreg. apply not_eq_None_Some in Hreg.
    rewrite dict_get_keys in Hreg.
    assert (Hin : standardize_lang_tag requested
                  ∈ dict_keys (converse_matchers st)).
    { destruct (decide (standardize_lang_tag requested
                        ∈ dict_keys (converse_matchers st))); tauto. }
    unfold _get_closest_lang.
    destruct (converse_matchers st) as [|kv rest] eqn:Hm.
    { by apply elem_of_nil in Hin. }
    unfold closest_match. by rewrite bool_decide_eq_true_2.
Qed.

(** ** Converse intents *)

Local Abbreviation conf_of c u := (match_conf (calc_intent c u)).

Lemma score_utterances_rejected (message : Message) (c : IntentContainer)
    (us : list string) (thr : Q) (st : Skill) :
  dict_get (converse_matchers st) (lang (Some message)) = Some c →
  (∀ v, v ∈ us → (conf_of c v <= 0)%Q ∨ (conf_of c v < thr)%Q) →
  ∀ best resp,
    (0 <= best)%Q → resp = None ∨ (best < thr)%Q →
    ∃ best' resp',
      score_utterances message us best resp st = (Ok (best', resp'), st)
      ∧ (resp' = None ∨ (best' < thr)%Q).
Proof.
  intros Hc. induction us as [|v us IH]; intros Hus best resp Hnn Hinv.
  - by exists best, resp.
  - simpl. rewrite bind_run, gets_run. cbv beta iota. rewrite Hc.
    assert (Hrest : ∀ w, w ∈ us →
              (conf_of c w <= 0)%Q ∨ (conf_of c w < thr)%Q)
      by (intros w Hw; apply Hus; by right).
    destruct (Qltb best (conf_of c v)) eqn:E; [|by apply (IH Hrest)].
    apply Qltb_lt in E.
    assert (Hpos : (0 < conf_of c v)%Q) by (by apply (Qle_lt_trans _ best)).
    destruct (Hus v) as [Hle|Hlt]; [by left| |].
    { exfalso. by apply (Qlt_not_le _ _ Hpos). }
    destruct (calc_intent c v) as [|name conf entities]; simpl in *.
    + exfalso. by apply (Qlt_irrefl 0).
    + apply (IH Hrest); [by apply Qlt_le_weak|by right].
Qed.

(** X4: of the utterances of a converse request, the one whose intent is
    sent is the first one that reaches the highest confidence: when that
    confidence is above 0 and not below [min_intent_conf],
    [_handle_converse_intents] emits the intent of that utterance, and
    nothing else, and answers [True]. *)
Theorem converse_intents_first_best (message : Message) (st : Skill)
    (closest : string) (c : IntentContainer) (pre post : list string)
    (u name : string) (conf : Q) (entities : pydict) :
  _get_closest_lang st (lang (Some message)) = Some closest →
  dict_get (converse_matchers st) (lang (Some message)) = Some c →
  dict_get (data message) "utterances"
  = Some (utterances_val (pre ++ u :: post)) →
  calc_intent c u = Matched name conf entities →
  (0 < conf)%Q →
  (default (1 # 2)%Q settings_min_intent_conf <= conf)%Q →
  (∀ v, v ∈ pre → (match_conf (calc_intent c v) < conf)%Q) →
  (∀ v, v ∈ post → (match_conf (calc_intent c v) <= conf)%Q) →
  _handle_converse_intents message st
  = (Ok (Some true), set_bus (λ b, b ++ [forward message name entities]) st).
Proof.
  intros Hclosest Hc Hdata Hu Hpos Hthr Hpre Hpost.
  unfold _handle_converse_intents. rewrite bind_run, gets_run.
  cbv beta iota. rewrite Hclosest, bind_run.
  rewrite (data_utterances_run _ _ _ Hdata), bind_run.
  destruct (score_utterances_below message c pre (u :: post) conf st Hc Hpre
              0%Q None) as (best & resp & Hnn & Hlt & ->);
    [apply Qle_refl|done|].
  simpl score_utterances. rewrite bind_run, gets_run. cbv beta iota.
  rewrite Hc, Hu. cbn [match_conf].
  assert (Qltb best conf = true) as -> by (by apply Qltb_lt).
  rewrite (score_utterances_settled message c post conf _ st Hc Hpost).
  assert (Qltb conf (default (1 # 2)%Q settings_min_intent_conf) = false)
    as -> by (by apply Qltb_ge).
  reflexivity.
Qed.

(** X5: when every utterance of a converse request scores 0 or less, or
    below [min_intent_conf], [_handle_converse_intents] answers [False] and
    emits nothing; so an intent of confidence 0 is never sent, also when
    [min_intent_conf] is 0, and a request without utterances is answered
    [False]. *)
Theorem converse_intents_below_threshold (message : Message) (st : Skill)
    (closest : string) (c : IntentContainer) (us : list string) :
  _get_closest_lang st (lang (Some message)) = Some closest →
  dict_get (converse_matchers st) (lang (Some message)) = Some c →
  dict_get (data message) "utterances" = Some (utterances_val us) →
  (∀ v, v ∈ us →
     (match_conf (calc_intent c v) <= 0)%Q
     ∨ (match_conf (calc_intent c v)
        < default (1 # 2)%Q settings_min_intent_conf)%Q) →
  _handle_converse_intents message st = (Ok (Some false), st).
Proof.
  intros Hclosest Hc Hdata Hus.
  unfold _handle_converse_intents. rewrite bind_run, gets_run.
  cbv beta iota. rewrite Hclosest, bind_run.
  rewrite (data_utterances_run _ _ _ Hdata), bind_run.
  destruct (score_utterances_rejected message c us _ st Hc Hus 0%Q None)
    as (best & resp & -> & Hinv); [apply Qle_refl|by left|].
  destruct Hinv as [->|Hlt]; [done|].
  destruct resp as [r|]; [|done].
  by assert (Qltb best (default (1 # 2)%Q settings_min_intent_conf) = true)
    as -> by (by apply Qltb_lt).
Qed.

(** ** Converse requests *)

(** X6: a converse request is always answered: whenever the converse
    intents do not raise, [_handle_converse_request] returns normally and
    the last thing it emits is one skill.converse.response that carries the
    skill id and a result, whatever the converse handler does (answer,
    raise, be aborted) and also when the payload of the request lacks its
    utterances or its language. *)
Theorem converse_request_always_answers (converse : ConverseHandler)
    (message : Message) (st st1 : Skill) (handled : option bool) :
  _handle_converse_intents message st = (Ok handled, st1) →
  ∃ st2 response,
    _handle_converse_request converse message st
    = (Ok tt, set_bus (λ b, b ++ [response]) st2)
    ∧ msg_type response = "skill.converse.response"
    ∧ dict_get (data response) "skill_id" = Some (PStr (skill_id st))
    ∧ is_Some (dict_get (data response) "result").
Proof.
  intros Hintents. unfold _handle_converse_request.
  rewrite bind_run, gets_run. cbv beta iota. rewrite bind_run, Hintents.
  assert (Hleaf : ∀ (d : pydict) (s : Skill),
    dict_get d "skill_id" = Some (PStr (skill_id st)) →
    is_Some (dict_get d "result") →
    ∃ st2 response,
      emit (reply message "skill.converse.response" d []) s
      = (Ok tt, set_bus (λ b, b ++ [response]) st2)
      ∧ msg_type response = "skill.converse.response"
      ∧ dict_get (data response) "skill_id" = Some (PStr (skill_id st))
      ∧ is_Some (dict_get (data response) "result")).
  { intros d s Hd Hr. by eexists _, _. }
  destruct (default false handled); [by apply Hleaf|].
  unfold try_except, subscript.
  destruct (dict_get (data message) "utterances") as [us|];
    [|by apply Hleaf].
  rewrite bind_run, ret_run. cbv beta iota.
  destruct (dict_get (data message) "lang") as [l|]; [|by apply Hleaf].
  rewrite bind_run, ret_run. cbv beta iota. rewrite bind_run.
  destruct l as [| | |l| |]; try (by apply Hleaf).
  rewrite ret_run. cbv beta iota. rewrite bind_run.
  destruct (call converse _ st1) as [[result|e] st2].
  - by apply Hleaf.
  - destruct (is_abort e); by apply Hleaf.
Qed.

(** X7: a converse request whose payload has no utterances.  When no
    language with converse intents resolves, the [KeyError] is caught and
    reported in the response, and the converse handler is not called.
    When one resolves, the utterances are read outside the [try]: the
    [KeyError] leaves the handler and no response is emitted. *)
Theorem converse_request_without_utterances (converse : ConverseHandler)
    (message : Message) (st : Skill) :
  dict_get (data message) "utterances" = None →
  _handle_converse_request converse message st
  = match _get_closest_lang st (lang (Some message)) with
    | None =>
        (Ok tt,
         set_bus (λ b, b ++ [reply message "skill.converse.response"
                               (converse_failure (skill_id st)
                                  (repr (KeyError "utterances"))) []]) st)
    | Some _ => (Raise (KeyError "utterances"), st)
    end.
Proof.
  intros Hdata. unfold _handle_converse_request, _handle_converse_intents.
  rewrite bind_run, gets_run. cbv beta iota.
  rewrite !bind_run, gets_run. cbv beta iota.
  destruct (_get_closest_lang st (lang (Some message))).
  - unfold data_utterances, subscript. rewrite !bind_run, Hdata. done.
  - rewrite ret_run. simpl. unfold try_except, subscript.
    rewrite bind_run, Hdata. done.
Qed.

(** ** Registration *)

(** X8: [register_converse_intent] registers the handler once, under the
    name of the intent, also when no language has the intent file; it
    leaves the matchers of the languages that are not native as they are,
    and the bus and the mailboxes too. *)
Theorem register_converse_intent_frame (intent_file handler : string)
    (st : Skill) :
  ∃ st',
    register_converse_intent intent_file handler st = (Ok tt, st')
    ∧ events st'
      = events st ++ [(skill_id st +:+ ".converse:" +:+ intent_file, handler,
                       Some "mycroft.skill.handler")]
    ∧ (∀ lang, lang ∉ native_langs →
         dict_get (converse_matchers st') lang
         = dict_get (converse_matchers st) lang)
    ∧ skill_id st' = skill_id st
    ∧ bus st' = bus st
    ∧ responses st' = responses st
    ∧ validated_responses st' = validated_responses st.
Proof.
  unfold register_converse_intent.
  destruct (register_loop_spec
              (skill_id st +:+ ".converse:" +:+ intent_file) intent_file
              (negb (default false settings_strict_intents)) native_langs st)
    as (matchers & Hrun & _ & Hout).
  eexists. split.
  - rewrite bind_run, gets_run. cbv beta iota. rewrite bind_run.
    simpl in Hrun. rewrite Hrun. reflexivity.
  - by repeat split.
Qed.

(** ** Sessions do not disturb each other *)

Section Isolation.
Variable other : string.

(** Two states of the skill that differ at most in the pending mailbox of
    the session [other]. *)
Local Abbreviation agree st1 st2 :=
  (skill_id st1 = skill_id st2
   ∧ converse_matchers st1 = converse_matchers st2
   ∧ events st1 = events st2
   ∧ validated_responses st1 = validated_responses st2
   ∧ bus st1 = bus st2
   ∧ ∀ j : string, j ≠ other → responses st1 !! j = responses st2 !! j).

(** A method that does the same in two such states. *)
Local Abbreviation sim m :=
  (∀ st1 st2 : Skill, agree st1 st2 →
     (m st1).1 = (m st2).1 ∧ agree (m st1).2 (m st2).2).

Lemma sim_ret {A : Type} (a : A) : sim (mret a : M A).
Proof. intros st1 st2 Hag. split; [done|exact Hag]. Qed.

Lemma sim_raise {A : Type} (e : exn) : sim (raise e : M A).
Proof. intros st1 st2 Hag. split; [done|exact Hag]. Qed.

Lemma sim_bind {A B : Type} (m : M A) (f : A → M B) :
  sim m → (∀ a, sim (f a)) → sim (m ≫= f).
Proof.
  intros Hm Hf st1 st2 Hag. rewrite !bind_run.
  specialize (Hm st1 st2 Hag).
  destruct (m st1) as [[a|e] s1], (m st2) as [[a2|e2] s2];
    destruct Hm as [Heq Hag']; cbn [fst snd] in *; try discriminate.
  - injection Heq as <-. by apply Hf.
  - injection Heq as <-. split; [done|exact Hag'].
Qed.

Lemma sim_gets {A : Type} (g : Skill → A) :
  (∀ st1 st2, agree st1 st2 → g st1 = g st2) → sim (gets g).
Proof.
  intros Hg st1 st2 Hag. rewrite !gets_run. cbn [fst snd].
  split; [by rewrite (Hg st1 st2 Hag)|exact Hag].
Qed.

Lemma sim_emit (m : Message) : sim (emit m).
Proof.
  intros st1 st2 (? & ? & ? & ? & Hbus & Hslots). rewrite !emit_run.
  cbn [fst snd]. repeat split; simpl; try congruence. exact Hslots.
Qed.

Lemma sim_set_slot (j : string) (v : option (list string)) :
  sim (modify (set_responses <[j := v]>)).
Proof.
  intros st1 st2 (? & ? & ? & ? & ? & Hslots). rewrite !modify_run.
  cbn [fst snd]. repeat split; simpl; try congruence.
  intros j' Hj'. destruct (decide (j = j')) as [->|Hne].
  - by rewrite !lookup_insert_eq.
  - rewrite !lookup_insert_ne by done. by apply Hslots.
Qed.

Lemma sim_set_validated (f : gmap string pyval → gmap string pyval) :
  sim (modify (set_validated_responses f)).
Proof.
  intros st1 st2 (? & ? & ? & ? & ? & Hslots). rewrite !modify_run.
  cbn [fst snd]. repeat split; simpl; try congruence. exact Hslots.
Qed.

Lemma sim_clear :
  sim (modify (set_responses (fmap (λ _, None)))).
Proof.
  intros st1 st2 (? & ? & ? & ? & ? & Hslots). rewrite !modify_run.
  cbn [fst snd]. repeat split; simpl; try congruence.
  intros j Hj. by rewrite !lookup_fmap, (Hslots j Hj).
Qed.

Lemma sim_read {A : Type} (j : string)
    (k : option (option (list string)) → M A) :
  j ≠ other → (∀ v, sim (k v)) →
  sim (gets responses ≫= λ rs, k (rs !! j)).
Proof.
  intros Hj Hk st1 st2 Hag. rewrite !bind_run, !gets_run. cbv beta iota.
  assert (responses st1 !! j = responses st2 !! j) as ->
    by (by apply Hag).
  by apply Hk.
Qed.

Lemma sim_speak (utterance : pyval) (expect : bool) (meta : pydict)
    (dug : option Message) : sim (speak utterance expect meta dug).
Proof.
  unfold speak. apply sim_bind.
  - apply sim_gets. by intros st1 st2 (? & _).
  - intros sid. apply sim_emit.
Qed.

Lemma sim_handle_get_response (sid2 : string) (us : list string) :
  sim (__handle_get_response sid2 us).
Proof.
  unfold __handle_get_response.
  destruct (decide (sid2 = other)) as [->|Hne].
  - intros st1 st2 Hag. rewrite !bind_run, !gets_run. cbv beta iota.
    assert (Hin : ∀ s1 s2, agree s1 s2 →
              agree (set_responses <[other := Some us]> s1) s2).
    { intros s1 s2 (? & ? & ? & ? & ? & Hslots).
      repeat split; simpl; try congruence.
      intros j Hj. rewrite lookup_insert_ne by done. by apply Hslots. }
    assert (Hout : ∀ s1 s2, agree s1 s2 →
              agree s1 (set_responses <[other := Some us]> s2)).
    { intros s1 s2 (? & ? & ? & ? & ? & Hslots).
      repeat split; simpl; try congruence.
      intros j Hj. rewrite lookup_insert_ne by done. by apply Hslots. }
    destruct (responses st1 !! other), (responses st2 !! other);
      rewrite ?modify_run, ?ret_run; cbn [fst snd]; (split; [done|]).
    + by apply Hin, Hout.
    + by apply Hin.
    + by apply Hout.
    + done.
  - apply (sim_read sid2
             (λ v, match v with
                   | None => mret tt
                   | Some _ => modify (set_responses <[sid2 := Some us]>)
                   end)); [done|].
    intros [v|]; [apply sim_set_slot|apply sim_ret].
Qed.

Section Collection.
Variables (ic : string → bool) (vd : string → pyval)
  (onf : list string → pyval) (nr : Z) (msg : Message) (sess : Session).
Hypothesis Hother : session_id sess ≠ other.

Lemma sim_get_response (ev : wait_event) : sim (__get_response sess ev).
Proof.
  unfold __get_response. apply sim_bind.
  - destruct ev; [apply sim_ret|apply sim_handle_get_response|apply sim_ret].
  - intros _.
    apply (sim_read (session_id sess)
             (λ v, match v with
                   | None => raise (KeyError (session_id sess))
                   | Some ans => mret ans
                   end)); [done|].
    intros [v|]; [apply sim_ret|apply sim_raise].
Qed.

Lemma sim_reprompt_or_return (reprompt : pyval) (nf : Z) :
  sim (reprompt_or_return sess msg reprompt nf).
Proof.
  unfold reprompt_or_return.
  apply (sim_read (session_id sess)
           (λ v, match v with
                 | None | Some None => mret Returned
                 | Some (Some _) =>
                     (if truthy reprompt
                      then speak reprompt true [] (Some msg)
                      else emit (reply msg "mycroft.mic.listen" [] []));;
                     mret (Waiting nf)
                 end)); [done|].
  intros [[l|]|]; [|apply sim_ret..].
  apply sim_bind; [|intros _; apply sim_ret].
  destruct (truthy reprompt); [apply sim_speak|apply sim_emit].
Qed.

Lemma sim_validate_response (response : list string) :
  sim (_validate_response response sess ic vd onf).
Proof.
  unfold _validate_response. destruct response as [|ans rest].
  { apply sim_raise. }
  destruct (ic ans).
  { apply sim_bind; [apply sim_set_slot|intros _].
    apply sim_bind; [apply sim_set_validated|intros _]. apply sim_ret. }
  destruct (negb (truthy (vd ans))).
  - apply sim_bind; [apply sim_set_slot|intros _]. apply sim_ret.
  - apply sim_bind; [apply sim_set_validated|intros _].
    apply sim_bind; [apply sim_set_slot|intros _]. apply sim_ret.
Qed.

Lemma sim_killed_wait_response (dug : option Message) :
  sim (_handle_killed_wait_response dug).
Proof.
  unfold _handle_killed_wait_response.
  apply sim_bind; [apply sim_clear|intros _].
  apply sim_bind; [apply sim_set_validated|intros _].
  apply sim_bind; [apply sim_gets; by intros st1 st2 (? & _)|intros sid].
  apply sim_bind; [|intros m; apply sim_emit].
  unfold dug_forward. destruct dug; [apply sim_ret|apply sim_raise].
Qed.

Lemma sim_wait_cycle (nf : Z) (ev : wait_event) :
  sim (wait_cycle ic vd onf nr msg sess nf ev).
Proof.
  assert (Hrest : ∀ ev',
    sim (__get_response sess ev' ≫= λ response,
           match response with
           | None => mret Returned
           | Some [] =>
               let num_fails := nf + 1 in
               (if (nr <=? num_fails) && (0 <=? nr) then
                  modify (set_responses <[session_id sess := None]>);;
                  modify (set_validated_responses
                            <[session_id sess := PNone]>)
                else mret tt);;
               reprompt_or_return sess msg PNone num_fails
           | Some ((_ :: _) as response) =>
               reprompt ← _validate_response response sess ic vd onf;
               let num_fails := if truthy reprompt then 0 else nf in
               reprompt_or_return sess msg reprompt num_fails
           end)).
  { intros ev'. apply sim_bind; [apply sim_get_response|].
    intros [[|u rest]|]; [| |apply sim_ret].
    - cbv zeta. apply sim_bind; [|intros _; apply sim_reprompt_or_return].
      destruct ((nr <=? nf + 1) && (0 <=? nr)); [|apply sim_ret].
      apply sim_bind; [apply sim_set_slot|intros _].
      apply sim_set_validated.
    - apply sim_bind; [apply sim_validate_response|intros reprompt].
      apply sim_reprompt_or_return. }
  destruct ev as [|sid2 us|m]; [apply Hrest|apply Hrest|].
  unfold wait_cycle, abort_worker.
  apply sim_bind; [apply sim_killed_wait_response|intros _; apply sim_ret].
Qed.

Lemma sim_wait_loop (events : list wait_event) (nf : Z) :
  sim (wait_loop ic vd onf nr msg sess nf events).
Proof.
  revert nf. induction events as [|ev events IH]; intros nf.
  - apply sim_ret.
  - simpl. apply sim_bind; [apply sim_wait_cycle|].
    intros [nf'|]; [apply IH|apply sim_ret].
Qed.

Lemma sim_finish (sid : string) (w : worker) :
  sim (await_validated sess w ≫= leave_response_mode sid sess msg).
Proof.
  apply sim_bind.
  - unfold await_validated. destruct w; [apply sim_ret|].
    apply sim_bind; [apply sim_gets; intros st1 st2 Hag; apply Hag|].
    intros vs. cbv zeta.
    destruct (truthy _ || is_None _); [|apply sim_ret].
    apply sim_bind; [apply sim_set_validated|intros _].
    destruct (default PNone _) as [| | | |[|first items]|];
      try apply sim_ret. apply sim_raise.
  - intros ans. unfold leave_response_mode.
    destruct ans; try apply sim_ret.
    apply sim_bind; [apply sim_emit|intros _; apply sim_ret].
Qed.

(** Utterances delivered for the session [other] end the cycle as silence
    does, and leave their trace in the mailbox of [other] only. *)
Lemma wait_cycle_other_session (nf : Z) (us : list string) (st : Skill) :
  let heard := wait_cycle ic vd onf nr msg sess nf (Heard other us) st in
  let silent := wait_cycle ic vd onf nr msg sess nf Silence st in
  heard.1 = silent.1 ∧ agree heard.2 silent.2.
Proof.
  intros heard silent.
  assert (Hdelivered : ∃ st_h,
    __handle_get_response other us st = (Ok tt, st_h) ∧ agree st_h st).
  { unfold __handle_get_response. rewrite bind_run, gets_run.
    cbv beta iota. destruct (responses st !! other).
    - eexists. split; [reflexivity|]. repeat split; simpl.
      intros j Hj. by rewrite lookup_insert_ne.
    - by exists st. }
  destruct Hdelivered as (st_h & Hrun & Hag).
  assert (Hsame : heard = wait_cycle ic vd onf nr msg sess nf Silence st_h).
  { unfold heard, wait_cycle, __get_response.
    rewrite !bind_run, Hrun, ret_run. reflexivity. }
  rewrite Hsame. by apply sim_wait_cycle.
Qed.

End Collection.

(** X9: while [get_response] collects the answer of one session, utterances
    that arrive for another session are not taken for its answer: a wait
    cycle in which they arrive ends as a silent cycle does.  What
    [get_response] returns, what is on the bus and what the mailboxes of
    every session but the other one hold afterwards is the same in both
    cases. *)
Theorem get_response_ignores_other_sessions (dialog : string)
    (data : option pydict) (validator : option (string → pyval))
    (on_fail : on_fail_arg) (num_retries : Z) (message dug : option Message)
    (pre post : list wait_event) (us : list string) (st : Skill) :
  session_id (SessionManager_get (request_message (skill_id st) message dug))
  ≠ other →
  let heard :=
    get_response dialog data validator on_fail num_retries message dug
      (pre ++ Heard other us :: post) st in
  let silent :=
    get_response dialog data validator on_fail num_retries message dug
      (pre ++ Silence :: post) st in
  heard.1 = silent.1
  ∧ bus heard.2 = bus silent.2
  ∧ validated_responses heard.2 = validated_responses silent.2
  ∧ ∀ j, j ≠ other → responses heard.2 !! j = responses silent.2 !! j.
Proof.
  intros Hother heard silent.
  destruct (get_response_run dialog data validator on_fail num_retries
              message dug st) as (st0 & _ & _ & _ & _ & Hunfold).
  unfold heard, silent. rewrite !Hunfold, !wait_loop_app.
  set (session := enable_response_mode _ _) in *.
  set (msg := set_session _ _) in *.
  set (ic := is_cancel session). set (vd := default _ validator).
  set (onf := on_fail_fn _ _ _).
  assert (Hsession : session_id session ≠ other) by done.
  assert (Hgoal : ∀ r1 r2 s1 s2,
    r1 = r2 → agree s1 s2 →
    let h := (await_validated session (joined r1)
              ≫= leave_response_mode (skill_id st) session msg) s1 in
    let q := (await_validated session (joined r2)
              ≫= leave_response_mode (skill_id st) session msg) s2 in
    h.1 = q.1 ∧ bus h.2 = bus q.2
    ∧ validated_responses h.2 = validated_responses q.2
    ∧ ∀ j, j ≠ other → responses h.2 !! j = responses q.2 !! j).
  { intros r1 r2 s1 s2 <- Hag h q.
    destruct (sim_finish msg session (skill_id st) (joined r1) s1 s2 Hag)
      as (Hres & _ & _ & _ & Hval & Hbus & Hslots).
    by repeat split. }
  assert (Hrefl : ∀ s, agree s s) by (intros s; by repeat split).
  destruct (wait_loop ic vd onf num_retries msg session 0 pre st0)
    as [[[nf|]|e] s] eqn:Hpre.
  2,3: by apply Hgoal.
  rewrite !wait_loop_cons.
  destruct (wait_cycle_other_session ic vd onf num_retries msg session
              Hsession nf us s) as [Hres Hag].
  destruct (wait_cycle ic vd onf num_retries msg session nf
              (Heard other us) s) as [r1 s1].
  destruct (wait_cycle ic vd onf num_retries msg session nf Silence s)
    as [r2 s2].
  cbn [fst snd] in Hres, Hag. subst r2.
  destruct r1 as [[nf'|]|e]; [|by apply Hgoal..].
  destruct (sim_wait_loop ic vd onf num_retries msg session Hsession post nf'
              s1 s2 Hag) as [Hres' Hag'].
  destruct (wait_loop ic vd onf num_retries msg session nf' post s1)
    as [r1 s1'].
  destruct (wait_loop ic vd onf num_retries msg session nf' post s2)
    as [r2 s2'].
  cbn [fst snd] in Hres', Hag'. by apply Hgoal.
Qed.

End Isolation.

(** ** Every way a collection can go *)

Section Cycles.
Variables (ic : string → bool) (vd : string → pyval)
  (onf : list string → pyval) (nr : Z) (msg : Message) (sess : Session).

Local Abbreviation sid := (session_id sess).
Local Abbreviation accepted u := (if is_True (vd u) then PStr u else vd u).

(** What a cycle leaves in the two mailboxes of the session: the worker
    goes on waiting with both as they were, or it returns with the pending
    mailbox at [None] and the validated one at [None] or at the answer
    accepted in this cycle. *)
Local Abbreviation cycle_outcome heard v0 r st' :=
  (match r with
   | Waiting _ =>
       responses st' !! sid = Some (Some [])
       ∧ validated_responses st' !! sid = Some v0
   | Returned =>
       responses st' !! sid = Some None
       ∧ (validated_responses st' !! sid = Some PNone
          ∨ ∃ u rest,
              heard (Heard sid (u :: rest))
              ∧ ic u = false ∧ truthy (vd u) = true
              ∧ validated_responses st' !! sid = Some (accepted u))
   end).

Lemma wait_cycle_outcome_empty (nf : Z) (st : Skill) (v0 : pyval)
    (heard : wait_event → Prop) :
  responses st !! sid = Some (Some []) →
  validated_responses st !! sid = Some v0 →
  ∃ r st',
    ((if (nr <=? nf + 1) && (0 <=? nr) then
        modify (set_responses <[sid := None]>);;
        modify (set_validated_responses <[sid := PNone]>)
      else mret tt);;
     reprompt_or_return sess msg PNone (nf + 1)) st = (Ok r, st')
    ∧ cycle_outcome heard v0 r st'.
Proof.
  intros Hslot Hval. rewrite (empty_tail nr msg sess nf st Hslot).
  destruct ((nr <=? nf + 1) && (0 <=? nr)).
  - eexists _, _. split; [reflexivity|]. simpl.
    split; [apply lookup_insert_eq|]. left. apply lookup_insert_eq.
  - eexists _, _. split; [reflexivity|]. by split.
Qed.

Lemma wait_cycle_outcome_silence (nf : Z) (st : Skill) (v0 : pyval)
    (heard : wait_event → Prop) :
  responses st !! sid = Some (Some []) →
  validated_responses st !! sid = Some v0 →
  ∃ r st',
    wait_cycle ic vd onf nr msg sess nf Silence st = (Ok r, st')
    ∧ cycle_outcome heard v0 r st'.
Proof.
  intros Hslot Hval. rewrite wait_cycle_unfold by done.
  assert (__get_response sess Silence st = (Ok (Some []), st)) as ->.
  { unfold __get_response. run. by rewrite Hslot. }
  by apply (wait_cycle_outcome_empty nf st v0 heard).
Qed.

Lemma wait_cycle_outcome (nf : Z) (ev : wait_event) (st : Skill)
    (v0 : pyval) :
  responses st !! sid = Some (Some []) →
  validated_responses st !! sid = Some v0 →
  ∃ r st',
    wait_cycle ic vd onf nr msg sess nf ev st = (Ok r, st')
    ∧ cycle_outcome (λ e, e = ev) v0 r st'.
Proof.
  intros Hslot Hval. destruct ev as [|sid2 us|m].
  - by apply (wait_cycle_outcome_silence nf st v0 (λ e, e = Silence)).
  - destruct (decide (sid2 = sid)) as [->|Hne].
    + rewrite wait_cycle_unfold by done.
      assert (__get_response sess (Heard sid us) st
              = (Ok (Some us), set_responses <[sid := Some us]> st)) as ->.
      { unfold __get_response, __handle_get_response. run.
        rewrite Hslot. run. simpl (responses _).
        by rewrite lookup_insert_eq. }
      destruct us as [|u rest].
      { apply (wait_cycle_outcome_empty nf _ v0 (λ e, e = Heard sid []));
          simpl; [apply lookup_insert_eq|done]. }
      unfold _validate_response. run. destruct (ic u) eqn:Hic.
      { run. simpl (truthy PNone). cbv iota.
        rewrite reprompt_or_return_returned
          by (left; simpl; apply lookup_insert_eq).
        eexists _, _. split; [reflexivity|]. simpl.
        split; [apply lookup_insert_eq|]. left. apply lookup_insert_eq. }
      destruct (truthy (vd u)) eqn:Hv; cbn [negb]; cbv iota.
      * run. simpl (truthy PNone). cbv iota.
        rewrite reprompt_or_return_returned
          by (left; simpl; apply lookup_insert_eq).
        eexists _, _. split; [reflexivity|]. simpl.
        split; [apply lookup_insert_eq|]. right. exists u, rest.
        repeat split; try done; apply lookup_insert_eq.
      * run.
        set (st2 := set_responses <[sid := Some []]> _).
        assert (Hslot2 : responses st2 !! sid = Some (Some []))
          by (simpl; apply lookup_insert_eq).
        destruct (reprompt_or_return_waiting msg sess (onf (u :: rest))
                    (if truthy (onf (u :: rest)) then 0 else nf) st2 []
                    Hslot2) as (m & -> & _).
        eexists _, _. split; [reflexivity|]. by split.
    + assert (Hdelivered : ∃ st_h,
        __handle_get_response sid2 us st = (Ok tt, st_h)
        ∧ responses st_h !! sid = Some (Some [])
        ∧ validated_responses st_h !! sid = Some v0).
      { unfold __handle_get_response. run.
        destruct (responses st !! sid2).
        - eexists. split; [reflexivity|]. simpl.
          by rewrite lookup_insert_ne.
        - by exists st. }
      destruct Hdelivered as (st_h & Hrun & Hslot_h & Hval_h).
      assert (wait_cycle ic vd onf nr msg sess nf (Heard sid2 us) st
              = wait_cycle ic vd onf nr msg sess nf Silence st_h) as ->.
      { unfold wait_cycle, __get_response.
        rewrite !bind_run, Hrun, ret_run. reflexivity. }
      by apply (wait_cycle_outcome_silence nf st_h v0
                  (λ e, e = Heard sid2 us)).
  - rewrite wait_cycle_aborted. eexists _, _. split; [reflexivity|]. simpl.
    rewrite !lookup_fmap, Hslot, Hval. split; [done|by left].
Qed.

Lemma wait_loop_outcome (events : list wait_event) (v0 : pyval) :
  ∀ (nf : Z) (st : Skill),
    responses st !! sid = Some (Some []) →
    validated_responses st !! sid = Some v0 →
    ∃ r st',
      wait_loop ic vd onf nr msg sess nf events st = (Ok r, st')
      ∧ cycle_outcome (λ e, e ∈ events) v0 r st'.
Proof.
  induction events as [|ev events IH]; intros nf st Hslot Hval.
  - eexists _, _. split; [reflexivity|]. by split.
  - rewrite wait_loop_cons.
    destruct (wait_cycle_outcome nf ev st v0 Hslot Hval)
      as (r & st1 & -> & Hout).
    destruct r as [nf'|].
    + destruct Hout as [Hslot1 Hval1].
      destruct (IH nf' st1 Hslot1 Hval1) as (r & st' & -> & Hout).
      exists r, st'. split; [done|].
      destruct r; [done|]. destruct Hout as [Hs Hv]. split; [done|].
      destruct Hv as [Hv|(u & rest & Hin & Hrest)]; [by left|right].
      exists u, rest. split; [by right|done].
    + exists Returned, st1. split; [done|].
      destruct Hout as [Hs Hv]. split; [done|].
      destruct Hv as [Hv|(u & rest & <- & Hrest)]; [by left|right].
      exists u, rest. split; [by left|done].
Qed.

End Cycles.

(** The end of [get_response] when the worker has returned: the entry of
    the session is taken out of the validated mailbox and the session
    leaves response mode, or the poll goes on for ever. *)
Lemma finish_returned (sid : string) (session : Session) (msg : Message)
    (w : pyval) (s : Skill) :
  validated_responses s !! session_id session = Some w →
  w ≠ PList [] →
  (await_validated session Returned ≫= leave_response_mode sid session msg) s
  = if truthy w || is_None w
    then (Ok (Answer (match w with PList (first :: _) => first | _ => w end)),
          set_bus (λ b, b ++ [forward
                                (set_session
                                   (disable_response_mode sid session) msg)
                                "skill.converse.get_response.disable"
                                [("skill_id", PStr sid)]])
            (set_validated_responses (delete (session_id session)) s))
    else (Ok Unanswered, s).
Proof.
  intros Hw Hne. unfold await_validated. run. rewrite Hw.
  cbn [from_option id]. destruct (truthy w || is_None w); [|done].
  run. by destruct w as [| | | |[|first items]|].
Qed.

(** [get_response] is the cycles of the worker followed by the end of the
    poll; what the cycles leave in the mailboxes of the session. *)
Lemma get_response_trace (dialog : string) (data : option pydict)
    (validator : option (string → pyval)) (on_fail : on_fail_arg)
    (num_retries : Z) (message dug : option Message)
    (events : list wait_event) (st : Skill) :
  let sid := skill_id st in
  let request := request_message sid message dug in
  let session := enable_response_mode sid (SessionManager_get request) in
  let accepts := default (validator_default session) validator in
  ∃ r s,
    get_response dialog data validator on_fail num_retries message dug
      events st
    = (await_validated session r
       ≫= leave_response_mode sid session (set_session session request)) s
    ∧ match r with
      | Waiting _ =>
          responses s !! session_id session = Some (Some [])
          ∧ validated_responses s !! session_id session = Some (PList [])
      | Returned =>
          responses s !! session_id session = Some None
          ∧ (validated_responses s !! session_id session = Some PNone
             ∨ ∃ u rest,
                 Heard (session_id session) (u :: rest) ∈ events
                 ∧ is_cancel session u = false
                 ∧ truthy (accepts u) = true
                 ∧ validated_responses s !! session_id session
                   = Some (if is_True (accepts u) then PStr u
                           else accepts u))
      end.
Proof.
  intros sid request session accepts.
  destruct (get_response_run dialog data validator on_fail num_retries
              message dug st)
    as (st0 & _ & _ & Hslot0 & Hval0 & Hunfold).
  fold sid request session in Hslot0, Hval0, Hunfold.
  destruct (wait_loop_outcome (is_cancel session) accepts
              (on_fail_fn dialog (default [] data) on_fail) num_retries
              (set_session session request) session events (PList []) 0 st0
              Hslot0 Hval0) as (r & s & Hloop & Hout).
  exists r, s. split; [|exact Hout].
  rewrite Hunfold. fold accepts. by rewrite Hloop.
Qed.

Lemma accepted_value (accepts : string → pyval) (u : string) :
  truthy (accepts u) = true →
  let value := if is_True (accepts u) then PStr u else accepts u in
  value ≠ PList []
  ∧ (truthy value || is_None value = true → truthy value = true)
  ∧ (truthy value || is_None value = false → value = PStr "").
Proof.
  intros Hv value. unfold value.
  destruct (is_True (accepts u)) eqn:Ht.
  - split; [done|]. simpl. rewrite orb_false_r. split; [done|].
    intros Hu. f_equal. apply negb_false_iff in Hu.
    by apply String.eqb_eq in Hu.
  - split; [|split].
    + intros Heq. by rewrite Heq in Hv.
    + intros _. exact Hv.
    + by rewrite Hv.
Qed.


(** X11: [get_response] makes no answer up.  What it returns is [None], or
    comes from an utterance that was delivered for its session, that is not
    a cancel phrase and that the validator accepted: the utterance itself
    when the validator said [True], else what the validator said (its first
    element when that is a list); and it is never the empty utterance. *)
Theorem get_response_answer_sound (dialog : string) (data : option pydict)
    (validator : option (string → pyval)) (on_fail : on_fail_arg)
    (num_retries : Z) (message dug : option Message)
    (events : list wait_event) (st st' : Skill) (ans : pyval) :
  let sid := skill_id st in
  let session :=
    enable_response_mode sid
      (SessionManager_get (request_message sid message dug)) in
  let accepts := default (validator_default session) validator in
  get_response dialog data validator on_fail num_retries message dug
    events st = (Ok (Answer ans), st') →
  ans = PNone
  ∨ ∃ u rest,
      Heard (session_id session) (u :: rest) ∈ events
      ∧ is_cancel session u = false
      ∧ truthy (accepts u) = true
      ∧ let value := if is_True (accepts u) then PStr u else accepts u in
        truthy value = true
        ∧ ans = match value with PList (first :: _) => first | _ => value end.
Proof.
  intros sid session accepts.
  destruct (get_response_trace dialog data validator on_fail num_retries
              message dug events st) as (r & s & -> & Hout).
  fold sid session accepts in Hout |- *.
  destruct r as [nf|]; [done|].
  destruct Hout as [Hslot [Hval|(u & rest & Hin & Hic & Hv & Hval)]].
  - rewrite (finish_returned sid session _ PNone s Hval) by done.
    simpl. intros [= <- _]. by left.
  - destruct (accepted_value _ u Hv) as (Hne & Htrue & _).
    rewrite (finish_returned sid session _ _ s Hval Hne).
    destruct (truthy _ || is_None _) eqn:Hend; [|done].
    intros [= <- _]. right. exists u, rest.
    split; [done|]. split; [done|]. split; [done|].
    split; [by apply Htrue|reflexivity].
Qed.

(** With its default validator, what [get_response] answers is [None] or
    the first transcription of an utterance of its session. *)
Lemma get_response_default_answer (dialog : string) (data : option pydict)
    (on_fail : on_fail_arg) (num_retries : Z) (message dug : option Message)
    (events : list wait_event) (st st' : Skill) (ans : pyval) :
  let sid := skill_id st in
  let session :=
    enable_response_mode sid
      (SessionManager_get (request_message sid message dug)) in
  get_response dialog data None on_fail num_retries message dug events st
  = (Ok (Answer ans), st') →
  ans = PNone
  ∨ ∃ u rest,
      Heard (session_id session) (u :: rest) ∈ events
      ∧ is_cancel session u = false
      ∧ truthy (PStr u) = true
      ∧ ans = PStr u.
Proof.
  intros sid session.
  destruct (get_response_trace dialog data None on_fail num_retries
              message dug events st) as (r & s & -> & Hout).
  fold sid session in Hout |- *. cbn [from_option id] in Hout.
  destruct r as [nf|]; [done|].
  destruct Hout as [Hslot [Hval|(u & rest & Hin & Hic & Hv & Hval)]].
  - rewrite (finish_returned sid session _ PNone s Hval) by done.
    simpl. intros [= <- _]. by left.
  - revert Hval. unfold validator_default. rewrite Hic. simpl negb.
    cbn [is_True]. intros Hval.
    rewrite (finish_returned sid session _ (PStr u) s Hval) by done.
    destruct (truthy (PStr u) || is_None (PStr u)) eqn:Hend; [|done].
    intros [= <- _]. right. exists u, rest.
    repeat split; try done. by rewrite orb_false_r in Hend.
Qed.

(** X12: the budget of empty cycles.  With [num_retries] at 0 or more and
    nothing but silence, [get_response] listens through the first
    [max 1 num_retries - 1] cycles and returns [None] at the next one, and
    stays there: 0 and 1 both allow one cycle. *)
Theorem get_response_retry_budget (dialog : string) (data : option pydict)
    (validator : option (string → pyval)) (on_fail : on_fail_arg)
    (num_retries : Z) (message dug : option Message) (n : nat) (st : Skill) :
  0 ≤ num_retries →
  (get_response dialog data validator on_fail num_retries message dug
     (replicate n Silence) st).1
  = Ok (if Z.of_nat n <? Z.max 1 num_retries
        then Listening else Answer PNone).
Proof.
  intros Hnr.
  destruct (get_response_run dialog data validator on_fail num_retries
              message dug st)
    as (st0 & _ & _ & Hslot0 & Hval0 & Hunfold).
  rewrite Hunfold.
  set (session := enable_response_mode _ _) in *.
  set (msg := set_session _ _) in *.
  set (ic := is_cancel session). set (vd := default _ validator).
  set (onf := on_fail_fn _ _ _).
  assert (Hquiet : ∀ k : nat,
    Z.of_nat k < Z.max 1 num_retries →
    wait_loop ic vd onf num_retries msg session 0 (replicate k Silence) st0
    = (Ok (Waiting (Z.of_nat k)),
       set_bus (λ b, b ++ replicate k (reply msg "mycroft.mic.listen" [] []))
         st0)).
  { intros k Hk. destruct k as [|k].
    - simpl. rewrite ret_run. f_equal.
      destruct st0; unfold set_bus; simpl. f_equal. symmetry.
      apply app_nil_r.
    - rewrite (wait_loop_silence ic vd onf num_retries msg session (S k) 0 st0)
        by (done || lia). done. }
  destruct (Z.ltb_spec (Z.of_nat n) (Z.max 1 num_retries)) as [Hlt|Hge].
  { by rewrite (Hquiet n Hlt). }
  set (k := Z.to_nat (Z.max 1 num_retries - 1)).
  assert (Hn : n = (k + S (n - S k))%nat) by lia.
  rewrite Hn, replicate_add, wait_loop_app, (Hquiet k) by lia.
  change (replicate (S (n - S k)) Silence)
    with (Silence :: replicate (n - S k) Silence).
  rewrite wait_loop_cons, wait_cycle_silence by done.
  assert ((num_retries <=? Z.of_nat k + 1) && (0 <=? num_retries) = true)
    as -> by (apply andb_true_iff; split; lia).
  cbn [joined].
  match goal with
  | |- ((await_validated ?se Returned ≫= leave_response_mode ?i ?se ?m) ?s).1
       = _ =>
      rewrite (finish_returned i se m PNone s) by (done || apply lookup_insert_eq)
  end.
  done.
Qed.

(** X13: the mailbox of a session outlives the collection.  Deliveries are
    dropped for sessions that have no pending mailbox, but [get_response]
    leaves the mailbox of its session behind, holding [None]: utterances
    that are delivered for the session after [get_response] has returned
    are stored in it, though nothing waits for them. *)
Theorem late_delivery_is_stored (dialog : string) (data : option pydict)
    (validator : option (string → pyval)) (on_fail : on_fail_arg)
    (num_retries : Z) (message dug : option Message)
    (events : list wait_event) (st st' : Skill) (ans : pyval)
    (late : list string) :
  let sid := skill_id st in
  let session :=
    enable_response_mode sid
      (SessionManager_get (request_message sid message dug)) in
  get_response dialog data validator on_fail num_retries message dug
    events st = (Ok (Answer ans), st') →
  __handle_get_response (session_id session) late st'
  = (Ok tt, set_responses <[session_id session := Some late]> st').
Proof.
  intros sid session.
  destruct (get_response_trace dialog data validator on_fail num_retries
              message dug events st) as (r & s & -> & Hout).
  fold sid session in Hout |- *.
  destruct r as [nf|]; [done|].
  assert (Hstored : ∀ w,
    validated_responses s !! session_id session = Some w → w ≠ PList [] →
    (await_validated session Returned
     ≫= leave_response_mode sid session
          (set_session session (request_message sid message dug))) s
    = (Ok (Answer ans), st') →
    responses st' !! session_id session = Some None).
  { intros w Hval Hne. rewrite (finish_returned sid session _ w s Hval Hne).
    destruct (truthy w || is_None w); [|done].
    intros [= _ <-]. simpl. by destruct Hout. }
  intros Hget.
  assert (Hslot : responses st' !! session_id session = Some None).
  { destruct Hout as [_ [Hval|(u & rest & _ & _ & Hv & Hval)]].
    - by apply (Hstored PNone).
    - destruct (accepted_value _ u Hv) as (Hne & _).
      by apply (Hstored _ Hval). }
  unfold __handle_get_response. rewrite bind_run, gets_run. cbv beta iota.
  by rewrite Hslot.
Qed.

(** ** Stopping a session *)

(** X14: a stop request is always answered.  Whatever the stop methods of
    the skill do, raise included, [_handle_session_stop] returns normally
    and the last thing it emits is one <skill_id>.stop.response with the
    skill id and a result.  When the result is true the pending mailbox of
    the session holds [None] afterwards and no error is reported; in every
    other case the result is [False]. *)
Theorem session_stop_always_answers (methods : StopMethods)
    (message : Message) (st : Skill) :
  ∃ st' response result,
    _handle_session_stop methods message st
    = (Ok tt, set_bus (λ b, b ++ [response]) st')
    ∧ msg_type response = skill_id st +:+ ".stop.response"
    ∧ dict_get (data response) "skill_id" = Some (PStr (skill_id st))
    ∧ dict_get (data response) "result" = Some result
    ∧ if truthy result
      then responses st' !! session_id (SessionManager_get message)
           = Some None
           ∧ dict_get (data response) "error" = None
      else result = PBool false.
Proof.
  unfold _handle_session_stop. rewrite bind_run, gets_run. cbv beta iota zeta.
  rewrite bind_run. unfold try_except. rewrite bind_run.
  destruct (stop_session methods _ st) as [[a|e] st1].
  2:{ rewrite ret_run. simpl. run.
      eexists _, _, (PBool false). split; [reflexivity|]. by repeat split. }
  unfold or_else_False. destruct (truthy a) eqn:Ha.
  { run. simpl (dict_set _ _ _). simpl (dict_get _ _).
    cbn [from_option id]. rewrite Ha. run.
    eexists _, _, a. split; [reflexivity|]. rewrite Ha.
    repeat split. simpl. apply lookup_insert_eq. }
  rewrite !bind_run. destruct (stop methods st1) as [[b|e] st2].
  2:{ rewrite ret_run. simpl. run.
      eexists _, _, (PBool false). split; [reflexivity|]. by repeat split. }
  run. destruct (truthy b) eqn:Hb.
  - simpl (dict_set _ _ _). simpl (dict_get _ _).
    cbn [from_option id]. rewrite Hb. run.
    eexists _, _, b. split; [reflexivity|]. rewrite Hb.
    repeat split. simpl. apply lookup_insert_eq.
  - simpl. run.
    eexists _, _, (PBool false). split; [reflexivity|]. by repeat split.
Qed.

(** X15: when [stop_session] answers a true value, [stop] is not called:
    whatever [stop] would do, the response carries what [stop_session]
    answered, and the skill is as [stop_session] left it but for the
    pending mailbox of the session, which holds [None]. *)
Theorem session_stop_session_first (methods : StopMethods)
    (message : Message) (st st1 : Skill) (stopped : pyval) :
  stop_session methods (SessionManager_get message) st = (Ok stopped, st1) →
  truthy stopped = true →
  _handle_session_stop methods message st
  = (Ok tt,
     set_bus (λ b, b ++ [reply
                           (set_context "skill_id" (PStr (skill_id st))
                              message)
                           (skill_id st +:+ ".stop.response")
                           [("skill_id", PStr (skill_id st));
                            ("result", stopped)] []])
       (set_responses <[session_id (SessionManager_get message) := None]>
          st1)).
Proof.
  intros Hstop Ha.
  unfold _handle_session_stop. rewrite bind_run, gets_run. cbv beta iota zeta.
  rewrite bind_run. unfold try_except. rewrite bind_run.
  change (SessionManager_get (set_context _ _ message))
    with (SessionManager_get message).
  rewrite Hstop. unfold or_else_False. rewrite Ha. run.
  simpl (dict_set _ _ _). simpl (dict_get _ _).
  cbn [from_option id]. rewrite Ha. run. reflexivity.
Qed.

(** X16: a failure of [stop] is reported, not raised: when [stop_session]
    declines and [stop] raises, the response has result [False] and the
    text of the exception as error, and the mailboxes are as the two
    methods left them. *)
Theorem session_stop_failure_reported (methods : StopMethods)
    (message : Message) (st st1 st2 : Skill) (declined : pyval) (e : exn) :
  stop_session methods (SessionManager_get message) st = (Ok declined, st1) →
  truthy declined = false →
  stop methods st1 = (Raise e, st2) →
  _handle_session_stop methods message st
  = (Ok tt,
     set_bus (λ b, b ++ [reply
                           (set_context "skill_id" (PStr (skill_id st))
                              message)
                           (skill_id st +:+ ".stop.response")
                           [("skill_id", PStr (skill_id st));
                            ("result", PBool false);
                            ("error", PStr (str_error e))] []])
       st2).
Proof.
  intros Hstop Ha Hfail.
  unfold _handle_session_stop. rewrite bind_run, gets_run. cbv beta iota zeta.
  rewrite bind_run. unfold try_except. rewrite bind_run.
  change (SessionManager_get (set_context _ _ message))
    with (SessionManager_get message).
  rewrite Hstop. unfold or_else_False. rewrite Ha.
  rewrite !bind_run, Hfail. run. reflexivity.
Qed.

(** ** Notifications around a handler *)

(** X17: the exception of a failed handler stays in the data of its
    notifications.  [_on_event_error] writes the exception into the dict
    that the closures of the handler share, and nothing takes it out: after
    a failure that is not an abort, the start notification of every later
    run of the handler carries the exception of the earlier failure. *)
Theorem handler_failure_stays_in_skill_data (h : EventHandler)
    (info : string) (error : exn) (message : Message) (dug : option Message)
    (st : Skill) :
  is_abort error = false →
  given (handler_info h) = Some info →
  ∃ h' st',
    on_error h error message dug st = (Ok h', st')
    ∧ dict_get (skill_data h') "exception"
      = Some (PStr (repr_str (str_error error)))
    ∧ ∀ (later : Message) (st2 : Skill),
        ∃ started,
          on_start h' later st2
          = (Ok tt, set_bus (λ b, b ++ [started]) st2)
          ∧ msg_type started = info +:+ ".start"
          ∧ dict_get (data started) "exception"
            = Some (PStr (repr_str (str_error error))).
Proof.
  intros Habort Hinfo. unfold on_error, is_AbortEvent. rewrite Habort.
  unfold _on_event_error.
  destruct (given (handler_info h)) as [i|] eqn:Hi; [|done].
  injection Hinfo as ->. rewrite bind_run.
  assert (Hspoken : ∃ st1,
    ((if speak_errors h
      then speak
             (PStr (_get_dialog "skill.error" (lang (Some message))
                      (Some [("skill", PStr handler_name)])))
             false [] (Some message)
      else mret tt) ≫= λ _,
       (gets skill_id ≫= λ sid,
          emit (forward
                  (set_context "skill_id" (PStr sid)
                     (default (new_message "" [] []) (Some message)))
                  (info +:+ ".error")
                  (dict_set (skill_data h) "exception"
                     (PStr (repr_str (str_error error))))));;
       mret (dict_set (skill_data h) "exception"
               (PStr (repr_str (str_error error))))) st
    = (Ok (dict_set (skill_data h) "exception"
             (PStr (repr_str (str_error error)))), st1)).
  { destruct (speak_errors h); eexists; reflexivity. }
  destruct Hspoken as (st1 & ->). run.
  eexists _, _. split; [reflexivity|].
  unfold set_skill_data. cbn [handler_info skill_data].
  split; [apply dict_get_set_eq|].
  intros later st2. unfold on_start, _on_event_start.
  cbn [handler_info skill_data]. rewrite Hi. run. eexists. split; [reflexivity|].
  split; [done|]. simpl. apply dict_get_set_eq.
Qed.

(** ** Questions built on get_response *)

(** X18: what [ask_yesno] returns is [None] (for a cancel phrase, silence
    up to the budget or an abort: the solver is not asked), or comes from
    an utterance [u] of the session that is not a cancel phrase: yes when
    the solver says [True] of it, no when it says [False], and [u] itself
    when it says neither. *)
Theorem ask_yesno_answer (prompt : string) (data : option pydict)
    (dug : option Message) (events : list wait_event) (st st' : Skill)
    (ans : pyval) :
  let sid := skill_id st in
  let session :=
    enable_response_mode sid
      (SessionManager_get (request_message sid None dug)) in
  ask_yesno prompt data dug events st = (Ok (Answer ans), st') →
  ans = PNone
  ∨ ∃ u rest,
      Heard (session_id session) (u :: rest) ∈ events
      ∧ is_cancel session u = false
      ∧ let answer := match_yes_or_no (PStr u) (lang dug) in
        ans = if is_True answer then PStr "yes"
              else if is_False answer then PStr "no"
              else PStr u.
Proof.
  intros sid session. unfold ask_yesno. rewrite bind_run.
  destruct (get_response prompt data None OnFailNone (-1) None dug events st)
    as [[[resp| |]|e] s] eqn:Hget; try done.
  destruct (get_response_default_answer _ _ _ _ _ _ _ _ _ _ Hget)
    as [->|(u & rest & Hin & Hic & Htrue & ->)].
  { rewrite ret_run. intros [= <- _]. by left. }
  fold sid session in Hin, Hic. rewrite Htrue, ret_run.
  intros [= <- _]. right. by exists u, rest.
Qed.

(** The options are announced: one speak message each, or one for all. *)
Lemma announce_run (options : list (Z * string)) (dug : option Message)
    (st : Skill) :
  ∃ st',
    for_each options (λ '(idx, opt),
      let number := pronounce_number (idx + 1) (lang dug) in
      speak (PStr (number +:+ ", " +:+ opt)) false [] dug) st
    = (Ok tt, st')
    ∧ skill_id st' = skill_id st.
Proof.
  revert st. induction options as [|[idx opt] options IH]; intros st.
  - by exists st.
  - destruct (speak_run (PStr (pronounce_number (idx + 1) (lang dug)
                               +:+ ", " +:+ opt)) false [] dug st)
      as (m & Hm).
    destruct (IH (set_bus (λ b, b ++ [m]) st)) as (st' & Hrun & Hid).
    exists st'. split; [|done].
    cbn [for_each]. rewrite bind_run. cbv beta iota zeta. rewrite Hm.
    exact Hrun.
Qed.

(** X19: what [ask_selection] returns.  Without options it is [None], with
    one option that option, and in both cases nothing is said or asked.
    With more options it is [None], or it is what an utterance of the
    session that is not a cancel phrase selects. *)
Theorem ask_selection_answer (options : list string) (dialog : string)
    (data : option pydict) (min_conf : Q) (numeric : bool) (num_retries : Z)
    (dug : option Message) (events : list wait_event) (st st' : Skill)
    (ans : pyval) :
  let sid := skill_id st in
  let session :=
    enable_response_mode sid
      (SessionManager_get (request_message sid None dug)) in
  ask_selection options dialog data min_conf numeric num_retries dug events
    st = (Ok (Answer ans), st') →
  match options with
  | [] => ans = PNone ∧ st' = st
  | [only] => ans = PStr only ∧ st' = st
  | _ :: _ :: _ =>
      ans = PNone
      ∨ ∃ u rest,
          Heard (session_id session) (u :: rest) ∈ events
          ∧ is_cancel session u = false
          ∧ selected options min_conf u dug = Ok ans
  end.
Proof.
  intros sid session. unfold ask_selection.
  destruct options as [|a [|b options]].
  { by intros [= <- <-]. }
  { by intros [= <- <-]. }
  cbv beta iota. set (opts := a :: b :: options). rewrite bind_run.
  assert (Hannounce :
    (∃ e s, (if numeric then
               for_each (enumerate_from 0 opts) (λ '(idx, opt),
                 speak (PStr (pronounce_number (idx + 1) (lang dug)
                              +:+ ", " +:+ opt)) false [] dug)
             else
               opt_str ← lift (join_word_list opts "or" "," (lang dug));
               speak (PStr (opt_str +:+ "?")) false [] dug) st
            = (Raise e, s))
    ∨ ∃ s, (if numeric then
              for_each (enumerate_from 0 opts) (λ '(idx, opt),
                speak (PStr (pronounce_number (idx + 1) (lang dug)
                             +:+ ", " +:+ opt)) false [] dug)
            else
              opt_str ← lift (join_word_list opts "or" "," (lang dug));
              speak (PStr (opt_str +:+ "?")) false [] dug) st
           = (Ok tt, s) ∧ skill_id s = skill_id st).
  { destruct numeric.
    - right. apply announce_run.
    - rewrite bind_run. unfold lift.
      destruct (join_word_list opts "or" "," (lang dug)) as [joined|e].
      + right. cbv beta iota.
        destruct (speak_run (PStr (joined +:+ "?")) false [] dug st)
          as (m & ->).
        eexists. split; [reflexivity|done].
      + left. by eexists _, _. }
  destruct Hannounce as [(e & s & ->)|(s & -> & Hid)]; [done|].
  rewrite bind_run.
  destruct (get_response dialog data None OnFailNone num_retries None dug
              events s) as [[[resp| |]|e] s1] eqn:Hget; try done.
  destruct (get_response_default_answer _ _ _ _ _ _ _ _ _ _ Hget)
    as [->|(u & rest & Hin & Hic & Htrue & ->)].
  { cbv beta iota. cbn [truthy]. cbv iota. rewrite ret_run.
    intros [= <- _]. by left. }
  rewrite Hid in Hin, Hic. fold sid session in Hin, Hic.
  cbv beta iota. rewrite Htrue, bind_run. unfold lift.
  destruct (selected opts min_conf u dug) as [v|e] eqn:Hsel; [|done].
  rewrite ret_run. intros [= <- _]. right. by exists u, rest.
Qed.

Lemma list_index_elem {A : Type} (l : list A) (i : Z) (x : A) :
  list_index l i = Ok x → x ∈ l.
Proof.
  unfold list_index. destruct (_ <? 0); [done|].
  destruct (l !! _) as [y|] eqn:Hy; [|done].
  intros [= <-]. by eapply list_elem_of_lookup_2.
Qed.

(** X20: a response selects an option or nothing.  Provided the best fuzzy
    match is one of the options whenever its score reaches [min_conf], what
    [selected] gives is [None] or one of the options, also for numbers out
    of range and for negative numbers. *)
Theorem selected_is_an_option (options : list string) (min_conf : Q)
    (resp : string) (dug : option Message) (choice : pyval) :
  (Qltb (match_one resp options).2 min_conf = false →
   (match_one resp options).1 ∈ options) →
  selected options min_conf resp dug = Ok choice →
  choice = PNone ∨ ∃ opt, opt ∈ options ∧ choice = PStr opt.
Proof.
  intros Hbest. unfold selected.
  destruct (match_one resp options) as [best score]. simpl in Hbest.
  destruct (Qltb score min_conf).
  2:{ intros [= <-]. right. exists best. split; [by apply Hbest|done]. }
  destruct (voc_match resp "last" (lang dug)).
  { unfold last_item. destruct (last options) as [x|] eqn:Hlast; [|done].
    intros [= <-]. right. exists x.
    split; [by apply last_Some_elem_of|done]. }
  unfold option_by_number.
  destruct (extract_number resp (lang dug)) as [[z|q]|].
  - destruct (negb (z =? 0) && (z <=? Z.of_nat (length options))).
    + destruct (list_index options (z - 1)) as [x|e] eqn:Hx; [|done].
      intros [= <-]. right. exists x.
      split; [by eapply list_index_elem|done].
    + intros [= <-]. by left.
  - destruct (_ && _); [done|]. intros [= <-]. by left.
  - intros [= <-]. by left.
Qed.

(** X21: selection by number.  When the fuzzy match is below [min_conf] and
    the response is not the vocabulary of the last option, an integer [z]
    that is not 0 and not above the number of options selects by position:
    the option number [z] when [z] is positive, and, counting from the end,
    the option that is [1 - z] places before the end when [z] is negative,
    so that -1 selects the option before the last one. *)
Theorem selected_by_number (options : list string) (min_conf : Q)
    (resp : string) (dug : option Message) (z : Z) :
  Qltb (match_one resp options).2 min_conf = true →
  voc_match resp "last" (lang dug) = false →
  extract_number resp (lang dug) = Some (Int z) →
  z ≠ 0 → z ≤ Z.of_nat (length options) →
  let position :=
    if z <? 0 then Z.of_nat (length options) + z - 1 else z - 1 in
  0 ≤ position →
  ∃ opt,
    options !! Z.to_nat position = Some opt
    ∧ selected options min_conf resp dug = Ok (PStr opt).
Proof.
  intros Hscore Hlast Hnum Hz Hle position Hpos. unfold selected.
  destruct (match_one resp options) as [best score]. simpl in Hscore.
  rewrite Hscore, Hlast, Hnum. unfold option_by_number.
  assert (negb (z =? 0) && (z <=? Z.of_nat (length options)) = true) as ->
    by (apply andb_true_iff; split; [apply negb_true_iff|]; lia).
  unfold list_index.
  assert (Hsame : (if z - 1 <? 0 then z - 1 + Z.of_nat (length options)
                   else z - 1) = position).
  { unfold position. destruct (Z.ltb_spec z 0), (Z.ltb_spec (z - 1) 0); lia. }
  rewrite Hsame.
  assert ((position <? 0) = false) as -> by lia.
  destruct (lookup_lt_is_Some_2 options (Z.to_nat position)) as [opt Hopt].
  { unfold position in *. destruct (Z.ltb_spec z 0); lia. }
  exists opt. by rewrite Hopt.
Qed.

(** ** Joining words *)

(** X22: a connector that is neither and nor or.  The connecting words are
    read before the items are looked at, the connector is looked up after:
    with the words of the language at hand, [join_word_list] raises
    [KeyError] for two items or more, and for no item or one item it
    returns as with any connector. *)
Theorem join_word_list_unknown_connector (items : list string)
    (connector sep lang : string) (cons : list (string * string)) :
  connectors (if String.prefix "it" lang then "it"
              else if String.prefix "es" lang then "es" else lang)
  = Ok cons →
  connector ≠ "and" → connector ≠ "or" →
  join_word_list items connector sep lang
  = match items with
    | [] => Ok ""
    | [item] => Ok item
    | _ :: _ :: _ => Raise (KeyError connector)
    end.
Proof.
  intros Hcons Hand Hor.
  assert (Hword : connector_word cons connector = Raise (KeyError connector)).
  { revert Hcons. unfold connectors.
    destruct (_get_word _ "and") as [a|]; [|done]. simpl.
    destruct (_get_word _ "or") as [o|]; [|done]. simpl.
    intros [= <-]. unfold connector_word. cbn [dict_get].
    assert (String.eqb "and" connector = false) as ->
      by (apply String.eqb_neq; congruence).
    assert (String.eqb "or" connector = false) as ->
      by (apply String.eqb_neq; congruence).
    done. }
  unfold join_word_list. revert Hcons.
  destruct (String.prefix "it" lang); [|destruct (String.prefix "es" lang)];
    intros Hcons.
  - unfold _join_word_list_it. rewrite Hcons. simpl.
    destruct items as [|a [|b items]]; [done..|]. by rewrite Hword.
  - unfold _join_word_list_es. rewrite Hcons. simpl.
    destruct items as [|a [|b items]]; [done..|]. by rewrite Hword.
  - rewrite Hcons. simpl.
    destruct items as [|a [|b items]]; [done..|]. by rewrite Hword.
Qed.

(** X23: an empty last item.  In Italian, when the connecting word is e
    or o, [join_word_list] looks at the first letter of the last item: for
    two items or more of which the last is empty it raises [IndexError]. *)
Theorem join_word_list_it_empty_last_item (first second : string)
    (rest : list string) (connector sep lang : string)
    (cons : list (string * string)) :
  String.prefix "it" lang = true →
  connectors "it" = Ok cons →
  dict_get cons connector = Some "e" ∨ dict_get cons connector = Some "o" →
  last (second :: rest) = Some "" →
  join_word_list (first :: second :: rest) connector sep lang
  = Raise (OtherError "IndexError").
Proof.
  intros Hit Hcons Hword Hlast. unfold join_word_list. rewrite Hit.
  unfold _join_word_list_it. rewrite Hcons.
  cbv beta iota delta [mbind result_bind].
  assert (Hl : last_item (first :: second :: rest) = Ok "").
  { unfold last_item.
    change (last (first :: second :: rest)) with (last (second :: rest)).
    by rewrite Hlast. }
  unfold connector_word.
  destruct (last_item (first :: second :: rest)) as [l|]; [|done].
  injection Hl as ->.
  destruct (dict_get cons connector) as [w|]; [|by destruct Hword].
  assert (w = "e" ∨ w = "o") as [-> | ->]
    by (destruct Hword as [[= ->]|[= ->]]; auto).
  all: reflexivity.
Qed.

End Edges.

(** * More examples in the small world *)

Section MoreExamples.
Local Existing Instance Phrases.world.
Local Existing Instance Phrases.env.

(** A run whose result is computed, with the state it leaves. *)
Ltac ran :=
  match goal with
  | |- ?run = (?r, _) =>
      let Hr := fresh in
      assert (Hr : run.1 = r) by (vm_compute; reflexivity);
      rewrite <- Hr; apply surjective_pairing
  end.

(** A trace of three entries, the first of them an EM SPACE and a line
    break: the heading and the second entry are left. *)
Lemma simple_trace_drops_last_witness :
  simple_trace
    [Phrases.em_space +:+ "
"; "  File a.py, line 1
"; "KeyError: 'x'
"]
  = "Traceback:
  File a.py, line 1
".
Proof.
  exact (proj2 simple_trace_drops_last
           [Phrases.em_space +:+ "
"; "  File a.py, line 1
"] "KeyError: 'x'
").
Defined.

(** An intent file of five lines, with a NO-BREAK SPACE before and after
    a sample and a line that holds nothing else. *)
Lemma read_samples_of_lines_witness :
  read_samples
    (String.concat (String "010"%char EmptyString)
       ["book me a flight"; "# a comment"; "";
        Phrases.no_break_space +:+ " I want to fly "
          +:+ Phrases.no_break_space;
        Phrases.no_break_space])
  = ["book me a flight"; "I want to fly"; ""].
Proof.
  apply (read_samples_of_lines "book me a flight"
           ["# a comment"; "";
            Phrases.no_break_space +:+ " I want to fly "
              +:+ Phrases.no_break_space;
            Phrases.no_break_space]).
  repeat apply Forall_cons_2; try apply Forall_nil_2;
    apply (bool_decide_unpack _); vm_compute; exact I.
Defined.

(** British English is registered and asked for. *)
Lemma get_closest_lang_exact_witness :
  is_Some (dict_get (converse_matchers Sample.british_skill) "en-GB")
  ∧ _get_closest_lang Sample.british_skill "en-GB" = Some "en-GB".
Proof.
  assert (Hreg : is_Some (dict_get (converse_matchers Sample.british_skill)
                            (standardize_lang_tag "en-GB")))
    by (eexists; reflexivity).
  destruct (get_closest_lang_exact (H := Phrases.world)
              Sample.british_skill "en-GB") as [Hin Hexact].
  split; [exact (Hin "en-GB" (Hexact Hreg))|exact (Hexact Hreg)].
Defined.

(** Three utterances of which the second and the third match: the event of
    the second is sent. *)
Lemma converse_intents_first_best_witness :
  _handle_converse_intents
    (Sample.request ["hello"; "book me a flight"; "book me a flight"])
    Sample.american_skill
  = (Ok (Some true),
     set_bus (λ b, b ++ [forward
                           (Sample.request
                              ["hello"; "book me a flight";
                               "book me a flight"])
                           "flights.converse:book_flight.intent" []])
       Sample.american_skill).
Proof.
  apply (converse_intents_first_best (H := Phrases.world)
           (Sample.request ["hello"; "book me a flight"; "book me a flight"])
           Sample.american_skill "en-US"
           (add_intent "flights.converse:book_flight.intent"
              ["book me a flight"] (new_container true))
           ["hello"] ["book me a flight"] "book me a flight"
           "flights.converse:book_flight.intent" 1%Q []);
    try reflexivity.
  - vm_compute. discriminate.
  - intros v Hv. apply list_elem_of_singleton in Hv as ->. reflexivity.
  - intros v Hv. apply list_elem_of_singleton in Hv as ->.
    vm_compute. discriminate.
Defined.

(** Two utterances that match nothing. *)
Lemma converse_intents_below_threshold_witness :
  _handle_converse_intents (Sample.request ["hello"; "what"])
    Sample.american_skill
  = (Ok (Some false), Sample.american_skill).
Proof.
  apply (converse_intents_below_threshold (H := Phrases.world)
           (Sample.request ["hello"; "what"]) Sample.american_skill "en-US"
           (add_intent "flights.converse:book_flight.intent"
              ["book me a flight"] (new_container true))
           ["hello"; "what"]);
    try reflexivity.
  intros v Hv. left.
  apply elem_of_cons in Hv as [->|Hv];
    [|apply list_elem_of_singleton in Hv as ->]; vm_compute; discriminate.
Defined.

(** A converse handler that fails. *)
Lemma converse_request_always_answers_witness :
  ∃ st2 response,
    _handle_converse_request Sample.fails (Sample.request ["hello"])
      Sample.skill
    = (Ok tt, set_bus (λ b, b ++ [response]) st2)
    ∧ msg_type response = "skill.converse.response"
    ∧ dict_get (data response) "skill_id" = Some (PStr "flights")
    ∧ is_Some (dict_get (data response) "result").
Proof.
  exact (converse_request_always_answers (H := Phrases.world) Sample.fails
           (Sample.request ["hello"]) Sample.skill Sample.skill None
           eq_refl).
Defined.

(** A request without utterances, to a skill without converse intents and
    to one that has them. *)
Lemma converse_request_without_utterances_witness :
  map data
    (bus (_handle_converse_request Sample.declines
            (new_message "flights.converse.request"
               [("lang", PStr "en-US")] []) Sample.skill).2)
  = [[("skill_id", PStr "flights");
      ("error", PStr "KeyError('utterances')"); ("result", PBool false)]]
  ∧ _handle_converse_request Sample.declines
      (new_message "flights.converse.request" [("lang", PStr "en-US")] [])
      Sample.american_skill
    = (Raise (KeyError "utterances"), Sample.american_skill).
Proof.
  split.
  - rewrite (converse_request_without_utterances (H := Phrases.world)
               Sample.declines
               (new_message "flights.converse.request"
                  [("lang", PStr "en-US")] []) Sample.skill eq_refl).
    reflexivity.
  - rewrite (converse_request_without_utterances (H := Phrases.world)
               Sample.declines
               (new_message "flights.converse.request"
                  [("lang", PStr "en-US")] []) Sample.american_skill eq_refl).
    reflexivity.
Defined.

(** French and American English are native: the matcher of British English
    stays. *)
Lemma register_converse_intent_frame_witness :
  ("en-GB" ∉ native_langs)
  ∧ dict_get
      (converse_matchers
         (register_converse_intent "book_flight.intent" "handle_book"
            Sample.british_skill).2) "en-GB"
    = dict_get (converse_matchers Sample.british_skill) "en-GB".
Proof.
  assert (Hout : "en-GB" ∉ native_langs)
    by (apply (bool_decide_unpack _); vm_compute; exact I).
  split; [exact Hout|].
  destruct (register_converse_intent_frame (H := Phrases.world)
              "book_flight.intent" "handle_book" Sample.british_skill)
    as (st' & Hrun & _ & Hframe & _).
  rewrite Hrun. exact (Hframe "en-GB" Hout).
Defined.

(** While the default session is asked, the kitchen answers no. *)
Lemma get_response_ignores_other_sessions_witness :
  (get_response "" None None OnFailNone (-1) None None
     [Heard "kitchen" ["no"]; Heard "default" ["yes"]]
     (set_responses <["kitchen" := Some []]> Sample.skill)).1
  = (get_response "" None None OnFailNone (-1) None None
       [Silence; Heard "default" ["yes"]]
       (set_responses <["kitchen" := Some []]> Sample.skill)).1.
Proof.
  apply (get_response_ignores_other_sessions (H := Phrases.world) "kitchen"
           "" None None OnFailNone (-1) None None [] [Heard "default" ["yes"]]
           ["no"] (set_responses <["kitchen" := Some []]> Sample.skill)).
  vm_compute. discriminate.
Defined.


(** yeah sure, which the validator maps to yes. *)
Lemma get_response_answer_sound_witness :
  PStr "yes" = PNone
  ∨ ∃ u rest,
      Heard "default" (u :: rest) ∈ [Heard "default" ["yeah sure"]]
      ∧ is_cancel default_session u = false
      ∧ truthy (Sample.yes_no u) = true
      ∧ truthy (if is_True (Sample.yes_no u) then PStr u
                else Sample.yes_no u) = true
      ∧ PStr "yes"
        = match (if is_True (Sample.yes_no u) then PStr u
                 else Sample.yes_no u) with
          | PList (first :: _) => first
          | _ => if is_True (Sample.yes_no u) then PStr u
                 else Sample.yes_no u
          end.
Proof.
  exact (get_response_answer_sound (H := Phrases.world)
           "" None (Some Sample.yes_no) OnFailNone (-1) None None
           [Heard "default" ["yeah sure"]] Sample.skill
           (get_response "" None (Some Sample.yes_no) OnFailNone (-1) None
              None [Heard "default" ["yeah sure"]] Sample.skill).2
           (PStr "yes") ltac:(ran)).
Defined.

(** A budget of three and two silent cycles. *)
Lemma get_response_retry_budget_witness :
  (get_response "" None None OnFailNone 3 None None [Silence; Silence]
     Sample.skill).1
  = Ok Listening.
Proof.
  apply (get_response_retry_budget (H := Phrases.world)
           "" None None OnFailNone 3 None None 2 Sample.skill).
  lia.
Defined.

(** no is delivered after the answer yes has been returned. *)
Lemma late_delivery_is_stored_witness :
  let returned :=
    (get_response "" None None OnFailNone (-1) None None
       [Heard "default" ["yes"]] Sample.skill).2 in
  __handle_get_response "default" ["no"] returned
  = (Ok tt, set_responses <["default" := Some ["no"]]> returned).
Proof.
  exact (late_delivery_is_stored (H := Phrases.world)
           "" None None OnFailNone (-1) None None
           [Heard "default" ["yes"]] Sample.skill
           (get_response "" None None OnFailNone (-1) None None
              [Heard "default" ["yes"]] Sample.skill).2
           (PStr "yes") ["no"] ltac:(ran)).
Defined.

(** A skill whose [stop_session] stops the session and whose [stop] would
    raise. *)
Lemma session_stop_session_first_witness :
  map data
    (bus (_handle_session_stop Phrases.stops_session Phrases.stop_message
            Sample.skill).2)
  = [[("skill_id", PStr "flights"); ("result", PBool true)]].
Proof.
  rewrite (session_stop_session_first (H := Phrases.world)
             Phrases.stops_session Phrases.stop_message Sample.skill
             Sample.skill (PBool true) eq_refl eq_refl).
  reflexivity.
Defined.

(** A skill whose [stop] fails. *)
Lemma session_stop_failure_reported_witness :
  map data
    (bus (_handle_session_stop Phrases.stop_fails Phrases.stop_message
            Sample.listening_skill).2)
  = [[("skill_id", PStr "flights"); ("result", PBool false);
      ("error", PStr "player gone")]].
Proof.
  rewrite (session_stop_failure_reported (H := Phrases.world)
             (H0 := Phrases.env)
             Phrases.stop_fails Phrases.stop_message Sample.listening_skill
             Sample.listening_skill Sample.listening_skill (PBool false)
             (OtherError "player gone") eq_refl eq_refl eq_refl).
  reflexivity.
Defined.

(** The handler of an intent fails with boom. *)
Lemma handler_failure_stays_in_skill_data_witness :
  ∃ h' st',
    on_error Phrases.intent_handler (OtherError "boom") Phrases.stop_message
      None Sample.skill = (Ok h', st')
    ∧ dict_get (skill_data h') "exception" = Some (PStr "'boom'")
    ∧ ∀ (later : Message) (st2 : Skill),
        ∃ started,
          on_start h' later st2
          = (Ok tt, set_bus (λ b, b ++ [started]) st2)
          ∧ msg_type started = "mycroft.skill.handler.start"
          ∧ dict_get (data started) "exception" = Some (PStr "'boom'").
Proof.
  exact (handler_failure_stays_in_skill_data (H := Phrases.world)
           (H0 := Phrases.env) Phrases.intent_handler "mycroft.skill.handler"
           (OtherError "boom") Phrases.stop_message None Sample.skill
           eq_refl eq_refl).
Defined.

(** yeah sure is a yes. *)
Lemma ask_yesno_answer_witness :
  PStr "yes" = PNone
  ∨ ∃ u rest,
      Heard "default" (u :: rest) ∈ [Heard "default" ["yeah sure"]]
      ∧ is_cancel default_session u = false
      ∧ PStr "yes"
        = if is_True (Phrases.yes_or_no (PStr u) "en-US") then PStr "yes"
          else if is_False (Phrases.yes_or_no (PStr u) "en-US")
               then PStr "no"
               else PStr u.
Proof.
  exact (ask_yesno_answer (H := Phrases.world) (H0 := Phrases.env)
           "" None None [Heard "default" ["yeah sure"]] Sample.skill
           (ask_yesno "" None None [Heard "default" ["yeah sure"]]
              Sample.skill).2
           (PStr "yes") ltac:(ran)).
Defined.

(** Three colours and the answer the second one. *)
Lemma ask_selection_answer_witness :
  PStr "green" = PNone
  ∨ ∃ u rest,
      Heard "default" (u :: rest) ∈ [Heard "default" ["the second one"]]
      ∧ is_cancel default_session u = false
      ∧ selected ["red"; "green"; "blue"] (13 # 20) u None
        = Ok (PStr "green").
Proof.
  exact (ask_selection_answer (H := Phrases.world) (H0 := Phrases.env)
           ["red"; "green"; "blue"] "" None (13 # 20) false (-1) None
           [Heard "default" ["the second one"]] Sample.skill
           (ask_selection ["red"; "green"; "blue"] "" None (13 # 20) false
              (-1) None [Heard "default" ["the second one"]] Sample.skill).2
           (PStr "green") ltac:(ran)).
Defined.

(** The answer green, word for word. *)
Lemma selected_is_an_option_witness :
  PStr "green" = PNone
  ∨ ∃ opt, opt ∈ ["red"; "green"; "blue"] ∧ PStr "green" = PStr opt.
Proof.
  apply (selected_is_an_option (H := Phrases.world) (H0 := Phrases.env)
           ["red"; "green"; "blue"] (13 # 20) "green" None (PStr "green")).
  - intros _. apply (bool_decide_unpack _). vm_compute. exact I.
  - reflexivity.
Defined.

(** The answer minus one selects the colour before the last. *)
Lemma selected_by_number_witness :
  ∃ opt,
    ["red"; "green"; "blue"] !! 1%nat = Some opt
    ∧ selected ["red"; "green"; "blue"] (13 # 20) "minus one" None
      = Ok (PStr opt).
Proof.
  apply (selected_by_number (H := Phrases.world) (H0 := Phrases.env)
           ["red"; "green"; "blue"] (13 # 20) "minus one" None (-1));
    try reflexivity.
  - discriminate.
  - vm_compute. discriminate.
  - vm_compute. discriminate.
Defined.

(** a nor b in English. *)
Lemma join_word_list_unknown_connector_witness :
  join_word_list ["a"; "b"] "nor" "," "en-US" = Raise (KeyError "nor").
Proof.
  apply (join_word_list_unknown_connector (H := Phrases.world)
           (H0 := Phrases.env) ["a"; "b"] "nor" "," "en-US"
           [("and", "and"); ("or", "or")]);
    [reflexivity|discriminate|discriminate].
Defined.

(** mele and nothing in Italian. *)
Lemma join_word_list_it_empty_last_item_witness :
  join_word_list ["mele"; ""] "and" "," "it-IT"
  = Raise (OtherError "IndexError").
Proof.
  apply (join_word_list_it_empty_last_item (H := Phrases.world)
           (H0 := Phrases.env) "mele" "" [] "and" "," "it-IT"
           [("and", "e"); ("or", "o")]);
    [reflexivity|reflexivity|by left|reflexivity].
Defined.

End MoreExamples.
